(** * cert-manager external issuer: PKI adapter, mock CA and request lifecycle

    A shallow embedding of the signer package (PKI protocol adapter), of the
    legacy front-end of the mock CA server and of the CertificateRequest
    reconciler, with the properties of the design document checked against
    them.

    Conventions.  A Go [string] or [[]byte] is a [string] (a list of 8-bit
    characters).  A Go [int] is a [Z] in the 64-bit two's-complement range,
    with the wrap-around of [+] written out ([wrap64]).  A Go [map] is a
    [gmap]; the order in which [range] visits a map is not fixed by the
    language and is an input ([map_range]) where the code depends on it.
    Functions of the Go standard library whose result the code only passes
    on (PEM and ASN.1 decoding, the HTTP exchange, URL encoding, X.509
    signing), the random source, the clock and the cluster are inputs as
    well: the records [World], [Lib], [Draw] and [Env].  The string
    functions the code computes with are modelled below.  A computation
    that logs what it does to the outside returns its events with its
    result. *)

From Stdlib Require Import Strings.Ascii ZArith.
From stdpp Require Import gmap strings list fin_maps pretty.

Local Open Scope string_scope.
Local Open Scope list_scope.
Local Open Scope stdpp_scope.

(** ** Go's [strings] package, on byte strings *)

Module GoStrings.

(** [len(s)] and the slices [s[n:]], [s[:n]].  The code only slices inside
    the string, where Go does not panic. *)
Abbreviation len := String.length.

Fixpoint sliceFrom (n : nat) (s : string) : string :=
  match n, s with
  | 0, _ => s
  | S n', String _ s' => sliceFrom n' s'
  | S _, EmptyString => EmptyString
  end.

Fixpoint sliceTo (n : nat) (s : string) : string :=
  match n, s with
  | 0, _ => EmptyString
  | S n', String c s' => String c (sliceTo n' s')
  | S _, EmptyString => EmptyString
  end.

(** [s[i:j]] *)
Definition slice (i j : nat) (s : string) : string := sliceTo (j - i) (sliceFrom i s).

(** [strings.HasPrefix] *)
Fixpoint HasPrefix (s prefix : string) {struct prefix} : bool :=
  match prefix with
  | EmptyString => true
  | String p prefix' =>
      match s with
      | EmptyString => false
      | String c s' => if Ascii.eqb c p then HasPrefix s' prefix' else false
      end
  end.

(** [strings.Index]: offset of the first instance of [substr] in [s]; Go's
    [-1] is [None]. *)
Fixpoint Index (s substr : string) : option nat :=
  if HasPrefix s substr then Some 0
  else match s with
       | EmptyString => None
       | String _ s' => S <$> Index s' substr
       end.

(** [strings.Contains] *)
Definition Contains (s substr : string) : bool :=
  match Index s substr with Some _ => true | None => false end.

(** [strings.Join] *)
Fixpoint Join (elems : list string) (sep : string) : string :=
  match elems with
  | [] => ""
  | [e] => e
  | e :: rest => e +:+ sep +:+ Join rest sep
  end.

(** The six ASCII white-space bytes of [strings.TrimSpace]'s fast path
    (tab, line feed, vertical tab, form feed, carriage return, space). *)
Definition asciiSpace (c : ascii) : bool :=
  let n := nat_of_ascii c in
  (Nat.leb 9 n && Nat.leb n 13) || Nat.eqb n 32.

Fixpoint TrimLeft (s : string) : string :=
  match s with
  | String c s' => if asciiSpace c then TrimLeft s' else s
  | EmptyString => EmptyString
  end.

Fixpoint TrimRight (s : string) : string :=
  match s with
  | EmptyString => EmptyString
  | String c s' =>
      match TrimRight s' with
      | EmptyString => if asciiSpace c then EmptyString else String c EmptyString
      | t => String c t
      end
  end.

(** [strings.TrimSpace].  Go trims Unicode white space; on a string whose
    first and last bytes other than ASCII white space are ASCII this is the
    byte-wise trimming below (the fast path of the Go function). *)
Definition TrimSpace (s : string) : string := TrimRight (TrimLeft s).

(** [strings.Split(s, sep)] for a separator of one byte, the only use in
    this code ([";"] and ["/"]): the pieces between the separators, in
    order; one piece, the empty string, for the empty string. *)
Fixpoint Split (s : string) (sep : ascii) : list string :=
  match s with
  | EmptyString => [EmptyString]
  | String c s' =>
      if Ascii.eqb c sep then EmptyString :: Split s' sep
      else match Split s' sep with
           | [] => [String c EmptyString]
           | p :: ps => String c p :: ps
           end
  end.

(** [strings.ToUpper].  On a string of ASCII bytes Go maps the letters [a]
    to [z] byte by byte, as below; other strings it maps rune by rune. *)
Definition upperByte (c : ascii) : ascii :=
  let n := nat_of_ascii c in
  if Nat.leb 97 n && Nat.leb n 122 then ascii_of_nat (n - 32) else c.

Fixpoint ToUpper (s : string) : string :=
  match s with
  | EmptyString => EmptyString
  | String c s' => String (upperByte c) (ToUpper s')
  end.

End GoStrings.

(** ** The signer package: PKI protocol adapter *)

Module Signer.
Import GoStrings.

(** A Go call returns a value, returns an error (the message of the
    [error]), or panics. *)
Inductive result (A : Type) : Type :=
  | Ok (a : A)
  | Err (msg : string)
  | Panic.
Arguments Ok {A} a.
Arguments Err {A} msg.
Arguments Panic {A}.

(** [PKIParameters], [PKIResponse], [PKIAuth], [PKITLS], [PKIConfig] *)
Record PKIParameters := {
  ParamFormat : string;
  NewCertParam : string;
  NewCertValue : string;
  RenewCertParam : string;
  RenewCertValue : string;
  SubjectParam : string;
  SubjectDNFormat : string;
  DNSPrefix : string;
  DNSStartIndex : Z;
  DNSMaxCount : Z;
  GetCertParam : string;
  GetKeyParam : string;
  GetCSRParam : string
}.

Record PKIResponse := {
  Format : string;
  CertificateField : string;
  ChainField : string
}.

Record PKIAuth := {
  AuthType : string;
  HeaderName : string;
  SecretRef : string
}.

Record PKITLS := {
  InsecureSkipVerify : bool;
  CASecretRef : string
}.

Record PKIConfig := {
  BaseURL : string;
  Method : string;
  Parameters : PKIParameters;
  Response : PKIResponse;
  Auth : option PKIAuth;
  TLS : option PKITLS
}.

(** [http.Client] as far as the signer configures it. *)
Record Client := {
  TimeoutSeconds : Z;
  SkipVerify : bool
}.

Record PKISigner := {
  config : PKIConfig;
  httpClient : Client;
  authToken : string
}.

(** [pkix.Name] and [x509.CertificateRequest], the fields the code reads. *)
Record Name := {
  CommonName : string;
  Country : list string;
  Province : list string;
  Locality : list string;
  Organization : list string;
  OrganizationalUnit : list string
}.

Record CertificateRequest := {
  Subject : Name;
  DNSNames : list string;
  IPAddresses : list string;
  URIs : list string;
  EmailAddresses : list string;
  PublicKey : string
}.

(** [pem.Block] *)
Record Block := {
  BlockType : string;
  Bytes : string
}.

(** [http.Request] and the part of [http.Response] that is read: the status
    code and what [io.ReadAll] makes of the body (the bytes read and the
    read error, if any). *)
Record Request := {
  reqMethod : string;
  reqURL : string;
  reqBody : option string;
  reqHeader : gmap string string
}.

Record HTTPResponse := {
  StatusCode : Z;
  BodyData : string;
  BodyErr : option string
}.

(** [url.Values] *)
Abbreviation Values := (gmap string (list string)).

(** The library calls whose results the adapter passes on.  [Some e] of
    [url_ParseErr] is the error of [http.NewRequest] on a URL it cannot
    parse; [x509_CheckSignature] is [csr.CheckSignature()], [None] for a
    signature that verifies; [map_range] is the order in which one [range]
    over a [url.Values] visits its entries. *)
Record World := {
  pem_Decode : string → option Block;
  x509_ParseCertificateRequest : string → result CertificateRequest;
  x509_CheckSignature : CertificateRequest → option string;
  url_Encode : Values → string;
  url_ParseErr : string → option string;
  http_CanonicalHeaderKey : string → string;
  http_Do : Client → Request → result HTTPResponse;
  map_range : Values → list (string * list string)
}.

(** What Go guarantees about [range] over a map: every entry once. *)
Definition range_ok (w : World) (m : Values) : Prop :=
  map_range w m ≡ₚ map_to_list m.

Definition BEGIN_CERTIFICATE : string := "-----BEGIN CERTIFICATE-----".
Definition END_CERTIFICATE : string := "-----END CERTIFICATE-----".

(** 64-bit two's-complement wrap-around of [int] arithmetic. *)
Definition wrap64 (z : Z) : Z := ((z + 2 ^ 63) `mod` 2 ^ 64 - 2 ^ 63)%Z.

(** [NewPKISigner] *)
Definition NewPKISigner (cfg : PKIConfig) : PKISigner :=
  let client := {| TimeoutSeconds := 60; SkipVerify := false |} in
  let client :=
    match TLS cfg with
    | Some t =>
        if InsecureSkipVerify t
        then {| TimeoutSeconds := 60; SkipVerify := true |}
        else client
    | None => client
    end in
  {| config := cfg; httpClient := client; authToken := "" |}.

(** [SetAuthToken] *)
Definition SetAuthToken (s : PKISigner) (token : string) : PKISigner :=
  {| config := config s; httpClient := httpClient s; authToken := token |}.

(** [http.NewRequest] and [req.Header.Set] *)
Definition NewRequest (w : World) (method url : string) (body : option string)
  : result Request :=
  match url_ParseErr w url with
  | Some e => Err e
  | None => Ok {| reqMethod := method; reqURL := url; reqBody := body; reqHeader := ∅ |}
  end.

Definition HeaderSet (w : World) (req : Request) (key value : string) : Request :=
  {| reqMethod := reqMethod req; reqURL := reqURL req; reqBody := reqBody req;
     reqHeader := <[http_CanonicalHeaderKey w key := value]> (reqHeader req) |}.

(** [addAuth] *)
Definition addAuth (w : World) (s : PKISigner) (req : Request) : Request :=
  match Auth (config s) with
  | None => req
  | Some a =>
      if bool_decide (AuthType a = "header") then
        if bool_decide (authToken s ≠ "") then HeaderSet w req (HeaderName a) (authToken s)
        else req
      else if bool_decide (AuthType a = "basic") then
        if bool_decide (authToken s ≠ "")
        then HeaderSet w req "Authorization" ("Basic " +:+ authToken s)
        else req
      else if bool_decide (AuthType a = "bearer") then
        if bool_decide (authToken s ≠ "")
        then HeaderSet w req "Authorization" ("Bearer " +:+ authToken s)
        else req
      else req
  end.

(** [CheckHealth]: [Ok tt] is the nil error. *)
Definition CheckHealth (w : World) (s : PKISigner) : result unit :=
  match NewRequest w "GET" (BaseURL (config s)) None with
  | Err e => Err ("failed to create health check request: " +:+ e)
  | Panic => Panic
  | Ok req =>
      let req := addAuth w s req in
      match http_Do w (httpClient s) req with
      | Err e => Err ("failed to connect to PKI API: " +:+ e)
      | Panic => Panic
      | Ok resp =>
          if bool_decide (500 ≤ StatusCode resp)%Z
          then Err ("PKI API error: " +:+ pretty (StatusCode resp) +:+ ", " +:+ BodyData resp)
          else Ok tt
      end
  end.

(** The local [parts] of [buildSubjectDNSlash] when it reaches its
    [return]: one element per attribute value, most general first. *)
Definition slashParts (csr : CertificateRequest) : list string :=
  let parts := [] in
  let parts := foldl (λ parts c, parts ++ ["/C=" +:+ c]) parts (Country (Subject csr)) in
  let parts := foldl (λ parts st, parts ++ ["/ST=" +:+ st]) parts (Province (Subject csr)) in
  let parts := foldl (λ parts l, parts ++ ["/L=" +:+ l]) parts (Locality (Subject csr)) in
  let parts := foldl (λ parts o, parts ++ ["/O=" +:+ o]) parts (Organization (Subject csr)) in
  let parts := foldl (λ parts ou, parts ++ ["/OU=" +:+ ou]) parts
                 (OrganizationalUnit (Subject csr)) in
  let parts :=
    if bool_decide (CommonName (Subject csr) ≠ "")
    then parts ++ ["/CN=" +:+ CommonName (Subject csr)] else parts in
  match parts, DNSNames csr with
  | [], d :: _ => parts ++ ["/CN=" +:+ d]
  | _, _ => parts
  end.

(** [buildSubjectDNSlash] *)
Definition buildSubjectDNSlash (s : PKISigner) (csr : CertificateRequest) : string :=
  Join (slashParts csr) "".

(** The local [parts] of [buildSubjectDNComma], most specific first. *)
Definition commaParts (csr : CertificateRequest) : list string :=
  let parts := [] in
  let parts :=
    if bool_decide (CommonName (Subject csr) ≠ "")
    then parts ++ ["CN=" +:+ CommonName (Subject csr)] else parts in
  let parts := foldl (λ parts ou, parts ++ ["OU=" +:+ ou]) parts
                 (OrganizationalUnit (Subject csr)) in
  let parts := foldl (λ parts o, parts ++ ["O=" +:+ o]) parts (Organization (Subject csr)) in
  let parts := foldl (λ parts l, parts ++ ["L=" +:+ l]) parts (Locality (Subject csr)) in
  let parts := foldl (λ parts st, parts ++ ["ST=" +:+ st]) parts (Province (Subject csr)) in
  let parts := foldl (λ parts c, parts ++ ["C=" +:+ c]) parts (Country (Subject csr)) in
  match parts, DNSNames csr with
  | [], d :: _ => parts ++ ["CN=" +:+ d]
  | _, _ => parts
  end.

(** [buildSubjectDNComma] *)
Definition buildSubjectDNComma (s : PKISigner) (csr : CertificateRequest) : string :=
  Join (commaParts csr) ",".

(** [buildSubjectDN] *)
Definition buildSubjectDN (s : PKISigner) (csr : CertificateRequest) : string :=
  if bool_decide (SubjectDNFormat (Parameters (config s)) = "slash")
  then buildSubjectDNSlash s csr
  else buildSubjectDNComma s csr.

(** [params.Set(key, value)] on a [url.Values] *)
Definition ValuesSet (params : Values) (key value : string) : Values :=
  <[key := [value]]> params.

(** The [for i, dns := range csr.DNSNames] loop of [buildRequestParams],
    from index [i] on. *)
Fixpoint sanLoop (prefix : string) (startIdx maxCount i : Z) (names : list string)
    (params : Values) : Values :=
  match names with
  | [] => params
  | dns :: rest =>
      if bool_decide (maxCount ≤ i)%Z then params
      else sanLoop prefix startIdx maxCount (i + 1)%Z rest
             (ValuesSet params (prefix +:+ pretty (wrap64 (startIdx + i)%Z)) dns)
  end.

(** The start index and the cap after the defaults are applied. *)
Definition effectiveStart (cfg : PKIParameters) : Z :=
  if bool_decide (DNSStartIndex cfg = 0%Z) then 2%Z else DNSStartIndex cfg.

Definition effectiveMax (cfg : PKIParameters) : Z :=
  if bool_decide (DNSMaxCount cfg = 0%Z) then 20%Z else DNSMaxCount cfg.

(** [buildRequestParams] *)
Definition buildRequestParams (s : PKISigner) (csr : CertificateRequest) : Values :=
  let params : Values := ∅ in
  let cfg := Parameters (config s) in
  let params :=
    if bool_decide (NewCertParam cfg ≠ "")
    then ValuesSet params (NewCertParam cfg) (NewCertValue cfg) else params in
  let subject := buildSubjectDN s csr in
  let params :=
    if bool_decide (SubjectParam cfg ≠ "") && bool_decide (subject ≠ "")
    then ValuesSet params (SubjectParam cfg) subject else params in
  let params :=
    if bool_decide (0 < List.length (DNSNames csr))%nat && bool_decide (DNSPrefix cfg ≠ "")
    then sanLoop (DNSPrefix cfg) (effectiveStart cfg) (effectiveMax cfg) 0%Z (DNSNames csr) params
    else params in
  let params :=
    if bool_decide (GetCertParam cfg ≠ "")
    then ValuesSet params (GetCertParam cfg) "" else params in
  params.

(** The [parts] that the semicolon branch of [makeRequest] collects while
    it ranges over the parameters in the order [order]. *)
Definition semicolonParts (order : list (string * list string)) : list string :=
  foldl (λ parts kv,
           match kv.2 with
           | v :: _ =>
               if bool_decide (v ≠ "") then parts ++ [kv.1 +:+ "=" +:+ v]
               else parts ++ [kv.1]
           | [] => parts
           end) [] order.

(** The request body that [makeRequest] builds. *)
Definition requestBody (w : World) (s : PKISigner) (params : Values) : string :=
  if bool_decide (ParamFormat (Parameters (config s)) = "semicolon")
  then Join (semicolonParts (map_range w params)) ";"
  else url_Encode w params.

(** [parseResponse] *)
Definition parseResponse (s : PKISigner) (body : string) : result string :=
  let format := Format (Response (config s)) in
  let format := if bool_decide (format = "") then "pem" else format in
  if negb (Contains body BEGIN_CERTIFICATE)
  then Err "no certificate in response"
  else Ok body.

(** The first half of [makeRequest]: build the request and transmit it.
    On the POST path the header is set before the error of
    [http.NewRequest] is looked at, so a failed [NewRequest] dereferences a
    nil request. *)
Definition sendRequest (w : World) (s : PKISigner) (params : Values)
  : result HTTPResponse :=
  let method := ToUpper (Method (config s)) in
  let method := if bool_decide (method = "") then "POST" else method in
  let semicolon := bool_decide (ParamFormat (Parameters (config s)) = "semicolon") in
  let body := requestBody w s params in
  let created :=
    if bool_decide (method = "GET") then
      if semicolon
      then NewRequest w "GET" (BaseURL (config s) +:+ "?" +:+ body) None
      else NewRequest w "GET" (BaseURL (config s) +:+ "?" +:+ url_Encode w params) None
    else
      match NewRequest w "POST" (BaseURL (config s)) (Some body) with
      | Ok req =>
          if semicolon then Ok (HeaderSet w req "Content-Type" "text/plain")
          else Ok (HeaderSet w req "Content-Type" "application/x-www-form-urlencoded")
      | _ => Panic
      end in
  match created with
  | Panic => Panic
  | Err e => Err ("failed to create request: " +:+ e)
  | Ok req =>
      let req := addAuth w s req in
      match http_Do w (httpClient s) req with
      | Panic => Panic
      | Err e => Err ("request failed: " +:+ e)
      | Ok resp => Ok resp
      end
  end.

(** [makeRequest]: the exchange, then the body is read, the status checked
    and the response parsed. *)
Definition makeRequest (w : World) (s : PKISigner) (params : Values) : result string :=
  match sendRequest w s params with
  | Panic => Panic
  | Err e => Err e
  | Ok resp =>
      match BodyErr resp with
      | Some e => Err ("failed to read response: " +:+ e)
      | None =>
          if bool_decide (StatusCode resp ≠ 200%Z)
          then Err ("PKI API error: " +:+ pretty (StatusCode resp) +:+ ", " +:+ BodyData resp)
          else parseResponse s (BodyData resp)
      end
  end.

(** The [for] loop of [extractCAChain].  Every round removes at least the
    END marker from [remaining]; [fuel] bounds the number of rounds. *)
Fixpoint extractLoop (fuel : nat) (remaining : string) (isFirst : bool)
    (caCerts : list string) : list string :=
  match fuel with
  | 0 => caCerts
  | S fuel' =>
      match Index remaining BEGIN_CERTIFICATE with
      | None => caCerts
      | Some start =>
          match Index (sliceFrom start remaining) END_CERTIFICATE with
          | None => caCerts
          | Some end_ =>
              let cert := slice start (start + end_ + len END_CERTIFICATE) remaining in
              let caCerts := if isFirst then caCerts else caCerts ++ [TrimSpace cert] in
              extractLoop fuel' (sliceFrom (start + end_ + len END_CERTIFICATE) remaining)
                false caCerts
          end
      end
  end.

(** [extractCAChain]: [None] is the nil slice. *)
Definition extractCAChain (s : PKISigner) (fullChain : string) : option string :=
  let caCerts := extractLoop (S (len fullChain)) fullChain true [] in
  if bool_decide (List.length caCerts = 0)%nat then None
  else Some (Join caCerts (String "010" "")).

(** [Sign]: the certificate bytes and the CA bytes ([None] for nil). *)
Definition Sign (w : World) (s : PKISigner) (csrPEM : string) (validityDays : Z)
  : result (string * option string) :=
  match pem_Decode w csrPEM with
  | None => Err "invalid CSR PEM"
  | Some block =>
      if bool_decide (BlockType block ≠ "CERTIFICATE REQUEST") then Err "invalid CSR PEM"
      else
        match x509_ParseCertificateRequest w (Bytes block) with
        | Panic => Panic
        | Err e => Err ("failed to parse CSR: " +:+ e)
        | Ok csr =>
            let params := buildRequestParams s csr in
            match makeRequest w s params with
            | Panic => Panic
            | Err e => Err e
            | Ok certPEM =>
                let caPEM := extractCAChain s certPEM in
                Ok (certPEM, caPEM)
            end
        end
  end.

(** *** Certificate blocks in a byte stream *)

Definition newline : string := String "010" "".

(** A block as the scanner delimits it: it starts with the BEGIN marker and
    its first END marker is its end. *)
Definition isBlock (blk : string) : bool :=
  HasPrefix blk BEGIN_CERTIFICATE
  && bool_decide (Index blk END_CERTIFICATE = Some (len blk - len END_CERTIFICATE)).

(** A gap before a block: no BEGIN marker starts inside it. *)
Definition isGap (g : string) : bool :=
  bool_decide (Index (g +:+ BEGIN_CERTIFICATE) BEGIN_CERTIFICATE = Some (len g)).

(** [r] holds a block: a BEGIN marker and, from its first BEGIN marker on,
    an END marker. *)
Definition hasBlock (r : string) : bool :=
  match Index r BEGIN_CERTIFICATE with
  | Some start =>
      match Index (sliceFrom start r) END_CERTIFICATE with
      | Some _ => true
      | None => false
      end
  | None => false
  end.

(** A world for examples: every input decodes to the request [csr], whose
    signature check answers [sigErr], and every exchange answers [resp];
    maps are visited in the order [order]. *)
Definition stubWorld (csr : CertificateRequest) (sigErr : option string)
    (resp : HTTPResponse) (order : Values → list (string * list string)) : World :=
  {| pem_Decode := λ _, Some {| BlockType := "CERTIFICATE REQUEST"; Bytes := "" |};
     x509_ParseCertificateRequest := λ _, Ok csr;
     x509_CheckSignature := λ _, sigErr;
     url_Encode := λ _, "";
     url_ParseErr := λ _, None;
     http_CanonicalHeaderKey := λ k, k;
     http_Do := λ _ _, Ok resp;
     map_range := order |}.

Definition emptyName : Name :=
  {| CommonName := ""; Country := []; Province := []; Locality := [];
     Organization := []; OrganizationalUnit := [] |}.

Definition exampleCSR : CertificateRequest :=
  {| Subject := {| CommonName := "example.com"; Country := []; Province := [];
                   Locality := []; Organization := []; OrganizationalUnit := [] |};
     DNSNames := ["example.com"]; IPAddresses := []; URIs := [];
     EmailAddresses := []; PublicKey := "" |}.

Definition plainParameters : PKIParameters :=
  {| ParamFormat := ""; NewCertParam := "action"; NewCertValue := "new";
     RenewCertParam := "action"; RenewCertValue := "renew"; SubjectParam := "subject";
     SubjectDNFormat := ""; DNSPrefix := "dns_san"; DNSStartIndex := 1;
     DNSMaxCount := 50; GetCertParam := "format"; GetKeyParam := ""; GetCSRParam := "" |}.

(** [DefaultPKIConfig] *)
Definition DefaultPKIConfig : PKIConfig :=
  {| BaseURL := "https://pki.example.com/api/sign"; Method := "POST";
     Parameters := plainParameters;
     Response := {| Format := "pem"; CertificateField := ""; ChainField := "" |};
     Auth := None; TLS := None |}.

Definition okResponse (body : string) : HTTPResponse :=
  {| StatusCode := 200; BodyData := body; BodyErr := None |}.

Definition pemBlock (payload : string) : string :=
  BEGIN_CERTIFICATE +:+ newline +:+ payload +:+ newline +:+ END_CERTIFICATE.

(** Example inputs *)

Definition exampleSigner : PKISigner := NewPKISigner DefaultPKIConfig.

Definition threeBlocks : string :=
  pemBlock "AAAA" +:+ newline +:+ pemBlock "BBBB" +:+ newline +:+ pemBlock "CCCC" +:+ newline.

Definition oneBlock : string := pemBlock "AAAA" +:+ newline.

Definition dquote : string := String "034" "".

(** A signer configured for JSON responses with the certificate in the
    field [certificate.pem]. *)
Definition jsonSigner : PKISigner :=
  NewPKISigner
    {| BaseURL := "https://pki.example.com/api/sign"; Method := "POST";
       Parameters := plainParameters;
       Response := {| Format := "json"; CertificateField := "certificate.pem";
                      ChainField := "certificate.chain" |};
       Auth := None; TLS := None |}.

(** The JSON object with the single member [key], a string. *)
Definition jsonObject (key value : string) : string :=
  "{" +:+ dquote +:+ key +:+ dquote +:+ ":" +:+ dquote +:+ value +:+ dquote +:+ "}".

Definition jsonWithoutField : string :=
  jsonObject "pem" "-----BEGIN CERTIFICATE-----\nAAAA\n-----END CERTIFICATE-----\n".

Definition jsonError : string := jsonObject "error" "request denied".


(** The CSR and the configuration of the semicolon scenario of the design
    document. *)
Definition scenarioCSR : CertificateRequest :=
  {| Subject := {| CommonName := "app.example.com"; Country := ["US"]; Province := [];
                   Locality := []; Organization := ["Example"];
                   OrganizationalUnit := [] |};
     DNSNames := ["alt.example.com"]; IPAddresses := []; URIs := [];
     EmailAddresses := []; PublicKey := "" |}.

Definition scenarioParameters : PKIParameters :=
  {| ParamFormat := "semicolon"; NewCertParam := "new"; NewCertValue := "1";
     RenewCertParam := ""; RenewCertValue := ""; SubjectParam := "subject";
     SubjectDNFormat := "slash"; DNSPrefix := "DNS"; DNSStartIndex := 2;
     DNSMaxCount := 0; GetCertParam := ""; GetKeyParam := ""; GetCSRParam := "" |}.

Definition signerWith (ps : PKIParameters) : PKISigner :=
  NewPKISigner
    {| BaseURL := "https://pki.example.com/cgi/pki.cgi"; Method := "POST";
       Parameters := ps;
       Response := {| Format := "pem"; CertificateField := ""; ChainField := "" |};
       Auth := None; TLS := None |}.

Definition scenarioSigner : PKISigner := signerWith scenarioParameters.

(** A subject whose only attribute is a country with the empty string as
    its value. *)
Definition emptyCountryCSR : CertificateRequest :=
  {| Subject := {| CommonName := ""; Country := [""]; Province := []; Locality := [];
                   Organization := []; OrganizationalUnit := [] |};
     DNSNames := ["example.com"]; IPAddresses := []; URIs := [];
     EmailAddresses := []; PublicKey := "" |}.

(** The components of the subject, without the fallback, most general
    first. *)
Definition subjectComponentsGeneralFirst (n : Name) : list string :=
  (String.append "C=" <$> Country n)
  ++ (String.append "ST=" <$> Province n)
  ++ (String.append "L=" <$> Locality n)
  ++ (String.append "O=" <$> Organization n)
  ++ (String.append "OU=" <$> OrganizationalUnit n)
  ++ (if bool_decide (CommonName n ≠ "") then ["CN=" +:+ CommonName n] else []).

(** The same components, most specific first. *)
Definition subjectComponents (n : Name) : list string :=
  (if bool_decide (CommonName n ≠ "") then ["CN=" +:+ CommonName n] else [])
  ++ (String.append "OU=" <$> OrganizationalUnit n)
  ++ (String.append "O=" <$> Organization n)
  ++ (String.append "L=" <$> Locality n)
  ++ (String.append "ST=" <$> Province n)
  ++ (String.append "C=" <$> Country n).

(** The key of the SAN parameter with index [idx]: [fmt.Sprintf("%s%d")]. *)
Definition sanKey (prefix : string) (idx : Z) : string := prefix +:+ pretty idx.

(** The number of names the SAN loop reaches from index [i] on. *)
Definition reached (maxCount i : Z) (names : list string) : nat :=
  Nat.min (List.length names) (Z.to_nat (maxCount - i)).

(** Configurations at the edges of the SAN rule: a certificate-format
    parameter named like the first SAN key, a negative cap, and a start
    index at the top of the [int] range. *)
Definition collidingParameters : PKIParameters :=
  {| ParamFormat := "semicolon"; NewCertParam := "new"; NewCertValue := "1";
     RenewCertParam := ""; RenewCertValue := ""; SubjectParam := "subject";
     SubjectDNFormat := "slash"; DNSPrefix := "DNS"; DNSStartIndex := 2;
     DNSMaxCount := 0; GetCertParam := "DNS2"; GetKeyParam := ""; GetCSRParam := "" |}.

Definition negativeCapParameters : PKIParameters :=
  {| ParamFormat := "semicolon"; NewCertParam := "new"; NewCertValue := "1";
     RenewCertParam := ""; RenewCertValue := ""; SubjectParam := "subject";
     SubjectDNFormat := "slash"; DNSPrefix := "DNS"; DNSStartIndex := 2;
     DNSMaxCount := -1; GetCertParam := ""; GetKeyParam := ""; GetCSRParam := "" |}.

Definition maxStartParameters : PKIParameters :=
  {| ParamFormat := "semicolon"; NewCertParam := "new"; NewCertValue := "1";
     RenewCertParam := ""; RenewCertValue := ""; SubjectParam := "subject";
     SubjectDNFormat := "slash"; DNSPrefix := "DNS";
     DNSStartIndex := 9223372036854775807;
     DNSMaxCount := 0; GetCertParam := ""; GetKeyParam := ""; GetCSRParam := "" |}.

Definition twoNamesCSR : CertificateRequest :=
  {| Subject := {| CommonName := "app.example.com"; Country := []; Province := [];
                   Locality := []; Organization := []; OrganizationalUnit := [] |};
     DNSNames := ["a.example.com"; "b.example.com"]; IPAddresses := []; URIs := [];
     EmailAddresses := []; PublicKey := "" |}.

(** The three serialized parameters of the semicolon scenario and the body
    that the design document gives for it. *)
Definition scenarioNew : string := "new=1".
Definition scenarioSubject : string := "subject=/C=US/O=Example/CN=app.example.com".
Definition scenarioSAN : string := "DNS2=alt.example.com".

Definition scenarioBody : string :=
  "new=1;subject=/C=US/O=Example/CN=app.example.com;DNS2=alt.example.com".

(** The order of insertion of the scenario's parameters. *)
Definition insertionOrder (m : Values) : list (string * list string) :=
  [("new", ["1"]); ("subject", ["/C=US/O=Example/CN=app.example.com"]);
   ("DNS2", ["alt.example.com"])].

End Signer.

(** ** The signer package: more inputs for the properties of the adapter *)

Module SignerAux.
Import GoStrings Signer.

(** A byte stream written as gaps and blocks: [g1 b1 g2 b2 ... gn bn tail]. *)
Fixpoint stream (segments : list (string * string)) (tail : string) : string :=
  match segments with
  | [] => tail
  | gb :: rest => gb.1 +:+ gb.2 +:+ stream rest tail
  end.

(** Every segment is a gap followed by a block. *)
Definition segmentsOk (segments : list (string * string)) : bool :=
  forallb (λ gb, isGap gb.1 && isBlock gb.2) segments.

(** A chain of four certificates, one per line. *)
Definition fourSegments : list (string * string) :=
  [("", pemBlock "AAAA"); (newline, pemBlock "BBBB"); (newline, pemBlock "CCCC");
   (newline, pemBlock "DDDD")].

(** A world in which no URL parses and every exchange answers [resp]. *)
Definition badURLWorld (resp : HTTPResponse) : World :=
  {| pem_Decode := λ _, Some {| BlockType := "CERTIFICATE REQUEST"; Bytes := "" |};
     x509_ParseCertificateRequest := λ _, Ok exampleCSR;
     x509_CheckSignature := λ _, None;
     url_Encode := λ _, "";
     url_ParseErr := λ _, Some "invalid URL";
     http_CanonicalHeaderKey := λ k, k;
     http_Do := λ _ _, Ok resp;
     map_range := map_to_list |}.

Definition statusResponse (code : Z) (body : string) : HTTPResponse :=
  {| StatusCode := code; BodyData := body; BodyErr := None |}.

(** A signer with an authentication descriptor and a token. *)
Definition authSigner (type headerName token : string) : PKISigner :=
  SetAuthToken
    (NewPKISigner
       {| BaseURL := "https://pki.example.com/api/sign"; Method := "POST";
          Parameters := plainParameters;
          Response := {| Format := "pem"; CertificateField := ""; ChainField := "" |};
          Auth := Some {| AuthType := type; HeaderName := headerName; SecretRef := "s" |};
          TLS := None |})
    token.

(** A CSR with the subject and DNS names of [exampleCSR] and other SANs
    and another key. *)
Definition exampleCSRWithIP : CertificateRequest :=
  {| Subject := Subject exampleCSR; DNSNames := DNSNames exampleCSR;
     IPAddresses := ["10.0.0.1"]; URIs := ["spiffe://cluster/ns/app"];
     EmailAddresses := ["ops@example.com"]; PublicKey := "other-key" |}.

(** The scenario's parameters visited from the second inserted entry on:
    the order of insertion rotated by one, as [range] gives it when it
    starts at the second slot of the map's bucket. *)
Definition rotatedOrder (m : Values) : list (string * list string) :=
  rotate 1 (insertionOrder m).

Definition rotatedWorld : World :=
  stubWorld scenarioCSR None (okResponse oneBlock) rotatedOrder.

Definition rotatedBody : string :=
  "subject=/C=US/O=Example/CN=app.example.com;DNS2=alt.example.com;new=1".

End SignerAux.

(** ** Certificates, the clock and the random source *)

Module X509.
Import Signer (result, Ok, Err, Panic, Name).

(** [x509.Certificate] as a template: the fields that the code sets. *)
Record Certificate := {
  SerialNumber : Z;
  Subject : Name;
  NotBefore : Z;
  NotAfter : Z;
  KeyUsage : Z;
  ExtKeyUsage : list Z;
  BasicConstraintsValid : bool;
  IsCA : bool;
  MaxPathLen : Z;
  DNSNames : list string;
  IPAddresses : list string;
  URIs : list string;
  EmailAddresses : list string
}.

(** The parent of a new certificate: the template itself, or a parsed
    certificate. *)
Inductive Parent : Type :=
  | SelfSigned
  | IssuedBy (parsed : string).

(** Constants of [crypto/x509] and [time]. *)
Definition KeyUsageDigitalSignature : Z := 1.
Definition KeyUsageKeyEncipherment : Z := 4.
Definition KeyUsageCertSign : Z := 32.
Definition KeyUsageCRLSign : Z := 64.
Definition ExtKeyUsageServerAuth : Z := 1.
Definition ExtKeyUsageClientAuth : Z := 2.
Definition Minute : Z := 60000000000.
Definition Hour : Z := 3600000000000.

(** The library calls of the mock CA.  Instants are nanoseconds since the
    epoch; [time_AddDate] is [Time.AddDate] in the clock's location; the
    arguments of [x509_CreateCertificate] are the template, the parent, the
    public key and the signing key. *)
Record Lib := {
  time_AddDate : Z → Z → Z → Z → Z;
  x509_CreateCertificate : Certificate → Parent → string → string → result string;
  x509_ParseCertificate : string → result string;
  x509_MarshalPKCS1PrivateKey : string → string;
  rsa_PublicKey : string → string;
  pem_EncodeToMemory : string → string → string
}.

(** What one issuance draws from the random source and reads from the
    clock: the serial number of [generateSerialNumber], the key pair of
    [rsa.GenerateKey], and the two readings of [time.Now]. *)
Record Draw := {
  drawSerial : result Z;
  drawKey : result string;
  clockNotBefore : Z;
  clockNotAfter : Z
}.

End X509.

(** ** The signer package: the mock CA signer *)

Module MockSigner.
Import GoStrings.
Import Signer (result, Ok, Err, Panic, World, pem_Decode, x509_ParseCertificateRequest,
               x509_CheckSignature, Bytes).
Import X509 (Lib, Draw, time_AddDate, x509_CreateCertificate, x509_ParseCertificate,
             x509_MarshalPKCS1PrivateKey, rsa_PublicKey, pem_EncodeToMemory,
             drawSerial, drawKey, clockNotBefore, clockNotAfter).

(** [MockCASigner]; [None] is nil. *)
Record MockCASigner := {
  caCert : option string;
  caKey : option string;
  caPEM : option string;
  caKeyPEM : option string;
  generated : bool
}.

(** [NewMockCASigner] *)
Definition NewMockCASigner (baseURL : string) : MockCASigner :=
  {| caCert := None; caKey := None; caPEM := None; caKeyPEM := None;
     generated := false |}.

(** The template of the CA certificate in [ensureCA]. *)
Definition caTemplate (lib : Lib) (d : Draw) (serialNumber : Z) : X509.Certificate :=
  {| X509.SerialNumber := serialNumber;
     X509.Subject :=
       {| Signer.CommonName := "External Issuer Mock CA"; Signer.Country := [];
          Signer.Province := []; Signer.Locality := [];
          Signer.Organization := ["cert-manager-external-issuer"];
          Signer.OrganizationalUnit := [] |};
     X509.NotBefore := (clockNotBefore d + -1 * X509.Hour)%Z;
     X509.NotAfter := time_AddDate lib (clockNotAfter d) 10 0 0;
     X509.KeyUsage :=
       Z.lor (Z.lor X509.KeyUsageCertSign X509.KeyUsageCRLSign)
         X509.KeyUsageDigitalSignature;
     X509.ExtKeyUsage := [];
     X509.BasicConstraintsValid := true; X509.IsCA := true; X509.MaxPathLen := 1;
     X509.DNSNames := []; X509.IPAddresses := []; X509.URIs := [];
     X509.EmailAddresses := [] |}.

(** [ensureCA]: the signer afterwards and the error, [Ok tt] for nil.  A
    parse error of the new CA certificate leaves the nil certificate that
    [x509.ParseCertificate] returned in [caCert]. *)
Definition ensureCA (lib : Lib) (s : MockCASigner) (d : Draw)
  : MockCASigner * result unit :=
  if generated s then (s, Ok tt)
  else
    match drawKey d with
    | Err e => (s, Err ("failed to generate CA key: " +:+ e))
    | Panic => (s, Panic)
    | Ok caPrivKey =>
        match drawSerial d with
        | Err e => (s, Err ("failed to generate serial: " +:+ e))
        | Panic => (s, Panic)
        | Ok serialNumber =>
            let template := caTemplate lib d serialNumber in
            match x509_CreateCertificate lib template X509.SelfSigned
                    (rsa_PublicKey lib caPrivKey) caPrivKey with
            | Err e => (s, Err ("failed to create CA certificate: " +:+ e))
            | Panic => (s, Panic)
            | Ok caCertDER =>
                match x509_ParseCertificate lib caCertDER with
                | Err e =>
                    ({| caCert := None; caKey := caKey s; caPEM := caPEM s;
                        caKeyPEM := caKeyPEM s; generated := false |},
                     Err ("failed to parse CA certificate: " +:+ e))
                | Panic => (s, Panic)
                | Ok parsed =>
                    ({| caCert := Some parsed; caKey := Some caPrivKey;
                        caPEM := Some (pem_EncodeToMemory lib "CERTIFICATE" caCertDER);
                        caKeyPEM :=
                          Some (pem_EncodeToMemory lib "RSA PRIVATE KEY"
                                  (x509_MarshalPKCS1PrivateKey lib caPrivKey));
                        generated := true |}, Ok tt)
                end
            end
        end
    end.

(** [MockCASigner.CheckHealth] *)
Definition CheckHealth (lib : Lib) (s : MockCASigner) (d : Draw)
  : MockCASigner * result unit :=
  match ensureCA lib s d with
  | (s, Err e) => (s, Err ("Mock CA initialization failed: " +:+ e))
  | (s, r) => (s, r)
  end.

(** The template of the leaf certificate in [MockCASigner.Sign]. *)
Definition leafTemplate (lib : Lib) (d : Draw) (serialNumber : Z)
    (csr : Signer.CertificateRequest) (validityDays : Z) : X509.Certificate :=
  {| X509.SerialNumber := serialNumber;
     X509.Subject := Signer.Subject csr;
     X509.NotBefore := (clockNotBefore d + -1 * X509.Minute)%Z;
     X509.NotAfter := time_AddDate lib (clockNotAfter d) 0 0 validityDays;
     X509.KeyUsage := Z.lor X509.KeyUsageDigitalSignature X509.KeyUsageKeyEncipherment;
     X509.ExtKeyUsage := [X509.ExtKeyUsageServerAuth; X509.ExtKeyUsageClientAuth];
     X509.BasicConstraintsValid := true; X509.IsCA := false; X509.MaxPathLen := 0;
     X509.DNSNames := Signer.DNSNames csr;
     X509.IPAddresses := Signer.IPAddresses csr;
     X509.URIs := Signer.URIs csr;
     X509.EmailAddresses := Signer.EmailAddresses csr |}.

(** [MockCASigner.Sign]: [dCA] is what [ensureCA] draws when the CA is
    not generated yet, [d] what the signing draws. *)
Definition Sign (w : World) (lib : Lib) (s : MockCASigner) (dCA d : Draw)
    (csrPEM : string) (validityDays : Z)
  : MockCASigner * result (string * option string) :=
  match ensureCA lib s dCA with
  | (s, Err e) => (s, Err ("CA not ready: " +:+ e))
  | (s, Panic) => (s, Panic)
  | (s, Ok _) =>
      match pem_Decode w csrPEM with
      | None => (s, Err "invalid CSR PEM")
      | Some block =>
          match x509_ParseCertificateRequest w (Bytes block) with
          | Panic => (s, Panic)
          | Err e => (s, Err ("failed to parse CSR: " +:+ e))
          | Ok csr =>
              match x509_CheckSignature w csr with
              | Some e => (s, Err ("CSR signature validation failed: " +:+ e))
              | None =>
                  match drawSerial d with
                  | Panic => (s, Panic)
                  | Err e => (s, Err ("failed to generate serial: " +:+ e))
                  | Ok serialNumber =>
                      let template := leafTemplate lib d serialNumber csr validityDays in
                      match caCert s, caKey s with
                      | Some parent, Some key =>
                          match x509_CreateCertificate lib template (X509.IssuedBy parent)
                                  (Signer.PublicKey csr) key with
                          | Panic => (s, Panic)
                          | Err e => (s, Err ("failed to sign certificate: " +:+ e))
                          | Ok certDER =>
                              (s, Ok (pem_EncodeToMemory lib "CERTIFICATE" certDER,
                                      caPEM s))
                          end
                      | _, _ => (s, Panic)
                      end
                  end
              end
          end
      end
  end.

End MockSigner.

(** ** The mock CA server: the legacy front-end [/cgi/pki.cgi] *)

Module MockCA.
Import GoStrings.
Import Signer (result, Ok, Err, Panic, Name, CommonName, Country, Province, Locality,
               Organization, OrganizationalUnit, wrap64).
Import X509 (Lib, Draw, time_AddDate, x509_CreateCertificate, x509_ParseCertificate,
             x509_MarshalPKCS1PrivateKey, rsa_PublicKey, pem_EncodeToMemory,
             drawSerial, drawKey, clockNotBefore, clockNotAfter).

(** [storedCert]; [None] is a nil byte slice. *)
Record storedCert := {
  CertPEM : string;
  KeyPEM : option string;
  CSR : option string;
  Subject : string
}.

(** [Config], the field the handler reads. *)
Record Config := {
  CertValidityDays : Z
}.

(** [MockCA]: the CA certificate and key stand for themselves; the
    handler only hands them to [x509.CreateCertificate]. *)
Record MockCA := {
  caCert : string;
  caKey : string;
  caPEM : string;
  config : Config;
  signCount : Z;
  certStore : gmap string storedCert
}.

Definition StatusOK : Z := 200.
Definition StatusBadRequest : Z := 400.
Definition StatusNotFound : Z := 404.
Definition StatusMethodNotAllowed : Z := 405.
Definition StatusInternalServerError : Z := 500.

(** The request as the handler reads it, and what it writes. *)
Record Request := {
  ReqMethod : string;
  ReqBody : result string
}.

Record Response := {
  StatusCode : Z;
  ContentType : string;
  Body : string
}.

(** [http.Error] *)
Definition httpError (msg : string) (code : Z) : Response :=
  {| StatusCode := code; ContentType := "text/plain; charset=utf-8";
     Body := msg +:+ String "010" "" |}.

(** A 200 response of type [application/x-pem-file]. *)
Definition pemResponse (body : string) : Response :=
  {| StatusCode := StatusOK; ContentType := "application/x-pem-file"; Body := body |}.

(** [parsePKIParams] *)
Definition parsePKIParams (body : string) : gmap string string :=
  foldl (λ (params : gmap string string) part,
           let part := TrimSpace part in
           if bool_decide (part = "") then params
           else match Index part "=" with
                | Some (S idx') =>
                    let idx := S idx' in
                    let key := TrimSpace (sliceTo idx part) in
                    let value := TrimSpace (sliceFrom (idx + 1) part) in
                    <[key := value]> params
                | _ => <[part := ""]> params
                end)
        ∅ (Split body ";").

(** [parseDN] *)
Definition parseDN (dn : string) : Name :=
  foldl (λ (name : Name) part,
           let part := TrimSpace part in
           if bool_decide (part = "") then name
           else match Index part "=" with
                | Some (S idx') =>
                    let idx := S idx' in
                    let key := ToUpper (TrimSpace (sliceTo idx part)) in
                    let value := TrimSpace (sliceFrom (idx + 1) part) in
                    if bool_decide (key = "CN") then
                      {| CommonName := value; Country := Country name;
                         Province := Province name; Locality := Locality name;
                         Organization := Organization name;
                         OrganizationalUnit := OrganizationalUnit name |}
                    else if bool_decide (key = "O") then
                      {| CommonName := CommonName name; Country := Country name;
                         Province := Province name; Locality := Locality name;
                         Organization := Organization name ++ [value];
                         OrganizationalUnit := OrganizationalUnit name |}
                    else if bool_decide (key = "OU") then
                      {| CommonName := CommonName name; Country := Country name;
                         Province := Province name; Locality := Locality name;
                         Organization := Organization name;
                         OrganizationalUnit := OrganizationalUnit name ++ [value] |}
                    else if bool_decide (key = "L") then
                      {| CommonName := CommonName name; Country := Country name;
                         Province := Province name; Locality := Locality name ++ [value];
                         Organization := Organization name;
                         OrganizationalUnit := OrganizationalUnit name |}
                    else if bool_decide (key = "ST") then
                      {| CommonName := CommonName name; Country := Country name;
                         Province := Province name ++ [value]; Locality := Locality name;
                         Organization := Organization name;
                         OrganizationalUnit := OrganizationalUnit name |}
                    else if bool_decide (key = "C") then
                      {| CommonName := CommonName name; Country := Country name ++ [value];
                         Province := Province name; Locality := Locality name;
                         Organization := Organization name;
                         OrganizationalUnit := OrganizationalUnit name |}
                    else name
                | _ => name
                end)
        Signer.emptyName (Split dn "/").

(** The SAN list of the handler: the CN, then [DNS2] to [DNS20] where
    present and not empty. *)
Definition collectDNSNames (cn : string) (params : gmap string string) : list string :=
  foldl (λ dnsNames (i : Z),
           match params !! ("DNS" +:+ pretty i) with
           | Some dns => if bool_decide (dns ≠ "") then dnsNames ++ [dns] else dnsNames
           | None => dnsNames
           end)
        [cn] (seqZ 2 19).

(** The template of the certificate that the handler issues. *)
Definition certTemplate (lib : Lib) (ca : MockCA) (d : Draw) (serialNumber : Z)
    (subject : Name) (dnsNames : list string) : X509.Certificate :=
  let validityDays := CertValidityDays (config ca) in
  let notBefore := (clockNotBefore d + -1 * X509.Minute)%Z in
  let notAfter := time_AddDate lib (clockNotAfter d) 0 0 validityDays in
  {| X509.SerialNumber := serialNumber; X509.Subject := subject;
     X509.NotBefore := notBefore; X509.NotAfter := notAfter;
     X509.KeyUsage := Z.lor X509.KeyUsageDigitalSignature X509.KeyUsageKeyEncipherment;
     X509.ExtKeyUsage := [X509.ExtKeyUsageServerAuth; X509.ExtKeyUsageClientAuth];
     X509.BasicConstraintsValid := true; X509.IsCA := false; X509.MaxPathLen := 0;
     X509.DNSNames := dnsNames; X509.IPAddresses := []; X509.URIs := [];
     X509.EmailAddresses := [] |}.

(** The second half of [handlePKISign], from "Generate a new certificate"
    on: issue, store under the CN, count, and answer with the certificate
    followed by the CA certificate. *)
Definition issueCertificate (lib : Lib) (ca : MockCA) (d : Draw)
    (subjectDN : string) (subject : Name) (cn : string) (dnsNames : list string)
  : MockCA * Response :=
  match drawSerial d with
  | Err _ | Panic =>
      (ca, httpError "Failed to generate serial number" StatusInternalServerError)
  | Ok serialNumber =>
      match drawKey d with
      | Err _ | Panic =>
          (ca, httpError "Failed to generate key pair" StatusInternalServerError)
      | Ok certKey =>
          let template := certTemplate lib ca d serialNumber subject dnsNames in
          match x509_CreateCertificate lib template (X509.IssuedBy (caCert ca))
                  (rsa_PublicKey lib certKey) (caKey ca) with
          | Err _ | Panic =>
              (ca, httpError "Failed to create certificate" StatusInternalServerError)
          | Ok certDER =>
              let certPEM := pem_EncodeToMemory lib "CERTIFICATE" certDER in
              let keyPEM :=
                pem_EncodeToMemory lib "RSA PRIVATE KEY"
                  (x509_MarshalPKCS1PrivateKey lib certKey) in
              ({| caCert := caCert ca; caKey := caKey ca; caPEM := caPEM ca;
                  config := config ca;
                  signCount := wrap64 (signCount ca + 1);
                  certStore :=
                    <[cn := {| CertPEM := certPEM; KeyPEM := Some keyPEM; CSR := None;
                               Subject := subjectDN |}]> (certStore ca) |},
               pemResponse (certPEM +:+ caPEM ca))
          end
      end
  end.

(** [handlePKISign]: the state of the CA after the request, and the
    response. *)
Definition handlePKISign (lib : Lib) (ca : MockCA) (d : Draw) (r : Request)
  : MockCA * Response :=
  if bool_decide (ReqMethod r ≠ "POST")
  then (ca, httpError "Only POST method is supported" StatusMethodNotAllowed)
  else
    match ReqBody r with
    | Err _ | Panic => (ca, httpError "Failed to read request body" StatusBadRequest)
    | Ok body =>
        let params := parsePKIParams body in
        let subjectDN := default "" (params !! "subject") in
        if bool_decide (subjectDN = "")
        then (ca, httpError "subject parameter is required" StatusBadRequest)
        else
          let subject := parseDN subjectDN in
          let cn := CommonName subject in
          if bool_decide (cn = "")
          then (ca, httpError "subject must contain CN" StatusBadRequest)
          else
            let dnsNames := collectDNSNames cn params in
            let isNew := bool_decide (default "" (params !! "new") = "1") in
            let isRenew := bool_decide (default "" (params !! "renew") = "1") in
            if bool_decide (is_Some (params !! "getCERT")) then
              match certStore ca !! cn with
              | None => (ca, httpError "Certificate not found" StatusNotFound)
              | Some stored => (ca, pemResponse (CertPEM stored))
              end
            else if bool_decide (is_Some (params !! "getKEY")) then
              match certStore ca !! cn with
              | Some {| KeyPEM := Some key |} => (ca, pemResponse key)
              | _ => (ca, httpError "Key not found" StatusNotFound)
              end
            else if bool_decide (is_Some (params !! "getCSR")) then
              match certStore ca !! cn with
              | Some {| CSR := Some csr |} => (ca, pemResponse csr)
              | _ => (ca, httpError "CSR not found" StatusNotFound)
              end
            else
              match (if isNew && negb isRenew then certStore ca !! cn else None) with
              | Some stored => (ca, pemResponse (CertPEM stored +:+ caPEM ca))
              | None => issueCertificate lib ca d subjectDN subject cn dnsNames
              end
    end.

(** Views of a request body: the POST request that carries it, its
    parameters, the Common Name of its subject, and the intents that the
    handler reads from it. *)
Definition legacyRequest (body : string) : Request :=
  {| ReqMethod := "POST"; ReqBody := Ok body |}.

Definition subjectOf (body : string) : string :=
  default "" (parsePKIParams body !! "subject").

Definition commonNameOf (body : string) : string := CommonName (parseDN (subjectOf body)).

Definition asksNew (body : string) : bool :=
  bool_decide (default "" (parsePKIParams body !! "new") = "1").

Definition asksRenew (body : string) : bool :=
  bool_decide (default "" (parsePKIParams body !! "renew") = "1").

Definition asksRetrieval (body : string) : bool :=
  bool_decide (is_Some (parsePKIParams body !! "getCERT"))
  || bool_decide (is_Some (parsePKIParams body !! "getKEY"))
  || bool_decide (is_Some (parsePKIParams body !! "getCSR")).

(** Example library and state: certificates are written out as text that
    shows the serial number and the subject's Common Name. *)
Definition textLib : Lib :=
  {| X509.time_AddDate := λ t _ _ days, (t + days * 1440 * X509.Minute)%Z;
     X509.x509_CreateCertificate := λ template _ _ _,
       Ok ("serial=" +:+ pretty (X509.SerialNumber template)
           +:+ ",CN=" +:+ CommonName (X509.Subject template));
     X509.x509_ParseCertificate := λ der, Ok der;
     X509.x509_MarshalPKCS1PrivateKey := λ key, key;
     X509.rsa_PublicKey := λ key, key;
     X509.pem_EncodeToMemory := λ type bytes, "[" +:+ type +:+ ":" +:+ bytes +:+ "]" |}.

Definition freshCA : MockCA :=
  {| caCert := "ca"; caKey := "ca-key"; caPEM := "[CERTIFICATE:ca]";
     config := {| CertValidityDays := 365 |}; signCount := 0; certStore := ∅ |}.

Definition drawOf (serial : Z) : Draw :=
  {| X509.drawSerial := Ok serial; X509.drawKey := Ok "key"; X509.clockNotBefore := 0;
     X509.clockNotAfter := 0 |}.

(** The CA after it has issued a certificate with serial 7 for
    [test.com]. *)
Definition caWithTestCom : MockCA :=
  (handlePKISign textLib freshCA (drawOf 7)
     (legacyRequest "new=1;subject=/C=US/O=Example/CN=test.com;DNS2=test2.com")).1.

End MockCA.

(** ** The mock CA server: the JSON endpoint and the CA download *)

Module MockCAJson.
Import GoStrings MockCA.
Import Signer (result, Ok, Err, Panic, Name, World, pem_Decode, x509_ParseCertificateRequest,
               x509_CheckSignature, Bytes, wrap64).
Import X509 (Lib, Draw, time_AddDate, x509_CreateCertificate, pem_EncodeToMemory,
             drawSerial, clockNotBefore, clockNotAfter).

(** [SignRequest] and [SignResponse] of the server *)
Record SignRequest := {
  srCSR : string;
  srValidityDays : Z;
  srCommonName : string
}.

Record SignResponse := {
  respCertificate : string;
  respCertificateChain : string;
  respCA : string;
  respSerialNumber : string;
  respNotBefore : string;
  respNotAfter : string;
  respSubject : string
}.

(** What the handler hands to the JSON encoder: the [ErrorResponse] of
    [sendError] with its status, or the [SignResponse] with status 200; or
    the handler panics. *)
Inductive SignOutcome : Type :=
  | SignError (status : Z) (code message details : string)
  | SignOk (response : SignResponse)
  | SignPanic.

(** The request as [handleSign] reads it: the method, the body with the
    error of [io.ReadAll], the [Content-Type] header, and the form value
    [csr], [None] when [r.ParseForm] fails. *)
Record SignHTTPRequest := {
  signMethod : string;
  signBody : string;
  signBodyErr : option string;
  signContentType : string;
  signFormCSR : option string
}.

(** The library calls of the handler besides those of the signer:
    [json.Unmarshal] into a [SignRequest], [Time.Format(time.RFC3339)]
    and [pkix.Name.String]. *)
Record ServerLib := {
  json_UnmarshalSignRequest : string → result SignRequest;
  time_FormatRFC3339 : Z → string;
  name_String : Name → string
}.

(** [sendError] *)
Definition sendError (status : Z) (code message details : string) : SignOutcome :=
  SignError status code message details.

(** The validity that [handleSign] uses. *)
Definition signValidityDays (ca : MockCA) (signReq : SignRequest) : Z :=
  let validityDays := CertValidityDays (config ca) in
  if bool_decide (0 < srValidityDays signReq)%Z then srValidityDays signReq
  else validityDays.

(** The template of the certificate in [handleSign]. *)
Definition signTemplate (lib : Lib) (d : Draw) (serialNumber : Z)
    (csr : Signer.CertificateRequest) (validityDays : Z) : X509.Certificate :=
  {| X509.SerialNumber := serialNumber;
     X509.Subject := Signer.Subject csr;
     X509.NotBefore := (clockNotBefore d + -1 * X509.Minute)%Z;
     X509.NotAfter := time_AddDate lib (clockNotAfter d) 0 0 validityDays;
     X509.KeyUsage := Z.lor X509.KeyUsageDigitalSignature X509.KeyUsageKeyEncipherment;
     X509.ExtKeyUsage := [X509.ExtKeyUsageServerAuth; X509.ExtKeyUsageClientAuth];
     X509.BasicConstraintsValid := true; X509.IsCA := false; X509.MaxPathLen := 0;
     X509.DNSNames := Signer.DNSNames csr;
     X509.IPAddresses := Signer.IPAddresses csr;
     X509.URIs := Signer.URIs csr;
     X509.EmailAddresses := Signer.EmailAddresses csr |}.

(** The [SignRequest] that the handler works with, or the error of the
    JSON decoding. *)
Definition readSignRequest (slib : ServerLib) (r : SignHTTPRequest) : result SignRequest :=
  if Contains (signContentType r) "application/json"
  then json_UnmarshalSignRequest slib (signBody r)
  else
    match signFormCSR r with
    | Some csr =>
        if bool_decide (csr ≠ "")
        then Ok {| srCSR := csr; srValidityDays := 0; srCommonName := "" |}
        else Ok {| srCSR := signBody r; srValidityDays := 0; srCommonName := "" |}
    | None => Ok {| srCSR := signBody r; srValidityDays := 0; srCommonName := "" |}
    end.

(** [handleSign]: the state of the CA after the request, and what is
    sent. *)
Definition handleSign (w : World) (lib : Lib) (slib : ServerLib) (ca : MockCA) (d : Draw)
    (r : SignHTTPRequest) : MockCA * SignOutcome :=
  if bool_decide (signMethod r ≠ "POST")
  then (ca, sendError StatusMethodNotAllowed "METHOD_NOT_ALLOWED"
              "Only POST method is supported" "")
  else
    match signBodyErr r with
    | Some e => (ca, sendError StatusBadRequest "READ_ERROR" "Failed to read request body" e)
    | None =>
        match readSignRequest slib r with
        | Panic => (ca, SignPanic)
        | Err e =>
            (ca, sendError StatusBadRequest "PARSE_ERROR" "Failed to parse JSON request" e)
        | Ok signReq =>
            if bool_decide (srCSR signReq = "")
            then (ca, sendError StatusBadRequest "MISSING_CSR"
                        "No CSR provided in request" "")
            else
              match pem_Decode w (srCSR signReq) with
              | None =>
                  (ca, sendError StatusBadRequest "INVALID_CSR" "Failed to decode CSR PEM"
                         "CSR must be in PEM format")
              | Some block =>
                  match x509_ParseCertificateRequest w (Bytes block) with
                  | Panic => (ca, SignPanic)
                  | Err e =>
                      (ca, sendError StatusBadRequest "INVALID_CSR" "Failed to parse CSR" e)
                  | Ok csr =>
                      match x509_CheckSignature w csr with
                      | Some e =>
                          (ca, sendError StatusBadRequest "INVALID_SIGNATURE"
                                 "CSR signature validation failed" e)
                      | None =>
                          let validityDays := signValidityDays ca signReq in
                          match drawSerial d with
                          | Panic => (ca, SignPanic)
                          | Err e =>
                              (ca, sendError StatusInternalServerError "INTERNAL_ERROR"
                                     "Failed to generate serial number" e)
                          | Ok serialNumber =>
                              let certTemplate :=
                                signTemplate lib d serialNumber csr validityDays in
                              match x509_CreateCertificate lib certTemplate
                                      (X509.IssuedBy (caCert ca)) (Signer.PublicKey csr)
                                      (caKey ca) with
                              | Panic => (ca, SignPanic)
                              | Err e =>
                                  (ca, sendError StatusInternalServerError "SIGNING_ERROR"
                                         "Failed to create certificate" e)
                              | Ok certDER =>
                                  let certPEM :=
                                    pem_EncodeToMemory lib "CERTIFICATE" certDER in
                                  let certChain := certPEM +:+ caPEM ca in
                                  ({| caCert := caCert ca; caKey := caKey ca;
                                      caPEM := caPEM ca; config := config ca;
                                      signCount := wrap64 (signCount ca + 1);
                                      certStore := certStore ca |},
                                   SignOk
                                     {| respCertificate := certPEM;
                                        respCertificateChain := certChain;
                                        respCA := caPEM ca;
                                        respSerialNumber := pretty serialNumber;
                                        respNotBefore :=
                                          time_FormatRFC3339 slib
                                            (X509.NotBefore certTemplate);
                                        respNotAfter :=
                                          time_FormatRFC3339 slib
                                            (X509.NotAfter certTemplate);
                                        respSubject :=
                                          name_String slib (Signer.Subject csr) |})
                              end
                          end
                      end
                  end
              end
        end
    end.

(** [handleGetCA]: the CA certificate, as a download. *)
Record Download := {
  dlContentType : string;
  dlContentDisposition : string;
  dlBody : string
}.

Definition handleGetCA (ca : MockCA) : Download :=
  {| dlContentType := "application/x-pem-file";
     dlContentDisposition := "attachment; filename=ca.crt";
     dlBody := caPEM ca |}.

(** Example: a JSON request for 30 days in a world in which every CSR
    decodes to the example request. *)
Definition exampleServerLib : ServerLib :=
  {| json_UnmarshalSignRequest := λ _,
       Ok {| srCSR := "-----BEGIN CERTIFICATE REQUEST-----"; srValidityDays := 30;
             srCommonName := "" |};
     time_FormatRFC3339 := λ t, pretty t;
     name_String := λ n, "CN=" +:+ Signer.CommonName n |}.

Definition jsonSignRequest : SignHTTPRequest :=
  {| signMethod := "POST"; signBody := "{}"; signBodyErr := None;
     signContentType := "application/json"; signFormCSR := None |}.

End MockCAJson.

(** ** Examples for the mock CA signer *)

Module MockSignerAux.
Import MockSigner.

(** A world in which every CSR decodes to the example request with a
    good signature. *)
Definition goodWorld : Signer.World :=
  Signer.stubWorld Signer.exampleCSR None (Signer.okResponse Signer.oneBlock) map_to_list.




End MockSignerAux.

(** ** The store of the legacy front-end *)

Module MockCAAux.
Import MockCA.

(** No stored certificate has a CSR. *)
Definition noCSR (ca : MockCA) : bool :=
  bool_decide (map_Forall (λ _ stored, CSR stored = None) (certStore ca)).

End MockCAAux.

(** ** The adapter against the legacy front-end: plain parameters *)

Module RoundTripAux.
Import GoStrings.

(** The byte [c] does not occur in [s]. *)
Fixpoint noByte (c : ascii) (s : string) : bool :=
  match s with
  | EmptyString => true
  | String x s' => negb (Ascii.eqb x c) && noByte c s'
  end.

(** Every byte of [s] is below 128. *)
Fixpoint isASCII (s : string) : bool :=
  match s with
  | EmptyString => true
  | String c s' => Nat.ltb (nat_of_ascii c) 128 && isASCII s'
  end.

(** [s] is ASCII text with no white space at either end.  On ASCII text
    [strings.TrimSpace] removes the six white-space bytes only. *)
Definition trimmed (s : string) : bool := isASCII s && bool_decide (TrimSpace s = s).

(** A key that the semicolon format carries: not empty, no [;], no [=],
    ASCII text with no white space at the ends. *)
Definition plainKey (k : string) : bool :=
  bool_decide (k ≠ "") && noByte ";" k && noByte "=" k && trimmed k.

(** A value that the semicolon format carries: no [;], ASCII text with no
    white space at the ends. *)
Definition plainValue (v : string) : bool := noByte ";" v && trimmed v.

(** An entry of a [url.Values] whose key and first value are plain. *)
Definition plainEntry (kv : string * list string) : bool :=
  plainKey kv.1 && match kv.2 with v :: _ => plainValue v | [] => true end.

(** A value of a subject attribute that the slash format carries: no [/],
    ASCII text with no white space at the ends. *)
Definition plainAttribute (v : string) : bool := noByte "/" v && trimmed v.

(** Every attribute value of the name is plain. *)
Definition plainName (n : Signer.Name) : bool :=
  plainAttribute (Signer.CommonName n)
  && forallb plainAttribute (Signer.Country n)
  && forallb plainAttribute (Signer.Province n)
  && forallb plainAttribute (Signer.Locality n)
  && forallb plainAttribute (Signer.Organization n)
  && forallb plainAttribute (Signer.OrganizationalUnit n).

(** What the front-end takes in from one piece of the body: the body of
    the loop of [parsePKIParams]. *)
Definition parsePKIStep (params : gmap string string) (part : string)
  : gmap string string :=
  let part := TrimSpace part in
  if bool_decide (part = "") then params
  else match Index part "=" with
       | Some (S idx') =>
           let idx := S idx' in
           let key := TrimSpace (sliceTo idx part) in
           let value := TrimSpace (sliceFrom (idx + 1) part) in
           <[key := value]> params
       | _ => <[part := ""]> params
       end.

(** The serialized form of one entry in the semicolon format, if any. *)
Definition renderEntry (kv : string * list string) : option string :=
  match kv.2 with
  | v :: _ => Some (if bool_decide (v ≠ "") then kv.1 +:+ "=" +:+ v else kv.1)
  | [] => None
  end.

(** The key and the first value of an entry, if it has a value. *)
Definition firstValue (kv : string * list string) : option (string * string) :=
  match kv.2 with
  | v :: _ => Some (kv.1, v)
  | [] => None
  end.

(** What [parseDN] does with a part whose key, in upper case, is [key] and
    whose value is [value]: the [switch] of its loop. *)
Definition setAttribute (name : Signer.Name) (key value : string) : Signer.Name :=
  if bool_decide (key = "CN") then
    {| Signer.CommonName := value; Signer.Country := Signer.Country name;
       Signer.Province := Signer.Province name; Signer.Locality := Signer.Locality name;
       Signer.Organization := Signer.Organization name;
       Signer.OrganizationalUnit := Signer.OrganizationalUnit name |}
  else if bool_decide (key = "O") then
    {| Signer.CommonName := Signer.CommonName name; Signer.Country := Signer.Country name;
       Signer.Province := Signer.Province name; Signer.Locality := Signer.Locality name;
       Signer.Organization := Signer.Organization name ++ [value];
       Signer.OrganizationalUnit := Signer.OrganizationalUnit name |}
  else if bool_decide (key = "OU") then
    {| Signer.CommonName := Signer.CommonName name; Signer.Country := Signer.Country name;
       Signer.Province := Signer.Province name; Signer.Locality := Signer.Locality name;
       Signer.Organization := Signer.Organization name;
       Signer.OrganizationalUnit := Signer.OrganizationalUnit name ++ [value] |}
  else if bool_decide (key = "L") then
    {| Signer.CommonName := Signer.CommonName name; Signer.Country := Signer.Country name;
       Signer.Province := Signer.Province name;
       Signer.Locality := Signer.Locality name ++ [value];
       Signer.Organization := Signer.Organization name;
       Signer.OrganizationalUnit := Signer.OrganizationalUnit name |}
  else if bool_decide (key = "ST") then
    {| Signer.CommonName := Signer.CommonName name; Signer.Country := Signer.Country name;
       Signer.Province := Signer.Province name ++ [value];
       Signer.Locality := Signer.Locality name;
       Signer.Organization := Signer.Organization name;
       Signer.OrganizationalUnit := Signer.OrganizationalUnit name |}
  else if bool_decide (key = "C") then
    {| Signer.CommonName := Signer.CommonName name;
       Signer.Country := Signer.Country name ++ [value];
       Signer.Province := Signer.Province name; Signer.Locality := Signer.Locality name;
       Signer.Organization := Signer.Organization name;
       Signer.OrganizationalUnit := Signer.OrganizationalUnit name |}
  else name.

(** The body of the loop of [parseDN]. *)
Definition parseDNStep (name : Signer.Name) (part : string) : Signer.Name :=
  let part := TrimSpace part in
  if bool_decide (part = "") then name
  else match Index part "=" with
       | Some (S idx') =>
           let idx := S idx' in
           let key := ToUpper (TrimSpace (sliceTo idx part)) in
           let value := TrimSpace (sliceFrom (idx + 1) part) in
           setAttribute name key value
       | _ => name
       end.

(** The name with another Common Name. *)
Definition withCommonName (cn : string) (name : Signer.Name) : Signer.Name :=
  {| Signer.CommonName := cn; Signer.Country := Signer.Country name;
     Signer.Province := Signer.Province name; Signer.Locality := Signer.Locality name;
     Signer.Organization := Signer.Organization name;
     Signer.OrganizationalUnit := Signer.OrganizationalUnit name |}.

(** A CSR without a subject, with DNS names only. *)
Definition dnsOnlyCSR : Signer.CertificateRequest :=
  {| Signer.Subject := Signer.emptyName;
     Signer.DNSNames := ["first.example.com"; "second.example.com"];
     Signer.IPAddresses := []; Signer.URIs := []; Signer.EmailAddresses := [];
     Signer.PublicKey := "" |}.

(** A world that visits every map in the reverse of the sorted order. *)
Definition reverseWorld : Signer.World :=
  Signer.stubWorld Signer.exampleCSR None (Signer.okResponse Signer.oneBlock)
    (λ params, rev (map_to_list params)).

(** A subject with several values per attribute. *)
Definition richName : Signer.Name :=
  {| Signer.CommonName := "app.example.com"; Signer.Country := ["US"];
     Signer.Province := ["California"]; Signer.Locality := ["San Francisco"];
     Signer.Organization := ["Example"; "Example Holding"];
     Signer.OrganizationalUnit := ["Platform"; "PKI"] |}.

Definition richCSR : Signer.CertificateRequest :=
  {| Signer.Subject := richName; Signer.DNSNames := ["alt.example.com"];
     Signer.IPAddresses := []; Signer.URIs := []; Signer.EmailAddresses := [];
     Signer.PublicKey := "" |}.

End RoundTripAux.

(** ** The controllers package: the CertificateRequest reconciler *)

Module Controllers.
Import GoStrings.
Import Signer (result, Ok, Err, Panic, PKIConfig, PKISigner, World).

Definition issuerReadyCondition : string := "Ready".
Definition externalIssuerAPIGroup : string := "external-issuer.io".
Definition issuerKind : string := "ExternalIssuer".
Definition clusterIssuerKind : string := "ExternalClusterIssuer".
Definition defaultConfigKey : string := "pki-config.json".
Definition defaultNamespace : string := "external-issuer-system".

(** Constants of the cert-manager API ([cmapi], [cmmeta]) and of
    apimachinery ([metav1]) that the reconciler compares with. *)
Definition CertificateRequestConditionReady : string := "Ready".
Definition CertificateRequestConditionApproved : string := "Approved".
Definition CertificateRequestConditionDenied : string := "Denied".
Definition CertificateRequestReasonFailed : string := "Failed".
Definition CertificateRequestReasonDenied : string := "Denied".
Definition ConditionTrue : string := "True".
Definition ConditionFalse : string := "False".

(** [cmapi.CertificateRequestCondition] and [metav1.Condition] *)
Record Condition := {
  Type_ : string;
  Status : string;
  Reason : string;
  Message : string;
  LastTransitionTime : option Z
}.

Record ObjectReference := {
  RefName : string;
  RefKind : string;
  RefGroup : string
}.

(** [cmapi.CertificateRequest]: metadata, [Spec.IssuerRef], [Spec.Request]
    and the status. *)
Record CertificateRequest := {
  Name : string;
  Namespace : string;
  IssuerRef : ObjectReference;
  Request : string;
  Conditions : list Condition;
  Certificate : string;
  CA : option string
}.

Record NamespacedName := {
  nnNamespace : string;
  nnName : string
}.

(** [ExternalIssuerSpec], [ConfigMapReference] and the two issuer kinds *)
Record ConfigMapReference := {
  cmName : string;
  cmNamespace : string;
  cmKey : string
}.

Record ExternalIssuerSpec := {
  URL : string;
  ConfigMapRef : option ConfigMapReference;
  AuthSecretName : string;
  SignerType : string
}.

Record ExternalIssuer := {
  IssuerSpec : ExternalIssuerSpec;
  IssuerConditions : list Condition
}.

(** The interface [Signer] *)
Class SignerOps (S : Type) := {
  CheckHealth : S → result unit;
  Sign : S → string → Z → result (string * option string)
}.

(** What [r.Get] answers for the request itself. *)
Inductive GetResult (A : Type) : Type :=
  | Found (a : A)
  | NotFound
  | GetFailed (msg : string).
Arguments Found {A} a.
Arguments NotFound {A}.
Arguments GetFailed {A} msg.

(** The cluster and the libraries as the reconciler sees them: the objects
    that [r.Get] returns, the answer of [r.Status().Update], the JSON
    decoding of the PKI configuration, the clock, the world of the PKI
    signer and the behaviour of a mock CA signer made for a URL. *)
Record Env := {
  getCertificateRequest : NamespacedName → GetResult CertificateRequest;
  getClusterIssuer : NamespacedName → result ExternalIssuer;
  getIssuer : NamespacedName → result ExternalIssuer;
  getConfigMap : NamespacedName → result (gmap string string);
  getSecret : NamespacedName → result (gmap string string);
  statusUpdate : CertificateRequest → option string;
  json_Unmarshal : string → result PKIConfig;
  now : Z;
  pkiWorld : World;
  mockCheckHealth : string → result unit;
  mockSign : string → string → Z → result (string * option string)
}.

(** The two implementations of the interface. *)
Record PKIHandle := { pkiEnv : Env; pkiSigner : PKISigner }.
Record MockHandle := { mockEnv : Env; mockURL : string }.

Global Instance PKISigner_ops : SignerOps PKIHandle := {|
  CheckHealth h := Signer.CheckHealth (pkiWorld (pkiEnv h)) (pkiSigner h);
  Sign h csrPEM validityDays :=
    Signer.Sign (pkiWorld (pkiEnv h)) (pkiSigner h) csrPEM validityDays
|}.

Global Instance MockCASigner_ops : SignerOps MockHandle := {|
  CheckHealth h := mockCheckHealth (mockEnv h) (mockURL h);
  Sign h csrPEM validityDays := mockSign (mockEnv h) (mockURL h) csrPEM validityDays
|}.

(** What a reconciliation does to the outside: calls of a signer and
    writes of the request's status. *)
Inductive Event : Type :=
  | EvCheckHealth
  | EvSign (csrPEM : string) (validityDays : Z)
  | EvStatusUpdate (cr : CertificateRequest).

(** A computation that logs its events. *)
Definition M (A : Type) : Type := list Event * A.

Definition ret {A} (a : A) : M A := ([], a).

Definition bind {A B} (m : M A) (f : A → M B) : M B :=
  let '(t1, a) := m in
  let '(t2, b) := f a in
  (t1 ++ t2, b).

Definition emit (e : Event) : M unit := ([e], tt).

(** Log [e], then go on with [k]. *)
Definition log {A} (e : Event) (k : M A) : M A := bind (emit e) (λ _, k).

(** [setCondition] *)
Fixpoint setCondition (conditions : list Condition) (condition : Condition)
  : list Condition :=
  match conditions with
  | [] => [condition]
  | c :: rest =>
      if bool_decide (Type_ c = Type_ condition) then condition :: rest
      else c :: setCondition rest condition
  end.

(** [isInTerminalState] *)
Definition isInTerminalState (cr : CertificateRequest) : bool :=
  existsb (λ c,
    bool_decide (Type_ c = CertificateRequestConditionReady)
    && (bool_decide (Status c = ConditionTrue)
        || bool_decide (Reason c = CertificateRequestReasonFailed)
        || bool_decide (Reason c = CertificateRequestReasonDenied)))
    (Conditions cr).

(** [isCertificateRequestApproved] *)
Definition isCertificateRequestApproved (cr : CertificateRequest) : bool :=
  existsb (λ c,
    bool_decide (Type_ c = CertificateRequestConditionApproved)
    && bool_decide (Status c = ConditionTrue))
    (Conditions cr).

(** [isCertificateRequestDenied] *)
Definition isCertificateRequestDenied (cr : CertificateRequest) : bool :=
  existsb (λ c,
    bool_decide (Type_ c = CertificateRequestConditionDenied)
    && bool_decide (Status c = ConditionTrue))
    (Conditions cr).

(** [isIssuerReady] *)
Definition isIssuerReady (conditions : list Condition) : bool :=
  existsb (λ c,
    bool_decide (Type_ c = issuerReadyCondition)
    && bool_decide (Status c = ConditionTrue))
    conditions.

(** [getIssuerSpec] *)
Definition getIssuerSpec (env : Env) (cr : CertificateRequest)
  : result ExternalIssuerSpec :=
  let name := RefName (IssuerRef cr) in
  if bool_decide (RefKind (IssuerRef cr) = clusterIssuerKind) then
    match getClusterIssuer env {| nnNamespace := ""; nnName := name |} with
    | Ok clusterIssuer =>
        if negb (isIssuerReady (IssuerConditions clusterIssuer))
        then Err ("clusterIssuer " +:+ name +:+ " is not ready")
        else Ok (IssuerSpec clusterIssuer)
    | Err e => Err ("failed to get ClusterIssuer " +:+ name +:+ ": " +:+ e)
    | Panic => Panic
    end
  else
    match getIssuer env {| nnNamespace := Namespace cr; nnName := name |} with
    | Ok issuer =>
        if negb (isIssuerReady (IssuerConditions issuer))
        then Err ("issuer " +:+ Namespace cr +:+ "/" +:+ name +:+ " is not ready")
        else Ok (IssuerSpec issuer)
    | Err e =>
        Err ("failed to get Issuer " +:+ Namespace cr +:+ "/" +:+ name +:+ ": " +:+ e)
    | Panic => Panic
    end.

(** [setStatus]: the Ready condition is set on the request and the status
    is written; the result is the error of the write. *)
Definition setStatus (env : Env) (cr : CertificateRequest) (status reason message : string)
  : M (result unit) :=
  let cr :=
    {| Name := Name cr; Namespace := Namespace cr; IssuerRef := IssuerRef cr;
       Request := Request cr;
       Conditions :=
         setCondition (Conditions cr)
           {| Type_ := CertificateRequestConditionReady; Status := status;
              Reason := reason; Message := message;
              LastTransitionTime := Some (now env) |};
       Certificate := Certificate cr; CA := CA cr |} in
  log (EvStatusUpdate cr)
    (ret (match statusUpdate env cr with Some e => Err e | None => Ok tt end)).

(** [loadPKIConfig] *)
Definition loadPKIConfig (env : Env) (ref : ConfigMapReference) (requestNamespace : string)
  : result PKIConfig :=
  let namespace := cmNamespace ref in
  let namespace := if bool_decide (namespace = "") then requestNamespace else namespace in
  let namespace := if bool_decide (namespace = "") then defaultNamespace else namespace in
  let key := cmKey ref in
  let key := if bool_decide (key = "") then defaultConfigKey else key in
  match getConfigMap env {| nnNamespace := namespace; nnName := cmName ref |} with
  | Ok data =>
      match data !! key with
      | Some configData =>
          match json_Unmarshal env configData with
          | Ok cfg => Ok cfg
          | Err e => Err ("failed to parse PKI config: " +:+ e)
          | Panic => Panic
          end
      | None =>
          Err ("key " +:+ key +:+ " not found in ConfigMap " +:+ namespace +:+ "/"
               +:+ cmName ref)
      end
  | Err e =>
      Err ("failed to get ConfigMap " +:+ namespace +:+ "/" +:+ cmName ref +:+ ": " +:+ e)
  | Panic => Panic
  end.

(** [loadAuthToken] *)
Definition loadAuthToken (env : Env) (secretName namespace : string) : result string :=
  let namespace := if bool_decide (namespace = "") then defaultNamespace else namespace in
  match getSecret env {| nnNamespace := namespace; nnName := secretName |} with
  | Ok data =>
      match list_find (λ key, is_Some (data !! key)) ["token"; "api-key"; "password"; "apiKey"] with
      | Some (_, key) => Ok (default "" (data !! key))
      | None =>
          Err ("no token found in secret " +:+ namespace +:+ "/" +:+ secretName
               +:+ " (tried: token, api-key, password, apiKey)")
      end
  | Err e =>
      Err ("failed to get secret " +:+ namespace +:+ "/" +:+ secretName +:+ ": " +:+ e)
  | Panic => Panic
  end.

(** The end of [Reconcile], from the health check on, for a signer of
    either kind. *)
Definition checkAndSign {S : Type} `{SignerOps S} (env : Env) (cr : CertificateRequest)
    (certSigner : S) : M (result unit) :=
  log EvCheckHealth
    match CheckHealth certSigner with
    | Panic => ret Panic
    | Err e => setStatus env cr ConditionFalse "SignerError" e
    | Ok _ =>
        log (EvSign (Request cr) 365)
          match Sign certSigner (Request cr) 365 with
          | Err e => setStatus env cr ConditionFalse "SigningFailed" e
          | Panic => ret Panic
          | Ok (certPEM, caPEM) =>
              let cr :=
                {| Name := Name cr; Namespace := Namespace cr; IssuerRef := IssuerRef cr;
                   Request := Request cr; Conditions := Conditions cr;
                   Certificate := certPEM; CA := caPEM |} in
              setStatus env cr ConditionTrue "Issued" "Certificate issued successfully"
          end
    end.

(** [CertificateRequestReconciler.Reconcile]: the error it returns and the
    events on the way. *)
Definition Reconcile (env : Env) (req : NamespacedName) : M (result unit) :=
  match getCertificateRequest env req with
  | NotFound => ret (Ok tt)
  | GetFailed e => ret (Err e)
  | Found cr =>
      if bool_decide (RefGroup (IssuerRef cr) ≠ externalIssuerAPIGroup) then ret (Ok tt)
      else if bool_decide (RefKind (IssuerRef cr) ≠ issuerKind)
              && bool_decide (RefKind (IssuerRef cr) ≠ clusterIssuerKind) then ret (Ok tt)
      else if bool_decide (0 < len (Certificate cr))%nat then ret (Ok tt)
      else if isInTerminalState cr then ret (Ok tt)
      else if isCertificateRequestDenied cr then ret (Ok tt)
      else if negb (isCertificateRequestApproved cr) then ret (Ok tt)
      else
        match getIssuerSpec env cr with
        | Panic => ret Panic
        | Err e => setStatus env cr ConditionFalse "IssuerNotFound" e
        | Ok issuerSpec =>
            let signerType := SignerType issuerSpec in
            let signerType :=
              if bool_decide (signerType = "") then "mockca" else signerType in
            match bool_decide (signerType = "pki"), ConfigMapRef issuerSpec with
            | true, Some ref =>
                match loadPKIConfig env ref (Namespace cr) with
                | Panic => ret Panic
                | Err e => setStatus env cr ConditionFalse "ConfigError" e
                | Ok pkiConfig =>
                    let pkiSigner := Signer.NewPKISigner pkiConfig in
                    if bool_decide (AuthSecretName issuerSpec ≠ "") then
                      match loadAuthToken env (AuthSecretName issuerSpec) (Namespace cr) with
                      | Panic => ret Panic
                      | Err e => setStatus env cr ConditionFalse "AuthError" e
                      | Ok token =>
                          checkAndSign env cr
                            {| pkiEnv := env;
                               pkiSigner := Signer.SetAuthToken pkiSigner token |}
                      end
                    else checkAndSign env cr {| pkiEnv := env; pkiSigner := pkiSigner |}
                end
            | _, _ =>
                checkAndSign env cr {| mockEnv := env; mockURL := URL issuerSpec |}
            end
        end
  end.

(** Example objects: a mock-CA cluster issuer that is ready, an approved
    request for it, and a cluster that holds both. *)
Definition readyIssuer : ExternalIssuer :=
  {| IssuerSpec := {| URL := ""; ConfigMapRef := None; AuthSecretName := "";
                      SignerType := "" |};
     IssuerConditions :=
       [{| Type_ := "Ready"; Status := "True"; Reason := "Success"; Message := "";
           LastTransitionTime := None |}] |}.

Definition requestWith (conditions : list Condition) (certificate : string)
  : CertificateRequest :=
  {| Name := "my-app-tls-1"; Namespace := "my-app";
     IssuerRef := {| RefName := "external-issuer"; RefKind := "ExternalClusterIssuer";
                     RefGroup := "external-issuer.io" |};
     Request := "-----BEGIN CERTIFICATE REQUEST-----";
     Conditions := conditions; Certificate := certificate; CA := None |}.

Definition approved : Condition :=
  {| Type_ := "Approved"; Status := "True"; Reason := "cert-manager.io"; Message := "";
     LastTransitionTime := None |}.

Definition denied : Condition :=
  {| Type_ := "Denied"; Status := "True"; Reason := "policy"; Message := "";
     LastTransitionTime := None |}.

Definition exampleEnv (cr : CertificateRequest) : Env :=
  {| getCertificateRequest := λ _, Found cr;
     getClusterIssuer := λ _, Ok readyIssuer;
     getIssuer := λ _, Ok readyIssuer;
     getConfigMap := λ _, Err "not found";
     getSecret := λ _, Err "not found";
     statusUpdate := λ _, None;
     json_Unmarshal := λ _, Err "unexpected end of JSON input";
     now := 0;
     pkiWorld := Signer.stubWorld Signer.exampleCSR None
                   (Signer.okResponse Signer.oneBlock) map_to_list;
     mockCheckHealth := λ _, Ok tt;
     mockSign := λ _ _ _, Ok (Signer.oneBlock, Some Signer.oneBlock) |}.

Definition exampleKey : NamespacedName :=
  {| nnNamespace := "my-app"; nnName := "my-app-tls-1" |}.

End Controllers.

(** ** The outcomes of a reconciliation *)

Module ControllersAux.
Import GoStrings Controllers.
Import Signer (result, Ok, Err, Panic, PKIConfig, World).

(** The request passes every check of [Reconcile] before the issuer is
    looked up. *)
Definition eligible (cr : CertificateRequest) : bool :=
  bool_decide (RefGroup (IssuerRef cr) = externalIssuerAPIGroup)
  && (bool_decide (RefKind (IssuerRef cr) = issuerKind)
      || bool_decide (RefKind (IssuerRef cr) = clusterIssuerKind))
  && bool_decide (Certificate cr = "")
  && negb (isInTerminalState cr)
  && negb (isCertificateRequestDenied cr)
  && isCertificateRequestApproved cr.

(** The Ready condition that [setStatus] builds. *)
Definition readyCondition (env : Env) (status reason message : string) : Condition :=
  {| Type_ := CertificateRequestConditionReady; Status := status; Reason := reason;
     Message := message; LastTransitionTime := Some (now env) |}.

(** The request as [setStatus] writes it. *)
Definition withReady (env : Env) (cr : CertificateRequest) (status reason message : string)
  : CertificateRequest :=
  {| Name := Name cr; Namespace := Namespace cr; IssuerRef := IssuerRef cr;
     Request := Request cr;
     Conditions := setCondition (Conditions cr) (readyCondition env status reason message);
     Certificate := Certificate cr; CA := CA cr |}.

(** The request with the certificate and the chain of the signer. *)
Definition withCertificate (cr : CertificateRequest) (certPEM : string)
    (caPEM : option string) : CertificateRequest :=
  {| Name := Name cr; Namespace := Namespace cr; IssuerRef := IssuerRef cr;
     Request := Request cr; Conditions := Conditions cr;
     Certificate := certPEM; CA := caPEM |}.

(** A reconciliation that ends with the write of [cr] after the events
    [calls]. *)
Definition writeOutcome (calls : list Event) (env : Env) (cr : CertificateRequest)
  : M (result unit) :=
  (calls ++ [EvStatusUpdate cr],
   match statusUpdate env cr with Some e => Err e | None => Ok tt end).

(** The reasons of the failures that [Reconcile] reports on the request. *)
Definition failureReasons : list string :=
  ["IssuerNotFound"; "ConfigError"; "AuthError"; "SignerError"; "SigningFailed"].

(** The environment with another PKI side: ConfigMaps, Secrets, JSON
    decoding and the world of the PKI signer. *)
Definition withPKISide (env : Env)
    (configMaps secrets : NamespacedName → result (gmap string string))
    (unmarshal : string → result PKIConfig) (w : World) : Env :=
  {| getCertificateRequest := getCertificateRequest env;
     getClusterIssuer := getClusterIssuer env;
     getIssuer := getIssuer env;
     getConfigMap := configMaps;
     getSecret := secrets;
     statusUpdate := statusUpdate env;
     json_Unmarshal := unmarshal;
     now := now env;
     pkiWorld := w;
     mockCheckHealth := mockCheckHealth env;
     mockSign := mockSign env |}.

(** The example cluster with a failing write of the status, and with a
    signer that fails. *)
Definition conflictEnv (cr : CertificateRequest) : Env :=
  {| getCertificateRequest := λ _, Found cr;
     getClusterIssuer := λ _, Ok readyIssuer;
     getIssuer := λ _, Ok readyIssuer;
     getConfigMap := λ _, Err "not found";
     getSecret := λ _, Err "not found";
     statusUpdate := λ _, Some "the object has been modified";
     json_Unmarshal := λ _, Err "unexpected end of JSON input";
     now := 0;
     pkiWorld := pkiWorld (exampleEnv cr);
     mockCheckHealth := λ _, Ok tt;
     mockSign := λ _ _ _, Ok (Signer.oneBlock, Some Signer.oneBlock) |}.

Definition failingSignerEnv (cr : CertificateRequest) : Env :=
  {| getCertificateRequest := λ _, Found cr;
     getClusterIssuer := λ _, Ok readyIssuer;
     getIssuer := λ _, Ok readyIssuer;
     getConfigMap := λ _, Err "not found";
     getSecret := λ _, Err "not found";
     statusUpdate := λ _, None;
     json_Unmarshal := λ _, Err "unexpected end of JSON input";
     now := 0;
     pkiWorld := pkiWorld (exampleEnv cr);
     mockCheckHealth := λ _, Ok tt;
     mockSign := λ _ _ _, Err "failed to parse CSR" |}.

(** The requests that the example clusters write. *)
Definition issuedRequest : CertificateRequest :=
  withReady (exampleEnv (requestWith [approved] ""))
    (withCertificate (requestWith [approved] "") Signer.oneBlock (Some Signer.oneBlock))
    ConditionTrue "Issued" "Certificate issued successfully".

Definition failedRequest : CertificateRequest :=
  withReady (failingSignerEnv (requestWith [approved] "")) (requestWith [approved] "")
    ConditionFalse "SigningFailed" "failed to parse CSR".

(** A ready issuer of type [pki] without a ConfigMap reference. *)
Definition pkiWithoutConfig : ExternalIssuer :=
  {| IssuerSpec := {| URL := "http://mockca"; ConfigMapRef := None;
                      AuthSecretName := "pki-token"; SignerType := "pki" |};
     IssuerConditions := IssuerConditions readyIssuer |}.

Definition pkiWithoutConfigEnv (cr : CertificateRequest) : Env :=
  {| getCertificateRequest := λ _, Found cr;
     getClusterIssuer := λ _, Ok pkiWithoutConfig;
     getIssuer := λ _, Ok pkiWithoutConfig;
     getConfigMap := λ _, Err "not found";
     getSecret := λ _, Err "not found";
     statusUpdate := λ _, None;
     json_Unmarshal := λ _, Err "unexpected end of JSON input";
     now := 0;
     pkiWorld := pkiWorld (exampleEnv cr);
     mockCheckHealth := λ _, Ok tt;
     mockSign := λ _ _ _, Ok (Signer.oneBlock, Some Signer.oneBlock) |}.

End ControllersAux.

(** ** One reconciliation after the other *)

Module ReconcileAgain.
Import GoStrings Controllers ControllersAux.
Import Signer (result, Ok, Err, Panic).








End ReconcileAgain.

(** ** The controllers package: the reconcilers of the two issuer kinds *)

Module IssuerControllers.
Import GoStrings Controllers.
Import Signer (result, Ok, Err, Panic, PKIConfig).

(** [metav1.Condition] as the issuer reconcilers build it. *)
Record StatusCondition := {
  condType : string;
  condStatus : string;
  condReason : string;
  condMessage : string;
  condLastTransitionTime : Z;
  condObservedGeneration : Z
}.

(** [ExternalIssuer] and [ExternalClusterIssuer] as objects: metadata,
    spec and the conditions of the status.  A cluster issuer has no
    namespace. *)
Record IssuerObject := {
  objName : string;
  objNamespace : string;
  objGeneration : Z;
  objSpec : ExternalIssuerSpec;
  objConditions : list StatusCondition
}.

(** The cluster as the issuer reconcilers see it: the cluster of the
    request reconciler, the two kinds of issuer objects, the write of an
    issuer's status, and [meta.SetStatusCondition] of apimachinery. *)
Record IssuerEnv := {
  cluster : Env;
  getExternalIssuer : NamespacedName → GetResult IssuerObject;
  getExternalClusterIssuer : NamespacedName → GetResult IssuerObject;
  issuerStatusUpdate : IssuerObject → option string;
  meta_SetStatusCondition : list StatusCondition → StatusCondition → list StatusCondition
}.

(** What an issuer reconciliation does to the outside. *)
Inductive IssuerEvent : Type :=
  | IvCheckHealth
  | IvSetStatusCondition (condition : StatusCondition)
  | IvStatusUpdate (issuer : IssuerObject).

(** [IssuerReconciler.loadPKIConfigForIssuer] *)
Definition loadPKIConfigForIssuer (env : Env) (ref : ConfigMapReference) (defaultNs : string)
  : result PKIConfig :=
  let namespace := cmNamespace ref in
  let namespace := if bool_decide (namespace = "") then defaultNs else namespace in
  let key := cmKey ref in
  let key := if bool_decide (key = "") then "pki-config.json" else key in
  match getConfigMap env {| nnNamespace := namespace; nnName := cmName ref |} with
  | Ok data =>
      match data !! key with
      | Some configData =>
          match json_Unmarshal env configData with
          | Ok cfg => Ok cfg
          | Err e => Err ("failed to parse PKI config: " +:+ e)
          | Panic => Panic
          end
      | None => Err ("key " +:+ key +:+ " not found in ConfigMap")
      end
  | Err e =>
      Err ("failed to get ConfigMap " +:+ namespace +:+ "/" +:+ cmName ref +:+ ": " +:+ e)
  | Panic => Panic
  end.

(** [ClusterIssuerReconciler.loadPKIConfigForClusterIssuer] *)
Definition loadPKIConfigForClusterIssuer (env : Env) (ref : ConfigMapReference)
  : result PKIConfig :=
  let namespace := cmNamespace ref in
  let namespace := if bool_decide (namespace = "") then defaultNamespace else namespace in
  let key := cmKey ref in
  let key := if bool_decide (key = "") then "pki-config.json" else key in
  match getConfigMap env {| nnNamespace := namespace; nnName := cmName ref |} with
  | Ok data =>
      match data !! key with
      | Some configData =>
          match json_Unmarshal env configData with
          | Ok cfg => Ok cfg
          | Err e => Err ("failed to parse PKI config: " +:+ e)
          | Panic => Panic
          end
      | None => Err ("key " +:+ key +:+ " not found in ConfigMap")
      end
  | Err e =>
      Err ("failed to get ConfigMap " +:+ namespace +:+ "/" +:+ cmName ref +:+ ": " +:+ e)
  | Panic => Panic
  end.

(** The Ready condition that the issuer reconcilers build from the error
    [err] of the health check, [Ok tt] for nil. *)
Definition healthCondition (env : Env) (issuer : IssuerObject) (signerType : string)
    (err : result unit) : StatusCondition :=
  match err with
  | Err e =>
      {| condType := issuerReadyCondition; condStatus := ConditionFalse;
         condReason := "HealthCheckFailed"; condMessage := e;
         condLastTransitionTime := now env;
         condObservedGeneration := objGeneration issuer |}
  | _ =>
      {| condType := issuerReadyCondition; condStatus := ConditionTrue;
         condReason := "Success";
         condMessage := signerType +:+ " CA is healthy and ready";
         condLastTransitionTime := now env;
         condObservedGeneration := objGeneration issuer |}
  end.

(** The end of the two [Reconcile] functions, from the condition on: the
    condition is set on the issuer and the status is written. *)
Definition writeIssuerStatus (ienv : IssuerEnv) (issuer : IssuerObject)
    (signerType : string) (calls : list IssuerEvent) (err : result unit)
  : list IssuerEvent * result unit :=
  match err with
  | Panic => (calls, Panic)
  | _ =>
      let condition := healthCondition (cluster ienv) issuer signerType err in
      let issuer :=
        {| objName := objName issuer; objNamespace := objNamespace issuer;
           objGeneration := objGeneration issuer; objSpec := objSpec issuer;
           objConditions :=
             meta_SetStatusCondition ienv (objConditions issuer) condition |} in
      (calls ++ [IvSetStatusCondition condition; IvStatusUpdate issuer],
       match issuerStatusUpdate ienv issuer with
       | Some updateErr => Err updateErr
       | None => Ok tt
       end)
  end.

(** The body that [IssuerReconciler.Reconcile] and
    [ClusterIssuerReconciler.Reconcile] have in common, from the answer
    [found] of [r.Get] on; [load] is the call of the reconciler's loader. *)
Definition reconcileIssuer (ienv : IssuerEnv) (found : GetResult IssuerObject)
    (load : IssuerObject → ConfigMapReference → result PKIConfig)
  : list IssuerEvent * result unit :=
  match found with
  | NotFound => ([], Ok tt)
  | GetFailed e => ([], Err e)
  | Found issuer =>
      let env := cluster ienv in
      let signerType := SignerType (objSpec issuer) in
      let signerType := if bool_decide (signerType = "") then "mockca" else signerType in
      match bool_decide (signerType = "pki"), ConfigMapRef (objSpec issuer) with
      | true, Some ref =>
          match load issuer ref with
          | Err loadErr => writeIssuerStatus ienv issuer signerType [] (Err loadErr)
          | Panic => ([], Panic)
          | Ok pkiConfig =>
              writeIssuerStatus ienv issuer signerType [IvCheckHealth]
                (Signer.CheckHealth (pkiWorld env) (Signer.NewPKISigner pkiConfig))
          end
      | _, _ =>
          writeIssuerStatus ienv issuer signerType [IvCheckHealth]
            (mockCheckHealth env (URL (objSpec issuer)))
      end
  end.

(** [IssuerReconciler.Reconcile] *)
Definition IssuerReconcile (ienv : IssuerEnv) (req : NamespacedName)
  : list IssuerEvent * result unit :=
  reconcileIssuer ienv (getExternalIssuer ienv req)
    (λ issuer ref, loadPKIConfigForIssuer (cluster ienv) ref (objNamespace issuer)).

(** [ClusterIssuerReconciler.Reconcile] *)
Definition ClusterIssuerReconcile (ienv : IssuerEnv) (req : NamespacedName)
  : list IssuerEvent * result unit :=
  reconcileIssuer ienv (getExternalClusterIssuer ienv req)
    (λ _ ref, loadPKIConfigForClusterIssuer (cluster ienv) ref).

(** Example: a cluster whose ConfigMap [pki-config] in the namespace [pki]
    holds a configuration, and an issuer of type [pki] that refers to
    it. *)
Definition pkiRef : ConfigMapReference :=
  {| cmName := "pki-config"; cmNamespace := "pki"; cmKey := "" |}.

Definition pkiIssuerObject : IssuerObject :=
  {| objName := "external-issuer"; objNamespace := "my-app"; objGeneration := 3;
     objSpec := {| URL := ""; ConfigMapRef := Some pkiRef; AuthSecretName := "";
                   SignerType := "pki" |};
     objConditions := [] |}.

Definition pkiCluster : Env :=
  {| getCertificateRequest := λ _, NotFound;
     getClusterIssuer := λ _, Err "not found";
     getIssuer := λ _, Err "not found";
     getConfigMap := λ key,
       if bool_decide (nnNamespace key = "pki") && bool_decide (nnName key = "pki-config")
       then Ok {[ "pki-config.json" := "{}" ]} else Err "not found";
     getSecret := λ _, Err "not found";
     statusUpdate := λ _, None;
     json_Unmarshal := λ _, Ok Signer.DefaultPKIConfig;
     now := 0;
     pkiWorld := Signer.stubWorld Signer.exampleCSR None
                   (Signer.okResponse Signer.oneBlock) map_to_list;
     mockCheckHealth := λ _, Ok tt;
     mockSign := λ _ _ _, Err "not used" |}.

Definition pkiIssuerEnv : IssuerEnv :=
  {| cluster := pkiCluster;
     getExternalIssuer := λ _, Found pkiIssuerObject;
     getExternalClusterIssuer := λ _, Found pkiIssuerObject;
     issuerStatusUpdate := λ _, None;
     meta_SetStatusCondition := λ conditions condition, conditions ++ [condition] |}.

Definition readyTrue : StatusCondition :=
  {| condType := "Ready"; condStatus := "True"; condReason := "Success";
     condMessage := "pki CA is healthy and ready"; condLastTransitionTime := 0;
     condObservedGeneration := 3 |}.

End IssuerControllers.

(** * Properties *)

(** ** Slicing and searching *)

Module GoStringsFacts.
Import GoStrings.

Lemma str_app_cons (x : ascii) (a b : string) : String x a +:+ b = String x (a +:+ b).
Proof. reflexivity. Qed.

Lemma str_app_nil_l (b : string) : "" +:+ b = b.
Proof. reflexivity. Qed.

(** [String.append] is kept folded by [simpl]; [sapp] pushes it through
    the constructors. *)
Ltac sapp := repeat (rewrite str_app_cons in * || rewrite str_app_nil_l in *); simpl in *.

Lemma str_app_assoc (a b c : string) : (a +:+ b) +:+ c = a +:+ (b +:+ c).
Proof. induction a as [|x a IH]; sapp; [done | by rewrite IH]. Qed.

Lemma str_app_nil_r (a : string) : a +:+ "" = a.
Proof. induction a as [|x a IH]; sapp; [done | by rewrite IH]. Qed.

Lemma len_app (a b : string) : len (a +:+ b) = len a + len b.
Proof. induction a as [|x a IH]; sapp; [done | by rewrite IH]. Qed.

Lemma sliceFrom_app (a b : string) : sliceFrom (len a) (a +:+ b) = b.
Proof. induction a as [|x a IH]; sapp; [by destruct b | done]. Qed.

Lemma sliceTo_app (a b : string) : sliceTo (len a) (a +:+ b) = a.
Proof. induction a as [|x a IH]; sapp; [done | by rewrite IH]. Qed.

Lemma sliceFrom_add (n m : nat) (s : string) :
  sliceFrom (n + m) s = sliceFrom m (sliceFrom n s).
Proof.
  revert s; induction n as [|n IH]; intros s; [done |].
  destruct s; simpl; [by destruct m | apply IH].
Qed.

Lemma len_sliceFrom (n : nat) (s : string) : len (sliceFrom n s) = len s - n.
Proof.
  revert s; induction n as [|n IH]; intros s; simpl; [lia |].
  destruct s; simpl; [done | apply IH].
Qed.

Lemma HasPrefix_app (p r : string) : HasPrefix (p +:+ r) p = true.
Proof. induction p as [|x p IH]; sapp; [done | by rewrite Ascii.eqb_refl]. Qed.

Lemma HasPrefix_inv (s p : string) :
  HasPrefix s p = true → ∃ r, s = p +:+ r.
Proof.
  revert s; induction p as [|x p IH]; intros s H; simpl in *; [by exists s |].
  destruct s as [|c s]; [done |].
  destruct (Ascii.eqb c x) eqn:E; [|done].
  apply Ascii.eqb_eq in E as ->.
  destruct (IH _ H) as [r ->]. by exists r.
Qed.

(** [s] has an instance of [sub] at offset [i]. *)
Definition occurs_at (sub s : string) (i : nat) : Prop :=
  ∃ a b, s = a +:+ sub +:+ b ∧ len a = i.

Lemma occurs_at_0 (sub s : string) : occurs_at sub s 0 ↔ HasPrefix s sub = true.
Proof.
  split.
  - intros (a & b & -> & Ha). destruct a; [|done].
    rewrite str_app_nil_l. apply HasPrefix_app.
  - intros [r ->]%HasPrefix_inv. by exists "", r.
Qed.

Lemma occurs_at_S (sub : string) (c : ascii) (s : string) (i : nat) :
  occurs_at sub (String c s) (S i) ↔ occurs_at sub s i.
Proof.
  split.
  - intros (a & b & E & Ha). destruct a as [|x a]; [done |].
    sapp. simplify_eq. by exists a, b.
  - intros (a & b & -> & <-). by exists (String c a), b.
Qed.

(** [Index] returns an offset where [substr] occurs, and the least one. *)
Lemma Index_Some (s sub : string) (i : nat) :
  Index s sub = Some i →
  occurs_at sub s i ∧ ∀ j, occurs_at sub s j → (i ≤ j)%nat.
Proof.
  revert i; induction s as [|c s IH]; intros i; simpl.
  - destruct (HasPrefix "" sub) eqn:E; [|done].
    intros [= <-]. split; [by apply occurs_at_0 | lia].
  - destruct (HasPrefix (String c s) sub) eqn:E.
    + intros [= <-]. split; [by apply occurs_at_0 | lia].
    + destruct (Index s sub) as [k|] eqn:Ek; [|done].
      intros [= <-]. destruct (IH k eq_refl) as [Hk Hmin]. split.
      * by apply occurs_at_S.
      * intros [|j] Hj.
        -- apply occurs_at_0 in Hj. congruence.
        -- apply occurs_at_S, Hmin in Hj. lia.
Qed.

Lemma Index_None (s sub : string) (j : nat) :
  Index s sub = None → ¬ occurs_at sub s j.
Proof.
  revert j; induction s as [|c s IH]; intros j; simpl.
  - destruct (HasPrefix "" sub) eqn:E; [done |].
    intros _ (a & b & Eq & _). destruct a; sapp; [|done].
    destruct sub; sapp; done.
  - destruct (HasPrefix (String c s) sub) eqn:E; [done |].
    destruct (Index s sub) eqn:Ek; [done |]. intros _ Hj.
    destruct j as [|j].
    + apply occurs_at_0 in Hj. congruence.
    + apply occurs_at_S in Hj. by eapply IH.
Qed.

(** The converse: the least offset of an instance is what [Index] returns. *)
Lemma Index_first (s sub : string) (i : nat) :
  occurs_at sub s i → (∀ j, occurs_at sub s j → (i ≤ j)%nat) → Index s sub = Some i.
Proof.
  intros Hi Hmin. destruct (Index s sub) as [k|] eqn:E.
  - destruct (Index_Some _ _ _ E) as [Hk Hkmin].
    f_equal. apply Nat.le_antisymm; auto.
  - by destruct (Index_None _ _ i E).
Qed.

(** An instance of [sub] that starts inside [s] and ends inside [s +:+ t]
    is an instance in [s +:+ t +:+ u] and conversely: appending text after
    the end of the first instance does not move it. *)
Lemma occurs_at_app_r (sub s t : string) (i : nat) :
  occurs_at sub s i → occurs_at sub (s +:+ t) i.
Proof.
  intros (a & b & -> & <-). exists a, (b +:+ t).
  by rewrite !str_app_assoc.
Qed.

Lemma app_eq_len (a b a' b' : string) :
  a +:+ b = a' +:+ b' → len a = len a' → a = a' ∧ b = b'.
Proof.
  revert a'; induction a as [|x a IH]; intros [|y a'] E L; sapp; try done.
  simplify_eq. destruct (IH a') as [-> ->]; [done | lia | done].
Qed.

Lemma app_split_le (a b a' b' : string) :
  a +:+ b = a' +:+ b' → (len a' ≤ len a)%nat → ∃ m, a = a' +:+ m ∧ b' = m +:+ b.
Proof.
  revert a'; induction a as [|x a IH]; intros [|y a'] E L; sapp.
  - by exists "".
  - lia.
  - exists (String x a). by rewrite <- E.
  - simplify_eq. destruct (IH a') as (m & -> & ->); [done | lia |]. by exists m.
Qed.

Lemma occurs_at_app_inv (sub s t : string) (i : nat) :
  occurs_at sub (s +:+ t) i → (i + len sub ≤ len s)%nat → occurs_at sub s i.
Proof.
  intros (a & b & E & <-) L.
  rewrite <- str_app_assoc in E.
  destruct (app_split_le _ _ _ _ E) as (m & E1 & E2).
  { rewrite len_app. lia. }
  exists a, m. by rewrite E1, str_app_assoc.
Qed.

Lemma Index_app_r (s sub t : string) (i : nat) :
  Index s sub = Some i → Index (s +:+ t) sub = Some i.
Proof.
  intros H. destruct (Index_Some _ _ _ H) as [Hi Hmin].
  apply Index_first; [by apply occurs_at_app_r |].
  intros j Hj. destruct (decide (i ≤ j)%nat) as [|Hn]; [done |].
  apply Hmin. apply (occurs_at_app_inv _ _ t); [done |].
  destruct Hi as (a & b & -> & <-). rewrite !len_app. lia.
Qed.

End GoStringsFacts.

(** ** The PKI adapter *)

Module SignerFacts.
Import GoStrings GoStringsFacts Signer.

(** *** The scanner of [extractCAChain] *)

Lemma TrimRight_nonspace (a : string) (c : ascii) :
  asciiSpace c = false → TrimRight (a +:+ String c "") = a +:+ String c "".
Proof.
  intros Hc. induction a as [|x a IH]; sapp.
  - by rewrite Hc.
  - rewrite IH. by destruct a.
Qed.

Lemma ends_with_END (blk : string) :
  Index blk END_CERTIFICATE = Some (len blk - len END_CERTIFICATE) →
  ∃ a, blk = a +:+ END_CERTIFICATE.
Proof.
  intros H. destruct (Index_Some _ _ _ H) as [(a & b & E & La) _].
  exists a. assert (len b = 0) as Hb.
  { apply (f_equal String.length) in E. rewrite !len_app in E. lia. }
  destruct b; [|done]. by rewrite E, str_app_nil_r.
Qed.

Lemma TrimSpace_block (blk : string) : isBlock blk = true → TrimSpace blk = blk.
Proof.
  intros [Hp Hi%bool_decide_eq_true]%andb_true_iff.
  apply HasPrefix_inv in Hp as [r Hr].
  destruct (ends_with_END _ Hi) as [a Ha].
  unfold TrimSpace. replace (TrimLeft blk) with blk by (by rewrite Hr).
  rewrite Ha. change END_CERTIFICATE with ("-----END CERTIFICATE----" +:+ String "-" "").
  rewrite <- str_app_assoc. by apply TrimRight_nonspace.
Qed.

Lemma Index_inside (s : string) (start : nat) :
  Index s BEGIN_CERTIFICATE = Some start → (start < len s)%nat.
Proof.
  intros H. destruct (Index_Some _ _ _ H) as [(a & b & -> & <-) _].
  rewrite !len_app. simpl. lia.
Qed.

(** The rounds of the loop never need more fuel than the length of what
    remains: the result does not depend on the fuel beyond it. *)
Lemma extractLoop_fuel (f1 f2 : nat) (r : string) (b : bool) (acc : list string) :
  (len r < f1)%nat → (len r < f2)%nat → extractLoop f1 r b acc = extractLoop f2 r b acc.
Proof.
  revert f2 r b acc. induction f1 as [|f1 IH]; intros [|f2] r b acc H1 H2; try lia.
  simpl. destruct (Index r BEGIN_CERTIFICATE) as [start|] eqn:Es; [|done].
  destruct (Index (sliceFrom start r) END_CERTIFICATE) as [e|] eqn:Ee; [|done].
  apply Index_inside in Es.
  apply IH; rewrite len_sliceFrom; lia.
Qed.

Lemma extractLoop_round (f : nat) (r : string) (b : bool) (acc : list string)
    (start e : nat) :
  Index r BEGIN_CERTIFICATE = Some start →
  Index (sliceFrom start r) END_CERTIFICATE = Some e →
  extractLoop (S f) r b acc
  = extractLoop f (sliceFrom (start + e + len END_CERTIFICATE) r) false
      (if b then acc
       else acc ++ [TrimSpace (slice start (start + e + len END_CERTIFICATE) r)]).
Proof. intros H1 H2. simpl. by rewrite H1, H2. Qed.

(** One round: the loop takes the block that follows a gap. *)
Lemma extractLoop_block (g blk rest : string) (isFirst : bool) (acc : list string) :
  isGap g = true → isBlock blk = true →
  extractLoop (S (len (g +:+ blk +:+ rest))) (g +:+ blk +:+ rest) isFirst acc
  = extractLoop (S (len rest)) rest false (if isFirst then acc else acc ++ [blk]).
Proof.
  intros Hg%bool_decide_eq_true Hb.
  pose proof (TrimSpace_block _ Hb) as Htrim.
  apply andb_true_iff in Hb as [Hp Hi%bool_decide_eq_true].
  apply HasPrefix_inv in Hp as [x Hx].
  assert (Index (g +:+ blk +:+ rest) BEGIN_CERTIFICATE = Some (len g)) as Es.
  { rewrite Hx.
    replace (g +:+ (BEGIN_CERTIFICATE +:+ x) +:+ rest)
      with ((g +:+ BEGIN_CERTIFICATE) +:+ (x +:+ rest)) by (by rewrite !str_app_assoc).
    by apply Index_app_r. }
  assert (Index (blk +:+ rest) END_CERTIFICATE = Some (len blk - len END_CERTIFICATE))
    as Ee by (by apply Index_app_r).
  destruct (ends_with_END _ Hi) as [a Ha].
  assert (len g + (len blk - len END_CERTIFICATE) + len END_CERTIFICATE
          = len g + len blk)%nat as El.
  { rewrite Ha, len_app. lia. }
  rewrite (extractLoop_round _ _ _ _ (len g) (len blk - len END_CERTIFICATE));
    [|done|by rewrite sliceFrom_app].
  rewrite El. unfold slice.
  replace (len g + len blk - len g)%nat with (len blk) by lia.
  rewrite sliceFrom_app, sliceTo_app, Htrim.
  rewrite sliceFrom_add, sliceFrom_app, sliceFrom_app.
  assert (0 < len blk)%nat by (rewrite Hx, len_app; simpl; lia).
  apply extractLoop_fuel; rewrite ?len_app; lia.
Qed.

(** Every stream in which the scanner finds a block splits into a gap, a
    block and a rest in the sense of [isGap] and [isBlock]. *)
Lemma first_block_decomposition (body : string) (start e : nat) :
  Index body BEGIN_CERTIFICATE = Some start →
  Index (sliceFrom start body) END_CERTIFICATE = Some e →
  ∃ g blk rest,
    body = g +:+ blk +:+ rest ∧ isGap g = true ∧ isBlock blk = true
    ∧ len g = start ∧ len blk = (e + len END_CERTIFICATE)%nat.
Proof.
  intros Es Ee.
  destruct (Index_Some _ _ _ Es) as [(a & b & -> & <-) Hmin].
  rewrite sliceFrom_app in Ee.
  destruct (Index_Some _ _ _ Ee) as [(p & q & Epq & <-) Hmin'].
  exists a, (p +:+ END_CERTIFICATE), q.
  assert (2 ≤ len p)%nat as Hp.
  { destruct p as [|c1 [|c2 p]]; [| |simpl; lia]; vm_compute in Epq; discriminate. }
  split_and!.
  - by rewrite Epq, str_app_assoc.
  - apply bool_decide_eq_true, Index_first.
    + exists a, "". by rewrite str_app_nil_r.
    + intros j Hj. apply Hmin. rewrite <- str_app_assoc. by apply occurs_at_app_r.
  - apply andb_true_iff. split.
    + rewrite <- str_app_assoc in Epq.
      destruct (app_split_le _ _ _ _ (eq_sym Epq)) as (m & -> & _).
      { rewrite len_app. simpl. lia. }
      apply HasPrefix_app.
    + apply bool_decide_eq_true. rewrite len_app.
      replace (len p + len END_CERTIFICATE - len END_CERTIFICATE)%nat with (len p) by lia.
      apply Index_first.
      * exists p, "". by rewrite str_app_nil_r.
      * intros j Hj. apply Hmin'. rewrite Epq, <- str_app_assoc.
        by apply occurs_at_app_r.
  - done.
  - by rewrite len_app.
Qed.

(** The loop stops where no block is left. *)
Lemma extractLoop_stop (f : nat) (r : string) (isFirst : bool) (acc : list string) :
  hasBlock r = false → extractLoop f r isFirst acc = acc.
Proof.
  unfold hasBlock. intros H. destruct f as [|f]; [done |]. simpl.
  destruct (Index r BEGIN_CERTIFICATE) as [start|]; [|done].
  by destruct (Index (sliceFrom start r) END_CERTIFICATE).
Qed.

(** [hasBlock] in words: some END marker starts at or after some BEGIN
    marker. *)
Lemma hasBlock_spec (r : string) :
  hasBlock r = true ↔
  ∃ i j, (i ≤ j)%nat ∧ occurs_at BEGIN_CERTIFICATE r i ∧ occurs_at END_CERTIFICATE r j.
Proof.
  unfold hasBlock. split.
  - destruct (Index r BEGIN_CERTIFICATE) as [start|] eqn:Es; [|done].
    destruct (Index (sliceFrom start r) END_CERTIFICATE) as [e|] eqn:Ee; [|done].
    intros _. exists start, (start + e)%nat. split; [lia |].
    destruct (Index_Some _ _ _ Es) as [Hs _]. split; [done |].
    destruct (Index_Some _ _ _ Ee) as [(a & b & E & <-) _].
    destruct Hs as (p & q & -> & <-). rewrite sliceFrom_app in E.
    exists (p +:+ a), b. rewrite len_app. split; [|done].
    by rewrite str_app_assoc, <- E.
  - intros (i & j & Hij & Hi & (a & b & E & <-)).
    destruct (Index r BEGIN_CERTIFICATE) as [start|] eqn:Es;
      [|by destruct (Index_None _ _ i Es)].
    destruct (Index_Some _ _ _ Es) as [(p & q & Ep & <-) Hmin].
    specialize (Hmin _ Hi).
    destruct (Index (sliceFrom (len p) r) END_CERTIFICATE) eqn:Ee; [done |].
    destruct (Index_None _ _ (len a - len p) Ee).
    rewrite E in Ep. destruct (app_split_le _ _ _ _ Ep) as (m & -> & Em); [lia |].
    rewrite E, str_app_assoc, sliceFrom_app. exists m, b. split; [done |].
    rewrite len_app. lia.
Qed.

(** *** Signing *)

Lemma Contains_first_block (g blk rest : string) :
  isGap g = true → isBlock blk = true →
  Contains (g +:+ blk +:+ rest) BEGIN_CERTIFICATE = true.
Proof.
  intros Hg%bool_decide_eq_true [Hp _]%andb_true_iff.
  apply HasPrefix_inv in Hp as [x ->]. unfold Contains.
  replace (g +:+ (BEGIN_CERTIFICATE +:+ x) +:+ rest)
    with ((g +:+ BEGIN_CERTIFICATE) +:+ (x +:+ rest)) by (by rewrite !str_app_assoc).
  by rewrite (Index_app_r _ _ _ _ Hg).
Qed.

(** [Sign] once the exchange has answered 200 with a body that holds a
    BEGIN marker. *)
Lemma Sign_of_exchange (w : World) (s : PKISigner) (csrPEM : string) (days : Z)
    (block : Block) (csr : CertificateRequest) (resp : HTTPResponse) :
  pem_Decode w csrPEM = Some block →
  BlockType block = "CERTIFICATE REQUEST" →
  x509_ParseCertificateRequest w (Bytes block) = Ok csr →
  sendRequest w s (buildRequestParams s csr) = Ok resp →
  StatusCode resp = 200%Z → BodyErr resp = None →
  Contains (BodyData resp) BEGIN_CERTIFICATE = true →
  Sign w s csrPEM days = Ok (BodyData resp, extractCAChain s (BodyData resp)).
Proof.
  intros Hd Ht Hp Hs H200 Hr Hc. unfold Sign, makeRequest, parseResponse.
  rewrite Hd, bool_decide_eq_false_2 by (by rewrite Ht; intros []).
  rewrite Hp, Hs, Hr, bool_decide_eq_false_2 by (by rewrite H200; intros []).
  by rewrite Hc.
Qed.

(** [Sign] calls neither [csr.CheckSignature] nor anything that does: its
    result is the same whatever the signature check would answer. *)
Lemma Sign_never_checks_signature (w : World) (check : CertificateRequest → option string)
    (s : PKISigner) (csrPEM : string) (days : Z) :
  Sign {| pem_Decode := pem_Decode w;
          x509_ParseCertificateRequest := x509_ParseCertificateRequest w;
          x509_CheckSignature := check;
          url_Encode := url_Encode w; url_ParseErr := url_ParseErr w;
          http_CanonicalHeaderKey := http_CanonicalHeaderKey w;
          http_Do := http_Do w; map_range := map_range w |} s csrPEM days
  = Sign w s csrPEM days.
Proof. reflexivity. Qed.

(** C1, on the code: a CSR whose signature does not verify is sent to the
    PKI API all the same and [PKISigner.Sign] returns the certificate that
    comes back; no signature error is raised. *)
Lemma Sign_accepts_invalid_signature :
  let w := stubWorld exampleCSR (Some "crypto/rsa: verification error")
             (okResponse oneBlock) map_to_list in
  x509_CheckSignature w exampleCSR = Some "crypto/rsa: verification error"
  ∧ Sign w exampleSigner "-----BEGIN CERTIFICATE REQUEST-----" 365 = Ok (oneBlock, None).
Proof. split; reflexivity. Qed.

(** [parseResponse] does not look at the configured response format. *)
Lemma parseResponse_ignores_format (s s' : PKISigner) (body : string) :
  parseResponse s body = parseResponse s' body.
Proof. reflexivity. Qed.

(** C3, on the code: with [format = json] and the certificate declared in
    the field [certificate.pem], a JSON body without that field is returned
    as it is, as if it were PEM, when a BEGIN marker occurs anywhere in it;
    and a JSON body without any marker is refused with a message that does
    not name the field. *)
Lemma parseResponse_json_not_unwrapped :
  Format (Response (config jsonSigner)) = "json"
  ∧ CertificateField (Response (config jsonSigner)) = "certificate.pem"
  ∧ parseResponse jsonSigner jsonWithoutField = Ok jsonWithoutField
  ∧ Sign (stubWorld exampleCSR None (okResponse jsonWithoutField) map_to_list)
         jsonSigner "-----BEGIN CERTIFICATE REQUEST-----" 365
    = Ok (jsonWithoutField, None)
  ∧ parseResponse jsonSigner jsonError = Err "no certificate in response"
  ∧ Contains "no certificate in response" "certificate.pem" = false.
Proof. repeat split; reflexivity. Qed.

(** C10: when the response body holds one certificate block and no block
    after it, and the exchange succeeds, [extractCAChain] yields nil and
    [Sign] succeeds with the body as certificate and a nil CA chain. *)
Theorem Sign_single_block_nil_chain (w : World) (s : PKISigner) (csrPEM : string)
    (days : Z) (block : Block) (csr : CertificateRequest) (resp : HTTPResponse)
    (g blk rest : string) :
  pem_Decode w csrPEM = Some block →
  BlockType block = "CERTIFICATE REQUEST" →
  x509_ParseCertificateRequest w (Bytes block) = Ok csr →
  sendRequest w s (buildRequestParams s csr) = Ok resp →
  StatusCode resp = 200%Z → BodyErr resp = None →
  BodyData resp = g +:+ blk +:+ rest →
  isGap g = true → isBlock blk = true → hasBlock rest = false →
  extractCAChain s (BodyData resp) = None
  ∧ Sign w s csrPEM days = Ok (BodyData resp, None).
Proof.
  intros Hd Ht Hp Hs H200 Hr Hb Hg Hblk Hrest.
  assert (extractCAChain s (BodyData resp) = None) as Hnil.
  { unfold extractCAChain. rewrite Hb, (extractLoop_block _ _ _ _ _ Hg Hblk).
    by rewrite extractLoop_stop. }
  split; [done |]. rewrite <- Hnil.
  eapply Sign_of_exchange; eauto.
  rewrite Hb. by apply Contains_first_block.
Qed.

Lemma Sign_single_block_nil_chain_witness :
  let w := stubWorld exampleCSR None (okResponse oneBlock) map_to_list in
  extractCAChain exampleSigner oneBlock = None
  ∧ Sign w exampleSigner "-----BEGIN CERTIFICATE REQUEST-----" 365 = Ok (oneBlock, None).
Proof.
  exact (Sign_single_block_nil_chain
           (stubWorld exampleCSR None (okResponse oneBlock) map_to_list)
           exampleSigner "-----BEGIN CERTIFICATE REQUEST-----" 365
           {| BlockType := "CERTIFICATE REQUEST"; Bytes := "" |} exampleCSR
           (okResponse oneBlock) "" (pemBlock "AAAA") newline
           eq_refl eq_refl eq_refl eq_refl eq_refl eq_refl eq_refl eq_refl eq_refl eq_refl).
Defined.

(** C2, as the code has it: when the response body holds three certificate
    blocks [b1], [b2], [b3] in this order and no block after them, and the
    exchange succeeds, [Sign] returns the whole body (all three blocks) as
    the certificate and [b2], a line feed, [b3] as the CA chain. *)
Theorem Sign_three_blocks (w : World) (s : PKISigner) (csrPEM : string)
    (days : Z) (block : Block) (csr : CertificateRequest) (resp : HTTPResponse)
    (g0 b1 g1 b2 g2 b3 g3 : string) :
  pem_Decode w csrPEM = Some block →
  BlockType block = "CERTIFICATE REQUEST" →
  x509_ParseCertificateRequest w (Bytes block) = Ok csr →
  sendRequest w s (buildRequestParams s csr) = Ok resp →
  StatusCode resp = 200%Z → BodyErr resp = None →
  BodyData resp = g0 +:+ b1 +:+ g1 +:+ b2 +:+ g2 +:+ b3 +:+ g3 →
  isGap g0 = true → isBlock b1 = true →
  isGap g1 = true → isBlock b2 = true →
  isGap g2 = true → isBlock b3 = true →
  hasBlock g3 = false →
  Sign w s csrPEM days = Ok (BodyData resp, Some (b2 +:+ newline +:+ b3)).
Proof.
  intros Hd Ht Hp Hs H200 Hr Hb Hg0 Hb1 Hg1 Hb2 Hg2 Hb3 Hg3.
  assert (extractCAChain s (BodyData resp) = Some (b2 +:+ newline +:+ b3)) as Hch.
  { unfold extractCAChain.
    rewrite Hb, (extractLoop_block _ _ _ _ _ Hg0 Hb1).
    rewrite (extractLoop_block _ _ _ _ _ Hg1 Hb2).
    rewrite (extractLoop_block _ _ _ _ _ Hg2 Hb3).
    by rewrite extractLoop_stop. }
  rewrite <- Hch. eapply Sign_of_exchange; eauto.
  rewrite Hb. by apply Contains_first_block.
Qed.

Lemma Sign_three_blocks_witness :
  let w := stubWorld exampleCSR None (okResponse threeBlocks) map_to_list in
  Sign w exampleSigner "-----BEGIN CERTIFICATE REQUEST-----" 365
  = Ok (threeBlocks, Some (pemBlock "BBBB" +:+ newline +:+ pemBlock "CCCC")).
Proof.
  exact (Sign_three_blocks
           (stubWorld exampleCSR None (okResponse threeBlocks) map_to_list)
           exampleSigner "-----BEGIN CERTIFICATE REQUEST-----" 365
           {| BlockType := "CERTIFICATE REQUEST"; Bytes := "" |} exampleCSR
           (okResponse threeBlocks)
           "" (pemBlock "AAAA") newline (pemBlock "BBBB") newline (pemBlock "CCCC") newline
           eq_refl eq_refl eq_refl eq_refl eq_refl eq_refl eq_refl
           eq_refl eq_refl eq_refl eq_refl eq_refl eq_refl eq_refl).
Defined.

(** C2 as stated fails: for a body of three blocks the certificate that
    [Sign] returns is the whole body, not the first block. *)
Lemma Sign_three_blocks_leaf_counterexample :
  let w := stubWorld exampleCSR None (okResponse threeBlocks) map_to_list in
  Sign w exampleSigner "-----BEGIN CERTIFICATE REQUEST-----" 365
  = Ok (threeBlocks, Some (pemBlock "BBBB" +:+ newline +:+ pemBlock "CCCC"))
  ∧ threeBlocks ≠ pemBlock "AAAA".
Proof. split; [by vm_compute | vm_compute; congruence]. Qed.

(** *** Subject DN builders *)

Lemma foldl_append_map {A} (f : A → string) (acc : list string) (l : list A) :
  foldl (λ parts x, parts ++ [f x]) acc l = acc ++ (f <$> l).
Proof.
  revert acc; induction l as [|x l IH]; intros acc; simpl.
  - by rewrite app_nil_r.
  - by rewrite IH, <- app_assoc.
Qed.

Lemma commaParts_explicit (csr : CertificateRequest) :
  commaParts csr
  = match subjectComponents (Subject csr), DNSNames csr with
    | [], d :: _ => ["CN=" +:+ d]
    | comps, _ => comps
    end.
Proof.
  unfold commaParts, subjectComponents. rewrite !foldl_append_map, !app_nil_l.
  rewrite <- !app_assoc.
  by destruct (_ ++ _), (DNSNames csr).
Qed.

Lemma slashParts_explicit (csr : CertificateRequest) :
  slashParts csr
  = match String.append "/" <$> subjectComponentsGeneralFirst (Subject csr), DNSNames csr with
    | [], d :: _ => ["/CN=" +:+ d]
    | comps, _ => comps
    end.
Proof.
  unfold slashParts, subjectComponentsGeneralFirst.
  rewrite !foldl_append_map, !app_nil_l, !fmap_app, <- !list_fmap_compose.
  assert (∀ l : list string,
    (if bool_decide (CommonName (Subject csr) ≠ "")
     then l ++ ["/CN=" +:+ CommonName (Subject csr)] else l)
    = l ++ (String.append "/" <$> (if bool_decide (CommonName (Subject csr) ≠ "")
            then ["CN=" +:+ CommonName (Subject csr)] else []))) as ->.
  { intros l. case_bool_decide; [done | by rewrite app_nil_r]. }
  rewrite <- !app_assoc.
  by destruct (_ ++ _), (DNSNames csr).
Qed.

Lemma subjectComponents_Permutation (n : Name) :
  subjectComponents n ≡ₚ subjectComponentsGeneralFirst n.
Proof.
  unfold subjectComponents, subjectComponentsGeneralFirst.
  generalize (if bool_decide (CommonName n ≠ "") then ["CN=" +:+ CommonName n] else []).
  intros cn. solve_Permutation.
Qed.

Lemma subjectComponents_nil (n : Name) :
  subjectComponents n = [] ↔
  CommonName n = "" ∧ OrganizationalUnit n = [] ∧ Organization n = []
  ∧ Locality n = [] ∧ Province n = [] ∧ Country n = [].
Proof.
  unfold subjectComponents. split.
  - intros H. repeat (apply app_eq_nil in H as [? H]).
    repeat match goal with
           | H : _ <$> _ = [] |- _ => apply fmap_nil_inv in H
           end.
    by case_bool_decide as Hcn.
  - intros (-> & -> & -> & -> & -> & ->). done.
Qed.

(** C6, as the code has it.  Both builders emit the same components up to
    order and the leading slash; the comma builder emits CN, OU, O, L, ST, C
    in this order joined by commas, the slash builder C, ST, L, O, OU, CN
    each with a leading slash and nothing between or after them; an empty
    Common Name and an attribute without values contribute nothing; when
    nothing is contributed both emit the first DNS name as CN.  A value
    inside an attribute list is emitted even when it is the empty string. *)
Theorem subjectDN_builders_agree (s : PKISigner) (csr : CertificateRequest) :
  String.append "/" <$> commaParts csr ≡ₚ slashParts csr
  ∧ buildSubjectDNComma s csr = Join (commaParts csr) ","
  ∧ buildSubjectDNSlash s csr = Join (slashParts csr) ""
  ∧ commaParts csr
    = match subjectComponents (Subject csr), DNSNames csr with
      | [], d :: _ => ["CN=" +:+ d]
      | comps, _ => comps
      end
  ∧ slashParts csr
    = match String.append "/" <$> subjectComponentsGeneralFirst (Subject csr), DNSNames csr with
      | [], d :: _ => ["/CN=" +:+ d]
      | comps, _ => comps
      end
  ∧ (subjectComponents (Subject csr) = [] ↔
     CommonName (Subject csr) = "" ∧ OrganizationalUnit (Subject csr) = []
     ∧ Organization (Subject csr) = [] ∧ Locality (Subject csr) = []
     ∧ Province (Subject csr) = [] ∧ Country (Subject csr) = []).
Proof.
  split_and!; try done.
  - rewrite commaParts_explicit, slashParts_explicit.
    pose proof (subjectComponents_Permutation (Subject csr)) as HP.
    destruct (subjectComponents (Subject csr)) as [|c cs] eqn:Ec.
    + apply Permutation_nil_l in HP. rewrite <- HP. by destruct (DNSNames csr).
    + destruct (subjectComponentsGeneralFirst (Subject csr)) as [|c' cs'] eqn:Eg.
      * by apply Permutation_nil_r in HP.
      * assert (String.append "/" <$> c :: cs ≡ₚ String.append "/" <$> c' :: cs') as HP'
          by (by rewrite HP).
        by destruct (DNSNames csr).
  - apply commaParts_explicit.
  - apply slashParts_explicit.
  - apply subjectComponents_nil.
Qed.

(** C6 as stated fails where it says that empty components are skipped:
    a country whose value is the empty string is emitted by both builders. *)
Lemma subjectDN_empty_component_counterexample :
  buildSubjectDNComma exampleSigner emptyCountryCSR = "C="
  ∧ buildSubjectDNSlash exampleSigner emptyCountryCSR = "/C="
  ∧ "C=" ∈ commaParts emptyCountryCSR
  ∧ "/C=" ∈ slashParts emptyCountryCSR.
Proof. split_and!; [done | done | |]; vm_compute; apply list_elem_of_here. Qed.

(** *** SAN parameters *)

Lemma wrap64_small (z : Z) : (- 2 ^ 63 ≤ z < 2 ^ 63)%Z → wrap64 z = z.
Proof. intros H. unfold wrap64. rewrite Z.mod_small; lia. Qed.

Lemma sanKey_inj (prefix : string) : Inj (=) (=) (sanKey prefix).
Proof. intros a b H. unfold sanKey in H. by apply (inj _), (inj pretty) in H. Qed.

Lemma reached_cons (maxCount i : Z) (d : string) (rest : list string) :
  ¬ (maxCount ≤ i)%Z →
  reached maxCount i (d :: rest) = S (reached maxCount (i + 1) rest).
Proof. intros H. unfold reached. cbn [List.length]. lia. Qed.

Lemma reached_capped (maxCount i : Z) (names : list string) :
  (maxCount ≤ i)%Z → reached maxCount i names = 0%nat.
Proof. intros H. unfold reached. lia. Qed.

(** A key that the remaining rounds do not write keeps its value. *)
Lemma sanLoop_lookup_other (prefix : string) (startIdx maxCount : Z)
    (names : list string) (i : Z) (params : Values) (k : string) :
  (∀ j : nat, (j < reached maxCount i names)%nat →
              k ≠ prefix +:+ pretty (wrap64 (startIdx + (i + Z.of_nat j)))%Z) →
  sanLoop prefix startIdx maxCount i names params !! k = params !! k.
Proof.
  revert i params. induction names as [|dns rest IH]; intros i params Hk; simpl; [done |].
  case_bool_decide as Hcap; [done |].
  rewrite IH.
  - unfold ValuesSet. rewrite lookup_insert_ne; [done |].
    intros E. apply (Hk 0%nat); [rewrite reached_cons by done; lia |].
    by rewrite Z.add_0_r.
  - intros j Hj. replace (i + 1 + Z.of_nat j)%Z with (i + Z.of_nat (S j))%Z by lia.
    apply Hk. rewrite reached_cons by done. lia.
Qed.

(** Every key of the result was in the map or is written by a round. *)
Lemma sanLoop_keys (prefix : string) (startIdx maxCount : Z)
    (names : list string) (i : Z) (params : Values) (k : string) :
  is_Some (sanLoop prefix startIdx maxCount i names params !! k) →
  is_Some (params !! k)
  ∨ ∃ j : nat, (j < reached maxCount i names)%nat
               ∧ k = prefix +:+ pretty (wrap64 (startIdx + (i + Z.of_nat j)))%Z.
Proof.
  revert i params. induction names as [|dns rest IH]; intros i params; simpl; [by left |].
  case_bool_decide as Hcap; [by left |].
  intros [H | (j & Hj & ->)]%IH.
  - unfold ValuesSet in H.
    destruct (decide (prefix +:+ pretty (wrap64 (startIdx + i)) = k)) as [<- | Hne].
    + right. exists 0%nat. split; [rewrite reached_cons by done; lia |].
      by rewrite Z.add_0_r.
    + left. by rewrite lookup_insert_ne in H.
  - right. exists (S j). split; [rewrite reached_cons by done; lia |].
    by replace (i + 1 + Z.of_nat j)%Z with (i + Z.of_nat (S j))%Z by lia.
Qed.

(** The value under the key of a reached name, when the indices do not
    wrap around. *)
Lemma sanLoop_lookup (prefix : string) (startIdx maxCount : Z)
    (names : list string) (i : Z) (params : Values) (n : nat) (dns : string) :
  (- 2 ^ 63 ≤ startIdx + i)%Z →
  (startIdx + i + Z.of_nat (reached maxCount i names) ≤ 2 ^ 63)%Z →
  (n < reached maxCount i names)%nat →
  names !! n = Some dns →
  sanLoop prefix startIdx maxCount i names params !! sanKey prefix (startIdx + (i + Z.of_nat n))
  = Some [dns].
Proof.
  revert i params n. induction names as [|d rest IH]; intros i params n Hlo Hhi Hn Hd;
    [done |].
  simpl. case_bool_decide as Hcap; [rewrite reached_capped in Hn by done; lia |].
  rewrite reached_cons in * by done.
  destruct n as [|n]; simpl in Hd.
  - simplify_eq. rewrite sanLoop_lookup_other.
    + unfold ValuesSet, sanKey. rewrite Z.add_0_r, wrap64_small by lia.
      by rewrite lookup_insert_eq.
    + intros j Hj E. unfold sanKey in E. apply (inj _), (inj pretty) in E.
      rewrite wrap64_small in E; lia.
  - replace (startIdx + (i + Z.of_nat (S n)))%Z with (startIdx + (i + 1 + Z.of_nat n))%Z by lia.
    apply IH; [lia | lia | lia | done].
Qed.

(** C4, as the code has it.  With a non-empty DNS prefix, start index [S]
    (2 when configured as 0), cap [C] (20 when configured as 0) and [N] DNS
    names, let [m] be [min(N, C)], and 0 when [C] is negative.  When the
    indices [S .. S+m-1] fit the 64-bit [int], the parameters returned by
    [buildRequestParams] map the key [{prefix}(S+i)] to the [i]-th DNS name
    for every [i < m], except for a key that is also the configured
    [GetCertParam] (which is set last); these [m] keys are distinct; and the
    returned map has no key besides them and the keys [NewCertParam],
    [SubjectParam] and [GetCertParam]. *)
Theorem buildRequestParams_SAN (s : PKISigner) (csr : CertificateRequest) :
  let cfg := Parameters (config s) in
  let start := effectiveStart cfg in
  let m := Nat.min (List.length (DNSNames csr)) (Z.to_nat (effectiveMax cfg)) in
  DNSPrefix cfg ≠ "" →
  (- 2 ^ 63 ≤ start)%Z → (start + Z.of_nat m ≤ 2 ^ 63)%Z →
  (∀ (i : nat) (dns : string),
     (i < m)%nat → DNSNames csr !! i = Some dns →
     sanKey (DNSPrefix cfg) (start + Z.of_nat i) ≠ GetCertParam cfg →
     buildRequestParams s csr !! sanKey (DNSPrefix cfg) (start + Z.of_nat i) = Some [dns])
  ∧ (∀ i j : nat,
       sanKey (DNSPrefix cfg) (start + Z.of_nat i) = sanKey (DNSPrefix cfg) (start + Z.of_nat j) →
       i = j)
  ∧ (∀ k : string,
       is_Some (buildRequestParams s csr !! k) →
       k = NewCertParam cfg ∨ k = SubjectParam cfg ∨ k = GetCertParam cfg
       ∨ ∃ i : nat, (i < m)%nat ∧ k = sanKey (DNSPrefix cfg) (start + Z.of_nat i)).
Proof.
  intros cfg start m Hprefix Hlo Hhi.
  assert (m = reached (effectiveMax cfg) 0 (DNSNames csr)) as Em.
  { unfold m, reached. by rewrite Z.sub_0_r. }
  split_and!.
  - intros i dns Hi Hd Hne. unfold buildRequestParams. fold cfg. fold start.
    assert (0 < List.length (DNSNames csr))%nat as Hlen by lia.
    rewrite (bool_decide_eq_true_2 _ Hlen), (bool_decide_eq_true_2 _ Hprefix). simpl.
    assert (∀ params : Values,
      sanLoop (DNSPrefix cfg) start (effectiveMax cfg) 0 (DNSNames csr) params
        !! sanKey (DNSPrefix cfg) (start + Z.of_nat i) = Some [dns]) as Hloop.
    { intros params.
      replace (start + Z.of_nat i)%Z with (start + (0 + Z.of_nat i))%Z by lia.
      apply sanLoop_lookup; [lia | lia | lia | done]. }
    case_bool_decide; [|by apply Hloop].
    unfold ValuesSet at 1. rewrite lookup_insert_ne by done. apply Hloop.
  - intros i j E. apply sanKey_inj in E. lia.
  - intros k. unfold buildRequestParams. fold cfg. fold start.
    set (p1 := if bool_decide (NewCertParam cfg ≠ "") then _ else _).
    set (p2 := if bool_decide (SubjectParam cfg ≠ "") && _ then _ else _).
    set (p3 := if bool_decide (0 < List.length (DNSNames csr))%nat && _ then _ else _).
    assert (∀ k, is_Some (p1 !! k) → k = NewCertParam cfg) as H1.
    { intros k'. unfold p1, ValuesSet. case_bool_decide.
      - rewrite lookup_insert. case_decide; [done |].
        rewrite lookup_empty. by intros [? ?].
      - rewrite lookup_empty. by intros [? ?]. }
    assert (∀ k, is_Some (p2 !! k) → k = NewCertParam cfg ∨ k = SubjectParam cfg) as H2.
    { intros k'. unfold p2, ValuesSet.
      destruct (bool_decide (SubjectParam cfg ≠ "") && _); [|by left; apply H1].
      rewrite lookup_insert. case_decide; [by right | by left; apply H1]. }
    assert (∀ k, is_Some (p3 !! k) →
      k = NewCertParam cfg ∨ k = SubjectParam cfg
      ∨ ∃ i : nat, (i < m)%nat ∧ k = sanKey (DNSPrefix cfg) (start + Z.of_nat i)) as H3.
    { intros k'. unfold p3.
      destruct (bool_decide (0 < List.length (DNSNames csr))%nat && _).
      - intros [Hk | (j & Hj & ->)]%sanLoop_keys.
        + destruct (H2 _ Hk); auto.
        + right; right. exists j. split; [by rewrite Em |].
          unfold sanKey. rewrite Z.add_0_l, wrap64_small; [done |]. lia.
      - intros Hk. destruct (H2 _ Hk); auto. }
    unfold ValuesSet. case_bool_decide.
    + rewrite lookup_insert. case_decide; [auto |].
      intros Hk. destruct (H3 _ Hk) as [? | [? | ?]]; auto.
    + intros Hk. destruct (H3 _ Hk) as [? | [? | ?]]; auto.
Qed.

Lemma buildRequestParams_SAN_witness :
  buildRequestParams scenarioSigner scenarioCSR !! "DNS2" = Some ["alt.example.com"].
Proof.
  exact (proj1 (buildRequestParams_SAN scenarioSigner scenarioCSR
                  ltac:(done) ltac:(done) ltac:(done))
           0%nat "alt.example.com" ltac:(vm_compute; lia) eq_refl ltac:(done)).
Defined.

(** C4 as stated fails at the edges of the configuration: the value of a
    SAN key that is also the [GetCertParam] is overwritten; a negative cap
    emits no SAN parameter, where [min(N, C)] is negative; and with the
    start index at the top of the [int] range the second index wraps
    around. *)
Lemma buildRequestParams_SAN_counterexample :
  (buildRequestParams (signerWith collidingParameters) scenarioCSR !! "DNS2" = Some [""]
   ∧ DNSNames scenarioCSR !! 0%nat = Some "alt.example.com")
  ∧ (buildRequestParams (signerWith negativeCapParameters) scenarioCSR !! "DNS2" = None
     ∧ Z.min (Z.of_nat (List.length (DNSNames scenarioCSR)))
             (effectiveMax negativeCapParameters) = (-1)%Z)
  ∧ (buildRequestParams (signerWith maxStartParameters) twoNamesCSR
       !! "DNS9223372036854775808" = None
     ∧ buildRequestParams (signerWith maxStartParameters) twoNamesCSR
       !! "DNS-9223372036854775808" = Some ["b.example.com"]
     ∧ sanKey "DNS" (effectiveStart maxStartParameters + 1) = "DNS9223372036854775808").
Proof. split_and!; by vm_compute. Qed.

(** *** The semicolon serialization *)

Lemma scenario_params :
  map_to_list (buildRequestParams scenarioSigner scenarioCSR)
  ≡ₚ insertionOrder (buildRequestParams scenarioSigner scenarioCSR).
Proof.
  apply permutations_Permutation. vm_compute.
  repeat first [apply list_elem_of_here | apply list_elem_of_further].
Qed.

(** The bodies of the semicolon scenario.  The body is the three
    serialized parameters [new=1], [subject=/C=US/O=Example/CN=app.example.com]
    and [DNS2=alt.example.com] joined by semicolons, in the order in which
    [range] visits the parameter map, which Go does not fix; the body of the
    design document is the one for the order of insertion. *)
Theorem requestBody_semicolon_scenario (w : World) :
  range_ok w (buildRequestParams scenarioSigner scenarioCSR) →
  (∃ p1 p2 p3 : string,
     [p1; p2; p3] ≡ₚ [scenarioNew; scenarioSubject; scenarioSAN]
     ∧ requestBody w scenarioSigner (buildRequestParams scenarioSigner scenarioCSR)
       = p1 +:+ ";" +:+ p2 +:+ ";" +:+ p3)
  ∧ (map_range w (buildRequestParams scenarioSigner scenarioCSR)
     = insertionOrder (buildRequestParams scenarioSigner scenarioCSR) →
     requestBody w scenarioSigner (buildRequestParams scenarioSigner scenarioCSR)
     = scenarioBody).
Proof.
  intros Hr. unfold range_ok in Hr. rewrite scenario_params in Hr.
  unfold requestBody. rewrite bool_decide_eq_true_2 by done.
  split; [|by intros ->].
  symmetry in Hr. apply permutations_Permutation in Hr.
  revert Hr. generalize (map_range w (buildRequestParams scenarioSigner scenarioCSR)).
  intros order Hin. vm_compute in Hin.
  repeat (apply elem_of_cons in Hin as [-> | Hin]); [..|by apply elem_of_nil in Hin].
  - exists scenarioNew, scenarioSubject, scenarioSAN. split; [done | by vm_compute].
  - exists scenarioSubject, scenarioNew, scenarioSAN. split; [solve_Permutation | by vm_compute].
  - exists scenarioSubject, scenarioSAN, scenarioNew. split; [solve_Permutation | by vm_compute].
  - exists scenarioNew, scenarioSAN, scenarioSubject. split; [solve_Permutation | by vm_compute].
  - exists scenarioSAN, scenarioNew, scenarioSubject. split; [solve_Permutation | by vm_compute].
  - exists scenarioSAN, scenarioSubject, scenarioNew. split; [solve_Permutation | by vm_compute].
Qed.

Lemma requestBody_semicolon_scenario_witness :
  requestBody (stubWorld scenarioCSR None (okResponse oneBlock) insertionOrder)
    scenarioSigner (buildRequestParams scenarioSigner scenarioCSR)
  = scenarioBody.
Proof.
  apply (proj2 (requestBody_semicolon_scenario
                  (stubWorld scenarioCSR None (okResponse oneBlock) insertionOrder)
                  (symmetry scenario_params))).
  reflexivity.
Defined.

End SignerFacts.

(** ** The CertificateRequest reconciler *)

Module ControllersFacts.
Import GoStrings Controllers.
Import Signer (result, Ok, Err, Panic).

Lemma existsb_elem_of {A} (f : A → bool) (l : list A) :
  existsb f l = true ↔ ∃ x, x ∈ l ∧ f x = true.
Proof.
  rewrite existsb_exists. split; intros (x & Hx & Hf); exists x; split; try done;
    by apply list_elem_of_In.
Qed.

(** The three scans of the condition list, in words. *)
Lemma isInTerminalState_spec (cr : CertificateRequest) :
  isInTerminalState cr = true ↔
  ∃ c, c ∈ Conditions cr ∧ Type_ c = "Ready"
       ∧ (Status c = "True" ∨ Reason c = "Failed" ∨ Reason c = "Denied").
Proof.
  unfold isInTerminalState. rewrite existsb_elem_of.
  split; intros (c & Hc & H); exists c; (split; [done |]).
  - apply andb_true_iff in H as [Ht Hs]. apply bool_decide_eq_true in Ht.
    split; [done |].
    apply orb_true_iff in Hs as [Hs | Hs]; [apply orb_true_iff in Hs as [Hs | Hs] |];
      apply bool_decide_eq_true in Hs; auto.
  - destruct H as [Ht Hs]. apply andb_true_iff. split; [by apply bool_decide_eq_true |].
    rewrite !orb_true_iff, !bool_decide_eq_true. tauto.
Qed.

Lemma isCertificateRequestDenied_spec (cr : CertificateRequest) :
  isCertificateRequestDenied cr = true ↔
  ∃ c, c ∈ Conditions cr ∧ Type_ c = "Denied" ∧ Status c = "True".
Proof.
  unfold isCertificateRequestDenied. rewrite existsb_elem_of.
  split; intros (c & Hc & H); exists c; (split; [done |]).
  - by apply andb_true_iff in H as [Ht%bool_decide_eq_true Hs%bool_decide_eq_true].
  - destruct H. apply andb_true_iff. by rewrite !bool_decide_eq_true.
Qed.

Lemma isCertificateRequestApproved_spec (cr : CertificateRequest) :
  isCertificateRequestApproved cr = true ↔
  ∃ c, c ∈ Conditions cr ∧ Type_ c = "Approved" ∧ Status c = "True".
Proof.
  unfold isCertificateRequestApproved. rewrite existsb_elem_of.
  split; intros (c & Hc & H); exists c; (split; [done |]).
  - by apply andb_true_iff in H as [Ht%bool_decide_eq_true Hs%bool_decide_eq_true].
  - destruct H. apply andb_true_iff. by rewrite !bool_decide_eq_true.
Qed.

(** The skips of [Reconcile].  For a request of this controller's issuer
    group and kind that has a certificate, or a Ready condition that is true
    or has the reason Failed or Denied, or a true Denied condition, or no
    true Approved condition, [Reconcile] returns nil with no event: no
    signer is called (neither [CheckHealth] nor [Sign]) and no status is
    written. *)
Theorem Reconcile_noop (env : Env) (req : NamespacedName) (cr : CertificateRequest) :
  getCertificateRequest env req = Found cr →
  RefGroup (IssuerRef cr) = "external-issuer.io" →
  RefKind (IssuerRef cr) = "ExternalIssuer"
  ∨ RefKind (IssuerRef cr) = "ExternalClusterIssuer" →
  Certificate cr ≠ ""
  ∨ (∃ c, c ∈ Conditions cr ∧ Type_ c = "Ready"
          ∧ (Status c = "True" ∨ Reason c = "Failed" ∨ Reason c = "Denied"))
  ∨ (∃ c, c ∈ Conditions cr ∧ Type_ c = "Denied" ∧ Status c = "True")
  ∨ ¬ (∃ c, c ∈ Conditions cr ∧ Type_ c = "Approved" ∧ Status c = "True") →
  Reconcile env req = ([], Ok tt).
Proof.
  intros Hget Hgroup Hkind Hstate. unfold Reconcile. rewrite Hget.
  case_bool_decide; [done |].
  destruct (bool_decide (RefKind (IssuerRef cr) ≠ issuerKind)
            && bool_decide (RefKind (IssuerRef cr) ≠ clusterIssuerKind)); [done |].
  case_bool_decide as Hcert; [done |].
  destruct (isInTerminalState cr) eqn:Hterm; [done |].
  destruct (isCertificateRequestDenied cr) eqn:Hden; [done |].
  destruct (isCertificateRequestApproved cr) eqn:Happ; [|done].
  exfalso. destruct Hstate as [Hc | [Ht | [Hd | Ha]]].
  - destruct (Certificate cr); [done |]. simpl in Hcert. lia.
  - apply isInTerminalState_spec in Ht. congruence.
  - apply isCertificateRequestDenied_spec in Hd. congruence.
  - by apply Ha, isCertificateRequestApproved_spec.
Qed.

Lemma Reconcile_noop_witness :
  Reconcile (exampleEnv (requestWith [approved] Signer.oneBlock)) exampleKey = ([], Ok tt)
  ∧ Reconcile (exampleEnv (requestWith [approved; denied] "")) exampleKey = ([], Ok tt)
  ∧ Reconcile (exampleEnv (requestWith [] "")) exampleKey = ([], Ok tt).
Proof.
  split_and!.
  - apply (Reconcile_noop (exampleEnv (requestWith [approved] Signer.oneBlock)) exampleKey
             (requestWith [approved] Signer.oneBlock) eq_refl eq_refl (or_intror eq_refl)).
    left. discriminate.
  - apply (Reconcile_noop (exampleEnv (requestWith [approved; denied] "")) exampleKey
             (requestWith [approved; denied] "") eq_refl eq_refl (or_intror eq_refl)).
    right; right; left. exists denied. split; [|done].
    apply list_elem_of_further, list_elem_of_here.
  - apply (Reconcile_noop (exampleEnv (requestWith [] "")) exampleKey
             (requestWith [] "") eq_refl eq_refl (or_intror eq_refl)).
    right; right; right. intros (c & Hc & _). by apply elem_of_nil in Hc.
Defined.

(** An approved request that is in none of these states is processed: the
    signer is asked for its health and for the signature and the outcome
    is written once. *)
Lemma Reconcile_signs_approved :
  ∃ cr', Reconcile (exampleEnv (requestWith [approved] "")) exampleKey
         = ([EvCheckHealth; EvSign "-----BEGIN CERTIFICATE REQUEST-----" 365;
             EvStatusUpdate cr'], Ok tt)
         ∧ Certificate cr' = Signer.oneBlock
         ∧ isInTerminalState cr' = true.
Proof. eexists. split_and!; [by vm_compute | done | by vm_compute]. Qed.

(** Whatever [setStatus] writes with a true Ready condition is terminal for
    the next reconciliation: a request is signed at most once. *)
Lemma setCondition_elem_of (conditions : list Condition) (c : Condition) :
  c ∈ setCondition conditions c.
Proof.
  induction conditions as [|x rest IH]; simpl; [apply list_elem_of_here |].
  case_bool_decide; [apply list_elem_of_here | by apply list_elem_of_further].
Qed.

Lemma issued_is_terminal (cr : CertificateRequest) (conditions : list Condition)
    (reason message : string) (t : option Z) :
  Conditions cr
  = setCondition conditions
      {| Type_ := CertificateRequestConditionReady; Status := ConditionTrue;
         Reason := reason; Message := message; LastTransitionTime := t |} →
  isInTerminalState cr = true.
Proof.
  intros H. apply isInTerminalState_spec. eexists. split.
  - rewrite H. apply setCondition_elem_of.
  - split; [done | by left].
Qed.

End ControllersFacts.

(** ** The mock CA signer *)

Module MockSignerFacts.
Import GoStrings MockSigner.
Import Signer (result, Ok, Err, Panic, World, pem_Decode, x509_ParseCertificateRequest,
               x509_CheckSignature, Bytes).
Import X509 (Lib, Draw, drawSerial, x509_CreateCertificate, pem_EncodeToMemory).

(** An initialized CA stays as it is. *)
Lemma ensureCA_generated (lib : Lib) (s : MockCASigner) (d : Draw) :
  generated s = true → ensureCA lib s d = (s, Ok tt).
Proof. intros H. unfold ensureCA. by rewrite H. Qed.

(** The mock CA signer, unlike the PKI signer, checks the signature of the
    CSR before anything is issued. *)
Lemma Sign_rejects_invalid_signature (w : World) (lib : Lib) (s : MockCASigner)
    (dCA d : Draw) (csrPEM : string) (days : Z) (block : Signer.Block)
    (csr : Signer.CertificateRequest) (e : string) :
  generated s = true →
  pem_Decode w csrPEM = Some block →
  x509_ParseCertificateRequest w (Bytes block) = Ok csr →
  x509_CheckSignature w csr = Some e →
  Sign w lib s dCA d csrPEM days = (s, Err ("CSR signature validation failed: " +:+ e)).
Proof.
  intros Hg Hd Hp Hc. unfold Sign.
  by rewrite (ensureCA_generated _ _ _ Hg), Hd, Hp, Hc.
Qed.

(** What the mock CA signer issues: the certificate made from the leaf
    template, with the stored CA certificate as chain.  The template takes
    subject and SANs from the CSR, is not a CA, and carries the two key
    usages and the two extended key usages. *)
Lemma Sign_issues_leaf (w : World) (lib : Lib) (s : MockCASigner)
    (dCA d : Draw) (csrPEM : string) (days serial : Z) (block : Signer.Block)
    (csr : Signer.CertificateRequest) (parent key der : string) :
  generated s = true → caCert s = Some parent → caKey s = Some key →
  pem_Decode w csrPEM = Some block →
  x509_ParseCertificateRequest w (Bytes block) = Ok csr →
  x509_CheckSignature w csr = None →
  drawSerial d = Ok serial →
  x509_CreateCertificate lib (leafTemplate lib d serial csr days) (X509.IssuedBy parent)
    (Signer.PublicKey csr) key = Ok der →
  Sign w lib s dCA d csrPEM days
  = (s, Ok (pem_EncodeToMemory lib "CERTIFICATE" der, caPEM s))
  ∧ X509.Subject (leafTemplate lib d serial csr days) = Signer.Subject csr
  ∧ X509.DNSNames (leafTemplate lib d serial csr days) = Signer.DNSNames csr
  ∧ X509.IPAddresses (leafTemplate lib d serial csr days) = Signer.IPAddresses csr
  ∧ X509.URIs (leafTemplate lib d serial csr days) = Signer.URIs csr
  ∧ X509.EmailAddresses (leafTemplate lib d serial csr days) = Signer.EmailAddresses csr
  ∧ X509.IsCA (leafTemplate lib d serial csr days) = false
  ∧ X509.KeyUsage (leafTemplate lib d serial csr days) = 5%Z
  ∧ X509.ExtKeyUsage (leafTemplate lib d serial csr days)
    = [X509.ExtKeyUsageServerAuth; X509.ExtKeyUsageClientAuth].
Proof.
  intros Hg Hc Hk Hd Hp Hs Hn Hder. split_and!; try done.
  unfold Sign. rewrite (ensureCA_generated _ _ _ Hg), Hd, Hp, Hs, Hn, Hc, Hk.
  by rewrite Hder.
Qed.

End MockSignerFacts.

(** ** The legacy front-end of the mock CA *)

Module MockCAFacts.
Import GoStrings MockCA.
Import Signer (result, Ok, Err, Panic, CommonName, wrap64).
Import X509 (Lib, Draw, x509_CreateCertificate, rsa_PublicKey, pem_EncodeToMemory,
             drawSerial, drawKey).

(** A request without a Common Name in its subject is refused. *)
Lemma handlePKISign_without_cn (lib : Lib) (ca : MockCA) (d : Draw) (b : string) :
  commonNameOf b = "" →
  StatusCode (handlePKISign lib ca d (legacyRequest b)).2 = StatusBadRequest.
Proof.
  intros Hcn. unfold handlePKISign. simpl.
  fold (subjectOf b). case_bool_decide; [done |].
  fold (commonNameOf b). by rewrite bool_decide_eq_true_2.
Qed.

(** A request with a Common Name and without a retrieval parameter reaches
    the last part of the handler: the stored certificate for [new=1]
    without [renew=1], a new certificate otherwise. *)
Lemma handlePKISign_main (lib : Lib) (ca : MockCA) (d : Draw) (b : string) :
  asksRetrieval b = false → commonNameOf b ≠ "" →
  handlePKISign lib ca d (legacyRequest b)
  = match (if asksNew b && negb (asksRenew b)
           then certStore ca !! commonNameOf b else None) with
    | Some stored => (ca, pemResponse (CertPEM stored +:+ caPEM ca))
    | None =>
        issueCertificate lib ca d (subjectOf b) (parseDN (subjectOf b)) (commonNameOf b)
          (collectDNSNames (commonNameOf b) (parsePKIParams b))
    end.
Proof.
  intros Hr Hcn. unfold asksRetrieval in Hr.
  apply orb_false_iff in Hr as [Hr Hcsr]. apply orb_false_iff in Hr as [Hcert Hkey].
  unfold handlePKISign. simpl. fold (subjectOf b).
  assert (subjectOf b ≠ "") as Hs by (by intros E; apply Hcn; unfold commonNameOf; rewrite E).
  rewrite (bool_decide_eq_false_2 _ Hs). fold (commonNameOf b).
  rewrite (bool_decide_eq_false_2 _ Hcn), Hcert, Hkey, Hcsr.
  reflexivity.
Qed.

(** C8, as the code has it, for POST requests that carry none of
    [getCERT], [getKEY], [getCSR].  After a [new=1] request without
    [renew=1] that is answered with 200, a [new=1] request without
    [renew=1] for the same Common Name gets the same response, byte for
    byte, and leaves the store and the counter as they are.  A [renew=1]
    request whose serial number, key pair and signature are produced
    issues a certificate from the newly drawn serial number, answers with
    it followed by the CA certificate, stores it under the Common Name and
    counts it. *)
Theorem legacy_new_idempotent_renew_issues (lib : Lib) (ca : MockCA) :
  (∀ (d1 d2 : Draw) (b1 b2 : string) (ca1 : MockCA) (resp1 : Response),
     asksNew b1 = true → asksRenew b1 = false → asksRetrieval b1 = false →
     asksNew b2 = true → asksRenew b2 = false → asksRetrieval b2 = false →
     commonNameOf b2 = commonNameOf b1 →
     handlePKISign lib ca d1 (legacyRequest b1) = (ca1, resp1) →
     StatusCode resp1 = StatusOK →
     handlePKISign lib ca1 d2 (legacyRequest b2) = (ca1, resp1))
  ∧ (∀ (d : Draw) (b : string) (serial : Z) (key der : string),
       asksRenew b = true → asksRetrieval b = false → commonNameOf b ≠ "" →
       drawSerial d = Ok serial → drawKey d = Ok key →
       let template :=
         certTemplate lib ca d serial (parseDN (subjectOf b))
           (collectDNSNames (commonNameOf b) (parsePKIParams b)) in
       x509_CreateCertificate lib template (X509.IssuedBy (caCert ca))
         (rsa_PublicKey lib key) (caKey ca)
       = Ok der →
       let certPEM := pem_EncodeToMemory lib "CERTIFICATE" der in
       ∃ ca' : MockCA,
         handlePKISign lib ca d (legacyRequest b)
         = (ca', pemResponse (certPEM +:+ caPEM ca))
         ∧ CertPEM <$> certStore ca' !! commonNameOf b = Some certPEM
         ∧ signCount ca' = wrap64 (signCount ca + 1)
         ∧ X509.SerialNumber template = serial).
Proof.
  split.
  - intros d1 d2 b1 b2 ca1 resp1 Hn1 Hr1 Hg1 Hn2 Hr2 Hg2 Hcn H1 H200.
    destruct (decide (commonNameOf b1 = "")) as [E | Hne].
    { pose proof (handlePKISign_without_cn lib ca d1 b1 E) as Hbad.
      rewrite H1 in Hbad. simpl in Hbad. rewrite H200 in Hbad. done. }
    rewrite handlePKISign_main in H1 by done.
    rewrite handlePKISign_main by (done || by rewrite Hcn).
    rewrite Hn1, Hr1 in H1. rewrite Hn2, Hr2, Hcn. simpl in *.
    destruct (certStore ca !! commonNameOf b1) as [stored|] eqn:Es.
    + simplify_eq. by rewrite Es.
    + unfold issueCertificate in H1.
      destruct (drawSerial d1) as [serial| |]; [|by simplify_eq..].
      destruct (drawKey d1) as [key| |]; [|by simplify_eq..].
      destruct (x509_CreateCertificate _ _ _ _ _) as [der| |]; [|by simplify_eq..].
      simplify_eq. simpl. by rewrite lookup_insert_eq.
  - intros d b serial key der Hr Hg Hcn Hs Hk template Hder certPEM.
    rewrite handlePKISign_main by done.
    rewrite Hr, andb_false_r. unfold issueCertificate. rewrite Hs, Hk.
    fold template. rewrite Hder. eexists. split; [reflexivity |].
    simpl. by rewrite lookup_insert_eq.
Qed.

Lemma legacy_new_idempotent_renew_issues_witness :
  handlePKISign textLib caWithTestCom (drawOf 8)
    (legacyRequest "new=1;subject=/CN=test.com;DNS2=other.com")
  = (caWithTestCom, pemResponse "[CERTIFICATE:serial=7,CN=test.com][CERTIFICATE:ca]")
  ∧ ∃ ca' : MockCA,
      handlePKISign textLib caWithTestCom (drawOf 8)
        (legacyRequest "renew=1;subject=/CN=test.com")
      = (ca', pemResponse ("[CERTIFICATE:serial=8,CN=test.com]" +:+ "[CERTIFICATE:ca]"))
      ∧ CertPEM <$> certStore ca' !! "test.com" = Some "[CERTIFICATE:serial=8,CN=test.com]"
      ∧ signCount ca' = wrap64 (signCount caWithTestCom + 1)
      ∧ 8%Z = 8%Z.
Proof.
  split.
  - exact (proj1 (legacy_new_idempotent_renew_issues textLib freshCA)
             (drawOf 7) (drawOf 8)
             "new=1;subject=/C=US/O=Example/CN=test.com;DNS2=test2.com"
             "new=1;subject=/CN=test.com;DNS2=other.com"
             caWithTestCom
             (pemResponse "[CERTIFICATE:serial=7,CN=test.com][CERTIFICATE:ca]")
             eq_refl eq_refl eq_refl eq_refl eq_refl eq_refl eq_refl eq_refl eq_refl).
  - exact (proj2 (legacy_new_idempotent_renew_issues textLib caWithTestCom)
             (drawOf 8) "renew=1;subject=/CN=test.com" 8%Z "key"
             "serial=8,CN=test.com"
             eq_refl eq_refl ltac:(discriminate) eq_refl eq_refl eq_refl).
Defined.

(** C8 as stated fails where it says that [renew=1] always issues a new
    certificate with a different serial number.  With [getCERT] in the
    request the stored certificate is returned and nothing is issued,
    stored or counted; and the serial number is whatever the random source
    gives, the stored one again if the source repeats it. *)
Lemma legacy_renew_counterexample :
  (asksRenew "renew=1;subject=/CN=test.com;getCERT" = true
   ∧ commonNameOf "renew=1;subject=/CN=test.com;getCERT" = "test.com"
   ∧ handlePKISign textLib caWithTestCom (drawOf 8)
       (legacyRequest "renew=1;subject=/CN=test.com;getCERT")
     = (caWithTestCom, pemResponse "[CERTIFICATE:serial=7,CN=test.com]"))
  ∧ (handlePKISign textLib caWithTestCom (drawOf 7)
       (legacyRequest "renew=1;subject=/CN=test.com")).2
    = pemResponse "[CERTIFICATE:serial=7,CN=test.com][CERTIFICATE:ca]".
Proof. split_and!; by vm_compute. Qed.

End MockCAFacts.

(** ** More about the PKI adapter *)

Module SignerProps.
Import GoStrings GoStringsFacts Signer SignerFacts SignerAux.

(** *** The CA chain of a stream of any number of blocks *)

Lemma len_stream_tail (segments : list (string * string)) (tail : string) :
  (len tail ≤ len (stream segments tail))%nat.
Proof.
  induction segments as [|gb rest IH]; simpl; [done |]. rewrite !len_app. lia.
Qed.

Lemma extractLoop_stream (segments : list (string * string)) (tail : string)
    (acc : list string) :
  segmentsOk segments = true → hasBlock tail = false →
  extractLoop (S (len (stream segments tail))) (stream segments tail) false acc
  = acc ++ segments.*2.
Proof.
  intros Hs Ht. revert acc.
  induction segments as [|[g b] rest IH]; intros acc; cbn [stream fst snd].
  - rewrite fmap_nil, app_nil_r. by apply extractLoop_stop.
  - simpl in Hs. apply andb_true_iff in Hs as [[Hg Hb]%andb_true_iff Hs].
    rewrite (extractLoop_block _ _ _ _ _ Hg Hb), (IH Hs), fmap_cons.
    by rewrite <- app_assoc.
Qed.

(** X1: for a stream of any number of certificate blocks with nothing that
    scans as a block after them, the CA chain is every block but the first,
    in order, joined by line feeds; it is nil for no block and for one. *)
Theorem extractCAChain_stream (s : PKISigner) (segments : list (string * string))
    (tail : string) :
  segmentsOk segments = true → hasBlock tail = false →
  extractCAChain s (stream segments tail)
  = match segments with
    | [] | [_] => None
    | _ :: rest => Some (Join rest.*2 newline)
    end.
Proof.
  intros Hs Ht. unfold extractCAChain.
  destruct segments as [|[g b] rest]; cbn [stream fst snd].
  - by rewrite extractLoop_stop.
  - simpl in Hs. apply andb_true_iff in Hs as [[Hg Hb]%andb_true_iff Hs].
    rewrite (extractLoop_block _ _ _ _ _ Hg Hb), (extractLoop_stream _ _ _ Hs Ht).
    rewrite app_nil_l. by destruct rest.
Qed.

Lemma extractCAChain_stream_witness :
  extractCAChain exampleSigner (stream fourSegments newline)
  = Some (pemBlock "BBBB" +:+ newline +:+ pemBlock "CCCC" +:+ newline +:+ pemBlock "DDDD").
Proof. exact (extractCAChain_stream exampleSigner fourSegments newline eq_refl eq_refl). Defined.

(** *** What a successful [Sign] implies *)

(** X2: [Sign] succeeds only if the CSR decodes to a CERTIFICATE REQUEST
    block that parses, the exchange is answered with status 200, the body
    is read without error and holds a BEGIN CERTIFICATE marker; the
    certificate it returns is that body, byte for byte, and the chain is
    what [extractCAChain] finds in it. *)
Theorem Sign_Ok_inv (w : World) (s : PKISigner) (csrPEM : string) (days : Z)
    (cert : string) (ca : option string) :
  Sign w s csrPEM days = Ok (cert, ca) →
  ∃ block csr resp,
    pem_Decode w csrPEM = Some block
    ∧ BlockType block = "CERTIFICATE REQUEST"
    ∧ x509_ParseCertificateRequest w (Bytes block) = Ok csr
    ∧ sendRequest w s (buildRequestParams s csr) = Ok resp
    ∧ StatusCode resp = 200%Z ∧ BodyErr resp = None ∧ BodyData resp = cert
    ∧ Contains cert BEGIN_CERTIFICATE = true
    ∧ ca = extractCAChain s cert.
Proof.
  unfold Sign, makeRequest, parseResponse. intros H.
  destruct (pem_Decode w csrPEM) as [block|] eqn:Hd; [|done].
  case_bool_decide as Ht; [done |].
  destruct (x509_ParseCertificateRequest w (Bytes block)) as [csr| |] eqn:Hp; [|done..].
  destruct (sendRequest w s (buildRequestParams s csr)) as [resp| |] eqn:Hs; [|done..].
  destruct (BodyErr resp) eqn:Hb; [done |].
  case_bool_decide as H200; [done |].
  destruct (Contains (BodyData resp) BEGIN_CERTIFICATE) eqn:Hc; simpl in H; [|done].
  simplify_eq. by exists block, csr, resp.
Qed.

Lemma Sign_Ok_inv_witness :
  ∃ block csr resp,
    pem_Decode (stubWorld exampleCSR None (okResponse oneBlock) map_to_list) "csr"
    = Some block
    ∧ BlockType block = "CERTIFICATE REQUEST"
    ∧ x509_ParseCertificateRequest
        (stubWorld exampleCSR None (okResponse oneBlock) map_to_list) (Bytes block)
      = Ok csr
    ∧ sendRequest (stubWorld exampleCSR None (okResponse oneBlock) map_to_list)
        exampleSigner (buildRequestParams exampleSigner csr) = Ok resp
    ∧ StatusCode resp = 200%Z ∧ BodyErr resp = None ∧ BodyData resp = oneBlock
    ∧ Contains oneBlock BEGIN_CERTIFICATE = true
    ∧ None = extractCAChain exampleSigner oneBlock.
Proof.
  exact (Sign_Ok_inv (stubWorld exampleCSR None (okResponse oneBlock) map_to_list)
           exampleSigner "csr" 365 oneBlock None eq_refl).
Defined.

(** *** Health check *)

(** X3: once the GET request to the base URL is answered, [CheckHealth]
    reports healthy exactly when the status is below 500 (a 404 is
    healthy); from 500 on the error names the status and the body. *)
Theorem CheckHealth_status (w : World) (s : PKISigner) (resp : HTTPResponse) :
  url_ParseErr w (BaseURL (config s)) = None →
  http_Do w (httpClient s)
    (addAuth w s {| reqMethod := "GET"; reqURL := BaseURL (config s); reqBody := None;
                    reqHeader := ∅ |}) = Ok resp →
  (CheckHealth w s = Ok tt ↔ (StatusCode resp < 500)%Z)
  ∧ ((500 ≤ StatusCode resp)%Z →
     CheckHealth w s
     = Err ("PKI API error: " +:+ pretty (StatusCode resp) +:+ ", " +:+ BodyData resp)).
Proof.
  intros Hu Hd. unfold CheckHealth, NewRequest. rewrite Hu, Hd.
  case_bool_decide; (split; [split|]); first [done | lia].
Qed.

Lemma CheckHealth_status_witness :
  (CheckHealth (stubWorld exampleCSR None (statusResponse 404 "not found") map_to_list)
     exampleSigner = Ok tt ↔ (404 < 500)%Z)
  ∧ ((500 ≤ 404)%Z →
     CheckHealth (stubWorld exampleCSR None (statusResponse 404 "not found") map_to_list)
       exampleSigner
     = Err ("PKI API error: " +:+ pretty 404%Z +:+ ", " +:+ "not found")).
Proof.
  exact (CheckHealth_status
           (stubWorld exampleCSR None (statusResponse 404 "not found") map_to_list)
           exampleSigner (statusResponse 404 "not found") eq_refl eq_refl).
Defined.

(** *** Authentication *)

(** X4: what [addAuth] does to a request.  It never changes the method,
    the URL or the body, and it leaves every header alone except the one
    it sets.  Without a token nothing is added, whatever the
    authentication type: the call goes out unauthenticated.  With a token,
    the types bearer and basic set [Authorization] to the scheme, a space
    and the token as it is; the type header sets the configured header to
    the token; any other type sets nothing. *)
Theorem addAuth_effect (w : World) (s : PKISigner) (req : Request) :
  reqMethod (addAuth w s req) = reqMethod req
  ∧ reqURL (addAuth w s req) = reqURL req
  ∧ reqBody (addAuth w s req) = reqBody req
  ∧ (∀ k : string,
       k ≠ http_CanonicalHeaderKey w "Authorization" →
       (∀ a, Auth (config s) = Some a → k ≠ http_CanonicalHeaderKey w (HeaderName a)) →
       reqHeader (addAuth w s req) !! k = reqHeader req !! k)
  ∧ (authToken s = "" → addAuth w s req = req)
  ∧ (∀ a : PKIAuth,
       Auth (config s) = Some a → authToken s ≠ "" →
       (AuthType a = "bearer" →
        reqHeader (addAuth w s req) !! http_CanonicalHeaderKey w "Authorization"
        = Some ("Bearer " +:+ authToken s))
       ∧ (AuthType a = "basic" →
          reqHeader (addAuth w s req) !! http_CanonicalHeaderKey w "Authorization"
          = Some ("Basic " +:+ authToken s))
       ∧ (AuthType a = "header" →
          reqHeader (addAuth w s req) !! http_CanonicalHeaderKey w (HeaderName a)
          = Some (authToken s))
       ∧ (AuthType a ≠ "bearer" → AuthType a ≠ "basic" → AuthType a ≠ "header" →
          addAuth w s req = req)).
Proof.
  split_and!.
  - unfold addAuth. destruct (Auth (config s)); [|done]. by repeat case_bool_decide.
  - unfold addAuth. destruct (Auth (config s)); [|done]. by repeat case_bool_decide.
  - unfold addAuth. destruct (Auth (config s)); [|done]. by repeat case_bool_decide.
  - unfold addAuth. destruct (Auth (config s)) as [a|]; [|done].
    intros k Hk Hh. repeat case_bool_decide; simpl; try done;
      by rewrite lookup_insert_ne by (by try apply not_eq_sym, Hh).
  - intros Ht. unfold addAuth. destruct (Auth (config s)); [|done].
    rewrite !(bool_decide_eq_false_2 (authToken s ≠ "")) by (by intros []).
    by repeat case_bool_decide.
  - intros a Ha Ht. unfold addAuth. rewrite Ha.
    rewrite !(bool_decide_eq_true_2 (authToken s ≠ "")) by done.
    split_and!; intros; repeat case_bool_decide; simpl; try congruence;
      try apply lookup_insert_eq.
Qed.

(** *** A base URL that does not parse *)

(** X5: when the base URL does not parse and the method is not GET, the
    POST path sets the Content-Type header on the nil request that
    [http.NewRequest] returned: [sendRequest] and with it [makeRequest]
    panic instead of returning the error. *)
Theorem sendRequest_post_bad_url (w : World) (s : PKISigner) (params : Values) (e : string) :
  url_ParseErr w (BaseURL (config s)) = Some e →
  ToUpper (Method (config s)) ≠ "GET" →
  sendRequest w s params = Panic ∧ makeRequest w s params = Panic.
Proof.
  intros Hu Hm. unfold makeRequest.
  assert (sendRequest w s params = Panic) as ->; [|done].
  unfold sendRequest, NewRequest. rewrite Hu.
  rewrite (bool_decide_eq_false_2 (_ = "GET")); [done |].
  by case_bool_decide.
Qed.

Lemma sendRequest_post_bad_url_witness :
  sendRequest (badURLWorld (okResponse oneBlock)) exampleSigner ∅ = Panic
  ∧ makeRequest (badURLWorld (okResponse oneBlock)) exampleSigner ∅ = Panic.
Proof.
  exact (sendRequest_post_bad_url (badURLWorld (okResponse oneBlock)) exampleSigner ∅
           "invalid URL" eq_refl ltac:(discriminate)).
Defined.

(** *** The subject DN and what the request carries *)

Lemma Join_cons_nonempty (x : string) (l : list string) (sep : string) :
  x ≠ "" → Join (x :: l) sep ≠ "".
Proof. intros Hx. destruct x; [done |]. by destruct l. Qed.

Lemma subjectComponents_nonempty (n : Name) : Forall (λ p, p ≠ "") (subjectComponents n).
Proof.
  unfold subjectComponents. rewrite !Forall_app. split_and!;
    try (apply Forall_fmap, Forall_true; intros x; by simpl);
    case_bool_decide; by repeat constructor.
Qed.

(** X6: in either format the subject DN is the empty string exactly when
    the subject has no Common Name and no attribute values and the CSR has
    no DNS name. *)
Theorem buildSubjectDN_empty (s : PKISigner) (csr : CertificateRequest) :
  buildSubjectDN s csr = "" ↔ subjectComponents (Subject csr) = [] ∧ DNSNames csr = [].
Proof.
  pose proof (subjectComponents_Permutation (Subject csr)) as HP.
  pose proof (subjectComponents_nonempty (Subject csr)) as Hne.
  unfold buildSubjectDN, buildSubjectDNSlash, buildSubjectDNComma.
  rewrite slashParts_explicit, commaParts_explicit.
  destruct (subjectComponents (Subject csr)) as [|c cs].
  - apply Permutation_nil_l in HP. rewrite <- HP. simpl.
    destruct (DNSNames csr); case_bool_decide; simpl; split; try done;
      by intros [_ ?].
  - destruct (subjectComponentsGeneralFirst (Subject csr)) as [|c' cs'];
      [by apply Permutation_nil_r in HP |].
    assert (c' ≠ "") as Hc'.
    { assert (c' ∈ c :: cs) as Hin by (rewrite HP; apply list_elem_of_here).
      by apply (proj1 (Forall_forall _ _) Hne). }
    apply Forall_cons in Hne as [Hc _].
    split; [|by intros [? _]]. intros H. exfalso.
    case_bool_decide; destruct (DNSNames csr); revert H; rewrite ?fmap_cons;
      by apply Join_cons_nonempty.
Qed.

(** X7: the request parameters are read off the subject and the DNS names
    of the CSR and off eight fields of the configuration.  The IP, URI and
    e-mail SANs and the public key of the CSR, the renew parameters and the
    key and CSR parameter names never enter the request. *)
Theorem buildRequestParams_reads (s s' : PKISigner) (csr csr' : CertificateRequest) :
  Subject csr = Subject csr' → DNSNames csr = DNSNames csr' →
  NewCertParam (Parameters (config s)) = NewCertParam (Parameters (config s')) →
  NewCertValue (Parameters (config s)) = NewCertValue (Parameters (config s')) →
  SubjectParam (Parameters (config s)) = SubjectParam (Parameters (config s')) →
  SubjectDNFormat (Parameters (config s)) = SubjectDNFormat (Parameters (config s')) →
  DNSPrefix (Parameters (config s)) = DNSPrefix (Parameters (config s')) →
  DNSStartIndex (Parameters (config s)) = DNSStartIndex (Parameters (config s')) →
  DNSMaxCount (Parameters (config s)) = DNSMaxCount (Parameters (config s')) →
  GetCertParam (Parameters (config s)) = GetCertParam (Parameters (config s')) →
  buildRequestParams s csr = buildRequestParams s' csr'.
Proof.
  intros Hs Hd H1 H2 H3 H4 H5 H6 H7 H8.
  unfold buildRequestParams, buildSubjectDN, buildSubjectDNSlash, buildSubjectDNComma,
    slashParts, commaParts, effectiveStart, effectiveMax.
  by rewrite Hs, Hd, H1, H2, H3, H4, H5, H6, H7, H8.
Qed.

Lemma buildRequestParams_reads_witness :
  buildRequestParams exampleSigner exampleCSR
  = buildRequestParams (authSigner "bearer" "" "t0k3n") exampleCSRWithIP.
Proof.
  exact (buildRequestParams_reads exampleSigner (authSigner "bearer" "" "t0k3n")
           exampleCSR exampleCSRWithIP
           eq_refl eq_refl eq_refl eq_refl eq_refl eq_refl eq_refl eq_refl eq_refl eq_refl).
Defined.

End SignerProps.

(** ** The adapter against the legacy front-end *)

Module RoundTripProps.
Import GoStrings GoStringsFacts RoundTripAux.
Import Signer (World, PKISigner, Values, semicolonParts, requestBody, range_ok, map_range,
               config, Parameters, ParamFormat).
Import MockCA (parsePKIParams, parseDN).

(** *** Trimming, searching and splitting plain strings *)

Lemma len_TrimLeft (s : string) : (len (TrimLeft s) ≤ len s)%nat.
Proof. induction s as [|c s IH]; simpl; [done |]. destruct (asciiSpace c); simpl; lia. Qed.

Lemma len_TrimRight (s : string) : (len (TrimRight s) ≤ len s)%nat.
Proof.
  induction s as [|c s IH]; simpl; [done |].
  destruct (TrimRight s); [destruct (asciiSpace c)|]; simpl in *; lia.
Qed.

Lemma trimmed_inv (s : string) :
  trimmed s = true → TrimLeft s = s ∧ TrimRight s = s.
Proof.
  intros [_ H%bool_decide_eq_true]%andb_true_iff. unfold TrimSpace in H.
  assert (TrimLeft s = s) as Hl.
  { destruct s as [|c s]; [done |]. simpl in *.
    destruct (asciiSpace c); [|done].
    pose proof (len_TrimRight (TrimLeft s)). pose proof (len_TrimLeft s).
    apply (f_equal String.length) in H. simpl in H. lia. }
  by rewrite Hl in H.
Qed.

Lemma TrimLeft_app (a b : string) : a ≠ "" → TrimLeft a = a → TrimLeft (a +:+ b) = a +:+ b.
Proof.
  destruct a as [|c a]; [done |]. intros _ H. sapp.
  destruct (asciiSpace c); [|done].
  pose proof (len_TrimLeft a). apply (f_equal String.length) in H. simpl in H. lia.
Qed.

Lemma TrimRight_app (a b : string) :
  b ≠ "" → TrimRight b = b → TrimRight (a +:+ b) = a +:+ b.
Proof.
  intros Hb H. induction a as [|c a IH]; sapp; [done |].
  rewrite IH. destruct a; sapp; [by destruct b | done].
Qed.

Lemma TrimSpace_app (a b : string) :
  a ≠ "" → b ≠ "" → trimmed a = true → trimmed b = true →
  TrimSpace (a +:+ b) = a +:+ b.
Proof.
  intros Ha Hb [Hla _]%trimmed_inv [_ Hrb]%trimmed_inv. unfold TrimSpace.
  rewrite TrimLeft_app by done. by apply TrimRight_app.
Qed.

Lemma noByte_app (c : ascii) (a b : string) :
  noByte c (a +:+ b) = noByte c a && noByte c b.
Proof. induction a as [|x a IH]; sapp; [done |]. by rewrite IH, andb_assoc. Qed.

Lemma Index_byte_app (c : ascii) (a b : string) :
  noByte c a = true → Index (a +:+ String c b) (String c "") = Some (len a).
Proof.
  induction a as [|x a IH]; sapp.
  - intros _. by rewrite Ascii.eqb_refl.
  - intros [Hx Ha]%andb_true_iff. apply negb_true_iff in Hx. rewrite Hx.
    simpl in IH. by rewrite (IH Ha).
Qed.

Lemma Index_byte_none (c : ascii) (a : string) :
  noByte c a = true → Index a (String c "") = None.
Proof.
  induction a as [|x a IH]; simpl; [done |].
  intros [Hx Ha]%andb_true_iff. apply negb_true_iff in Hx. rewrite Hx.
  simpl in IH. by rewrite (IH Ha).
Qed.

Lemma Split_plain (c : ascii) (a : string) : noByte c a = true → Split a c = [a].
Proof.
  induction a as [|x a IH]; simpl; [done |].
  intros [Hx Ha]%andb_true_iff. apply negb_true_iff in Hx. by rewrite Hx, (IH Ha).
Qed.

Lemma Split_app (c : ascii) (a b : string) :
  noByte c a = true → Split (a +:+ String c b) c = a :: Split b c.
Proof.
  induction a as [|x a IH]; sapp.
  - intros _. by rewrite Ascii.eqb_refl.
  - intros [Hx Ha]%andb_true_iff. apply negb_true_iff in Hx. by rewrite Hx, (IH Ha).
Qed.

Lemma Split_Join (c : ascii) (parts : list string) :
  parts ≠ [] → forallb (noByte c) parts = true →
  Split (Join parts (String c "")) c = parts.
Proof.
  induction parts as [|p [|q rest] IH]; [done | |]; intros _ H.
  - simpl in *. apply andb_true_iff in H as [Hp _]. by apply Split_plain.
  - change (Join (p :: q :: rest) (String c ""))
      with (p +:+ String c "" +:+ Join (q :: rest) (String c "")).
    cbn [forallb] in H. apply andb_true_iff in H as [Hp H].
    rewrite str_app_cons, str_app_nil_l, (Split_app _ _ _ Hp), IH; done.
Qed.

(** *** The semicolon format *)

Lemma parsePKIParams_fold (body : string) :
  parsePKIParams body = foldl parsePKIStep ∅ (Split body ";").
Proof. reflexivity. Qed.

Lemma semicolonParts_omap (order : list (string * list string)) :
  semicolonParts order = omap renderEntry order.
Proof.
  unfold semicolonParts.
  assert (∀ acc, foldl (λ parts kv,
             match kv.2 with
             | v :: _ =>
                 if bool_decide (v ≠ "") then parts ++ [kv.1 +:+ "=" +:+ v]
                 else parts ++ [kv.1]
             | [] => parts
             end) acc order = acc ++ omap renderEntry order) as H; [|apply H].
  induction order as [|[k [|v vs]] rest IH]; intros acc; simpl.
  - by rewrite app_nil_r.
  - apply IH.
  - unfold renderEntry at 1. simpl. case_bool_decide; by rewrite IH, <- app_assoc.
Qed.

(** One plain entry, serialized and parsed, sets its key to its first
    value. *)
Lemma parsePKIStep_render (m : gmap string string) (k v : string) (vs : list string)
    (p : string) :
  plainEntry (k, v :: vs) = true → renderEntry (k, v :: vs) = Some p →
  parsePKIStep m p = <[k := v]> m ∧ noByte ";" p = true.
Proof.
  unfold plainEntry, plainKey, plainValue, renderEntry. simpl.
  intros [[[[Hk Hks]%andb_true_iff Hke]%andb_true_iff Hkt]%andb_true_iff
          [Hvs Hvt]%andb_true_iff]%andb_true_iff.
  apply bool_decide_eq_true in Hk.
  destruct (trimmed_inv _ Hkt) as [Hkl Hkr]. destruct (trimmed_inv _ Hvt) as [Hvl Hvr].
  unfold parsePKIStep. case_bool_decide as Hv; intros [= <-].
  - assert (TrimSpace (k +:+ "=" +:+ v) = k +:+ "=" +:+ v) as ->.
    { unfold TrimSpace. rewrite TrimLeft_app by done.
      rewrite <- str_app_assoc. by apply TrimRight_app. }
    rewrite bool_decide_eq_false_2 by (by destruct k).
    change (k +:+ "=" +:+ v) with (k +:+ String "=" v).
    rewrite (Index_byte_app _ _ _ Hke).
    destruct (len k) as [|n] eqn:En; [by destruct k |]. rewrite <- En.
    rewrite sliceTo_app, sliceFrom_add, sliceFrom_app. simpl.
    unfold TrimSpace. rewrite Hkl, Hkr, Hvl, Hvr. split; [done |].
    rewrite noByte_app. simpl. by rewrite Hks, Hvs.
  - assert (v = "") as -> by (by destruct (decide (v = ""))).
    unfold TrimSpace. rewrite Hkl, Hkr.
    rewrite bool_decide_eq_false_2 by done.
    by rewrite (Index_byte_none _ _ Hke).
Qed.

Lemma parsePKIStep_entries (order : list (string * list string)) (m : gmap string string) :
  forallb plainEntry order = true →
  foldl parsePKIStep m (omap renderEntry order)
  = foldl (λ m kv, <[kv.1 := kv.2]> m) m (omap firstValue order)
  ∧ forallb (noByte ";") (omap renderEntry order) = true.
Proof.
  revert m. induction order as [|[k [|v vs]] rest IH]; intros m H; simpl in *; [done | |].
  - apply andb_true_iff in H as [_ H]. by apply IH.
  - apply andb_true_iff in H as [Hkv H].
    destruct (parsePKIStep_render m k v vs _ Hkv eq_refl) as [Hstep Hp].
    simpl in Hstep, Hp. rewrite Hstep, Hp.
    destruct (IH (<[k:=v]> m) H) as [IH1 IH2]. split; [apply IH1 | apply IH2].
Qed.

(** The parameters that the front-end reads from the semicolon body of a
    list of plain entries: each key with its first value, later entries
    over earlier ones. *)
Lemma parsePKIParams_semicolonParts (order : list (string * list string)) :
  forallb plainEntry order = true →
  parsePKIParams (Join (semicolonParts order) ";")
  = foldl (λ m kv, <[kv.1 := kv.2]> m) ∅ (omap firstValue order).
Proof.
  intros H. rewrite parsePKIParams_fold, semicolonParts_omap.
  destruct (parsePKIStep_entries order ∅ H) as [Hfold Hplain].
  destruct (omap renderEntry order) as [|p parts] eqn:E.
  - rewrite <- Hfold. reflexivity.
  - rewrite <- Hfold. by rewrite (Split_Join ";" (p :: parts)).
Qed.

Lemma foldl_insert_lookup (l : list (string * string)) (m : gmap string string)
    (k v : string) :
  NoDup l.*1 →
  foldl (λ m kv, <[kv.1 := kv.2]> m) m l !! k = Some v
  ↔ (k, v) ∈ l ∨ ((k ∉ l.*1) ∧ m !! k = Some v).
Proof.
  revert m. induction l as [|[k0 v0] l IH]; intros m Hnd.
  - simpl. rewrite elem_of_nil. split; [|by intros [[] | [_ ?]]].
    intros ?. right. split; [apply not_elem_of_nil | done].
  - rewrite fmap_cons in Hnd |- *. apply NoDup_cons in Hnd as [Hk0 Hnd].
    change (foldl ?f m ((k0, v0) :: l)) with (foldl f (<[k0 := v0]> m) l).
    rewrite (IH _ Hnd), lookup_insert, !elem_of_cons. simpl in *.
    clear IH. case_decide as Heq; subst; split.
    + intros [Hin | [Hk Hm]]; [by left; right | simplify_eq; by left; left].
    + intros [[[= ->] | Hin] | [Hk Hm]]; [by right | by left | by destruct Hk; left].
    + intros [Hin | [Hk Hm]]; [by left; right |].
      right. split; [|done]. by intros [? | ?].
    + intros [[[= ? ?] | Hin] | [Hk Hm]]; [done | by left |].
      right. split; [|done]. by intros ?; apply Hk; right.
Qed.

Lemma omap_firstValue_fst (order : list (string * list string)) (k : string) :
  k ∈ (omap firstValue order).*1 → k ∈ order.*1.
Proof.
  rewrite !list_elem_of_fmap. intros ([k' v] & -> & Hin).
  apply list_elem_of_omap in Hin as ([k'' vs] & Hin & Hf).
  unfold firstValue in Hf. simpl in Hf. destruct vs as [|v' vs]; simplify_eq.
  by exists (k', v :: vs).
Qed.

Lemma omap_firstValue_NoDup (order : list (string * list string)) :
  NoDup order.*1 → NoDup (omap firstValue order).*1.
Proof.
  induction order as [|[k [|v vs]] rest IH]; simpl; [done | |];
    intros [Hk Hnd]%NoDup_cons; [by apply IH |].
  unfold firstValue at 1. simpl. apply NoDup_cons. split; [|by apply IH].
  intros Hin. by apply Hk, omap_firstValue_fst.
Qed.

(** A parameter of the parsed body is the first value of the parameter
    that the adapter set. *)
Lemma parsePKIParams_requestBody (w : World) (s : PKISigner) (params : Values)
    (k v : string) :
  ParamFormat (Parameters (config s)) = "semicolon" →
  range_ok w params →
  forallb plainEntry (map_to_list params) = true →
  parsePKIParams (requestBody w s params) !! k = Some v
  ↔ ∃ vs, params !! k = Some vs ∧ head vs = Some v.
Proof.
  intros Hf Hr Hp. unfold requestBody. rewrite bool_decide_eq_true_2 by done.
  unfold range_ok in Hr.
  assert (forallb plainEntry (map_range w params) = true) as Hp'.
  { apply forallb_forall. intros kv Hin.
    apply (proj1 (forallb_forall _ _) Hp).
    apply list_elem_of_In. rewrite <- Hr. by apply list_elem_of_In. }
  rewrite (parsePKIParams_semicolonParts _ Hp').
  assert (NoDup (map_range w params).*1) as Hnd.
  { rewrite Hr. apply NoDup_fst_map_to_list. }
  rewrite foldl_insert_lookup by (by apply omap_firstValue_NoDup).
  rewrite lookup_empty, list_elem_of_omap. split.
  - intros [([k' vs] & Hin & Hfv) | [_ ?]]; [|done].
    unfold firstValue in Hfv. simpl in Hfv. destruct vs as [|v' vs]; simplify_eq.
    rewrite Hr in Hin. apply elem_of_map_to_list in Hin. by exists (v :: vs).
  - intros (vs & Hk & Hv). left. exists (k, vs). split.
    + rewrite Hr. by apply elem_of_map_to_list.
    + unfold firstValue. simpl. destruct vs as [|v' vs]; [done |].
      simpl in Hv. by simplify_eq.
Qed.

(** X8: what the adapter serializes in the semicolon format the legacy
    front-end parses back.  When every key is plain (not empty, without
    [;] and [=], ASCII text without white space at its ends) and every
    first value is plain (without [;], ASCII text without white space at
    its ends), then for every order in which [range] visits the parameters
    [parsePKIParams] of the request body has exactly the keys that have a
    value, each with its first value. *)
Theorem semicolon_roundtrip (w : World) (s : PKISigner) (params : Values) :
  ParamFormat (Parameters (config s)) = "semicolon" →
  range_ok w params →
  forallb plainEntry (map_to_list params) = true →
  parsePKIParams (requestBody w s params) = omap head params.
Proof.
  intros Hf Hr Hp. apply map_eq. intros k. rewrite lookup_omap.
  apply option_eq. intros v.
  by rewrite (parsePKIParams_requestBody w s params k v Hf Hr Hp), bind_Some.
Qed.

Lemma semicolon_roundtrip_witness :
  parsePKIParams
    (requestBody (Signer.stubWorld Signer.scenarioCSR None
                    (Signer.okResponse Signer.oneBlock) map_to_list)
       Signer.scenarioSigner
       (Signer.buildRequestParams Signer.scenarioSigner Signer.scenarioCSR))
  = omap head (Signer.buildRequestParams Signer.scenarioSigner Signer.scenarioCSR).
Proof.
  apply (semicolon_roundtrip
           (Signer.stubWorld Signer.scenarioCSR None
              (Signer.okResponse Signer.oneBlock) map_to_list)
           Signer.scenarioSigner
           (Signer.buildRequestParams Signer.scenarioSigner Signer.scenarioCSR) eq_refl).
  - by unfold range_ok.
  - by vm_compute.
Defined.

(** *** The subject DN in the slash format *)

Lemma parseDN_fold (dn : string) :
  parseDN dn = foldl parseDNStep Signer.emptyName (Split dn "/").
Proof. reflexivity. Qed.

Lemma Split_nonempty (s : string) (c : ascii) : Split s c ≠ [].
Proof.
  induction s as [|x s IH]; simpl; [done |].
  destruct (Ascii.eqb x c); [done |]. by destruct (Split s c).
Qed.

Lemma Split_app_plain (c : ascii) (a b : string) :
  noByte c a = true →
  Split (a +:+ b) c
  = match Split b c with [] => [a] | q :: qs => (a +:+ q) :: qs end.
Proof.
  induction a as [|x a IH]; sapp.
  - intros _. pose proof (Split_nonempty b c). by destruct (Split b c).
  - simpl. intros [Hx Ha]%andb_true_iff. apply negb_true_iff in Hx.
    rewrite Hx, (IH Ha). destruct (Split b c); by sapp.
Qed.

Lemma Join_empty_sep (x : string) (l : list string) : Join (x :: l) "" = x +:+ Join l "".
Proof. destruct l; simpl; [by rewrite str_app_nil_r | done]. Qed.

(** Splitting the slash form at [/] gives an empty first piece and then
    the components. *)
Lemma Split_slash (ps : list string) :
  forallb (noByte "/") ps = true →
  Split (Join (String.append "/" <$> ps) "") "/" = "" :: ps.
Proof.
  induction ps as [|p rest IH]; [done |].
  intros [Hp Hrest]%andb_true_iff. rewrite fmap_cons, Join_empty_sep. sapp.
  change (Split (String "/" ?x) "/") with ("" :: Split x "/").
  rewrite (Split_app_plain _ _ _ Hp), (IH Hrest). by rewrite str_app_nil_r.
Qed.

Lemma TrimSpace_attribute (key v : string) :
  key ≠ "" → trimmed key = true → trimmed v = true →
  TrimSpace (key +:+ "=" +:+ v) = key +:+ "=" +:+ v.
Proof.
  intros Hk [Hkl Hkr]%trimmed_inv [Hvl Hvr]%trimmed_inv. unfold TrimSpace.
  rewrite TrimLeft_app by done. destruct (decide (v = "")) as [-> | Hv].
  - by apply TrimRight_app.
  - rewrite <- str_app_assoc. by apply TrimRight_app.
Qed.

(** A part [key=value] with a plain key and a trimmed value is read as
    that key, in upper case, and that value. *)
Lemma parseDNStep_attribute (name : Signer.Name) (key v : string) :
  key ≠ "" → noByte "=" key = true → trimmed key = true → trimmed v = true →
  parseDNStep name (key +:+ "=" +:+ v) = setAttribute name (ToUpper key) v.
Proof.
  intros Hk Hke Hkt Hvt. unfold parseDNStep.
  rewrite TrimSpace_attribute by done.
  rewrite bool_decide_eq_false_2 by (by destruct key).
  change (key +:+ "=" +:+ v) with (key +:+ String "=" v).
  rewrite (Index_byte_app _ _ _ Hke).
  destruct (len key) as [|n] eqn:En; [by destruct key |]. rewrite <- En.
  rewrite sliceTo_app, sliceFrom_add, sliceFrom_app. simpl.
  destruct (trimmed_inv _ Hkt) as [Hkl Hkr]. destruct (trimmed_inv _ Hvt) as [Hvl Hvr].
  unfold TrimSpace. by rewrite Hkl, Hkr, Hvl, Hvr.
Qed.

Lemma plainAttribute_trimmed (v : string) : plainAttribute v = true → trimmed v = true.
Proof. by intros [_ ?]%andb_true_iff. Qed.

Lemma foldl_parseDNStep (key : string) (vs : list string) (name : Signer.Name) :
  key ≠ "" → noByte "=" key = true → trimmed key = true →
  forallb plainAttribute vs = true →
  foldl parseDNStep name (String.append (key +:+ "=") <$> vs)
  = foldl (λ name v, setAttribute name (ToUpper key) v) name vs.
Proof.
  intros Hk Hke Hkt. revert name. induction vs as [|v vs IH]; intros name; [done |].
  intros [Hv Hvs]%andb_true_iff. rewrite fmap_cons. simpl.
  rewrite <- (IH _ Hvs). f_equal. rewrite str_app_assoc.
  apply parseDNStep_attribute; try done. by apply plainAttribute_trimmed.
Qed.

Lemma noByte_components (n : Signer.Name) :
  plainName n = true →
  forallb (noByte "/") (Signer.subjectComponentsGeneralFirst n) = true.
Proof.
  unfold plainName, Signer.subjectComponentsGeneralFirst.
  intros H. repeat (apply andb_true_iff in H as [H ?]).
  assert (∀ key vs, noByte "/" key = true → forallb plainAttribute vs = true →
            forallb (noByte "/") (String.append key <$> vs) = true) as Hmap.
  { intros key vs Hkey. induction vs as [|v vs IH]; [done |].
    intros [[Hv _]%andb_true_iff Hvs]%andb_true_iff. rewrite fmap_cons. simpl.
    by rewrite noByte_app, Hkey, Hv, IH. }
  rewrite !forallb_app. rewrite !Hmap by done. simpl.
  case_bool_decide; [|done]. simpl. by rewrite str_app_nil_l, H.
Qed.

Lemma parseDN_components (n : Signer.Name) :
  plainName n = true →
  foldl parseDNStep Signer.emptyName (Signer.subjectComponentsGeneralFirst n) = n.
Proof.
  unfold plainName, Signer.subjectComponentsGeneralFirst.
  intros H. repeat (apply andb_true_iff in H as [H ?]).
  assert (∀ vs name, foldl (λ name v, setAttribute name "C" v) name vs
            = {| Signer.CommonName := Signer.CommonName name;
                 Signer.Country := Signer.Country name ++ vs;
                 Signer.Province := Signer.Province name;
                 Signer.Locality := Signer.Locality name;
                 Signer.Organization := Signer.Organization name;
                 Signer.OrganizationalUnit := Signer.OrganizationalUnit name |}) as HC.
  { induction vs as [|v vs IH]; intros []; simpl; [by rewrite app_nil_r |].
    rewrite IH. simpl. by rewrite <- app_assoc. }
  assert (∀ vs name, foldl (λ name v, setAttribute name "ST" v) name vs
            = {| Signer.CommonName := Signer.CommonName name;
                 Signer.Country := Signer.Country name;
                 Signer.Province := Signer.Province name ++ vs;
                 Signer.Locality := Signer.Locality name;
                 Signer.Organization := Signer.Organization name;
                 Signer.OrganizationalUnit := Signer.OrganizationalUnit name |}) as HST.
  { induction vs as [|v vs IH]; intros []; simpl; [by rewrite app_nil_r |].
    rewrite IH. simpl. by rewrite <- app_assoc. }
  assert (∀ vs name, foldl (λ name v, setAttribute name "L" v) name vs
            = {| Signer.CommonName := Signer.CommonName name;
                 Signer.Country := Signer.Country name;
                 Signer.Province := Signer.Province name;
                 Signer.Locality := Signer.Locality name ++ vs;
                 Signer.Organization := Signer.Organization name;
                 Signer.OrganizationalUnit := Signer.OrganizationalUnit name |}) as HL.
  { induction vs as [|v vs IH]; intros []; simpl; [by rewrite app_nil_r |].
    rewrite IH. simpl. by rewrite <- app_assoc. }
  assert (∀ vs name, foldl (λ name v, setAttribute name "O" v) name vs
            = {| Signer.CommonName := Signer.CommonName name;
                 Signer.Country := Signer.Country name;
                 Signer.Province := Signer.Province name;
                 Signer.Locality := Signer.Locality name;
                 Signer.Organization := Signer.Organization name ++ vs;
                 Signer.OrganizationalUnit := Signer.OrganizationalUnit name |}) as HO.
  { induction vs as [|v vs IH]; intros []; simpl; [by rewrite app_nil_r |].
    rewrite IH. simpl. by rewrite <- app_assoc. }
  assert (∀ vs name, foldl (λ name v, setAttribute name "OU" v) name vs
            = {| Signer.CommonName := Signer.CommonName name;
                 Signer.Country := Signer.Country name;
                 Signer.Province := Signer.Province name;
                 Signer.Locality := Signer.Locality name;
                 Signer.Organization := Signer.Organization name;
                 Signer.OrganizationalUnit := Signer.OrganizationalUnit name ++ vs |})
    as HOU.
  { induction vs as [|v vs IH]; intros []; simpl; [by rewrite app_nil_r |].
    rewrite IH. simpl. by rewrite <- app_assoc. }
  rewrite !foldl_app.
  rewrite (foldl_parseDNStep "C"), (foldl_parseDNStep "ST"), (foldl_parseDNStep "L"),
    (foldl_parseDNStep "O"), (foldl_parseDNStep "OU") by done.
  change (ToUpper "C") with "C". change (ToUpper "ST") with "ST".
  change (ToUpper "L") with "L". change (ToUpper "O") with "O".
  change (ToUpper "OU") with "OU".
  rewrite HC, HST, HL, HO, HOU. simpl. destruct n as [cn c st l o ou]. simpl in *.
  case_bool_decide as Hcn.
  - simpl. change ("CN=" +:+ cn) with ("CN" +:+ "=" +:+ cn).
    by rewrite parseDNStep_attribute.
  - simpl. by assert (cn = "") as -> by (by destruct (decide (cn = ""))).
Qed.

Lemma slashParts_components (csr : Signer.CertificateRequest) :
  Signer.subjectComponents (Signer.Subject csr) ≠ [] ∨ Signer.DNSNames csr = [] →
  Signer.slashParts csr
  = String.append "/" <$> Signer.subjectComponentsGeneralFirst (Signer.Subject csr).
Proof.
  intros Hcase. rewrite SignerFacts.slashParts_explicit.
  destruct Hcase as [Hne | ->].
  - pose proof (SignerFacts.subjectComponents_Permutation (Signer.Subject csr)) as HP.
    destruct (Signer.subjectComponentsGeneralFirst (Signer.Subject csr)); [|done].
    by apply Permutation_nil_r in HP.
  - by destruct (_ <$> _).
Qed.

(** X9: the subject that the adapter writes in the slash format is the
    subject that the legacy front-end reads.  When every attribute value
    of the subject is ASCII text without [/] and without white space at
    its ends, and the subject is
    not empty or the CSR has no DNS name, [parseDN] of
    [buildSubjectDNSlash] is the subject of the CSR, with every list in
    its order. *)
Theorem parseDN_buildSubjectDNSlash (s : PKISigner) (csr : Signer.CertificateRequest) :
  plainName (Signer.Subject csr) = true →
  Signer.subjectComponents (Signer.Subject csr) ≠ [] ∨ Signer.DNSNames csr = [] →
  parseDN (Signer.buildSubjectDNSlash s csr) = Signer.Subject csr.
Proof.
  intros Hplain Hcase. rewrite parseDN_fold. unfold Signer.buildSubjectDNSlash.
  rewrite (slashParts_components _ Hcase).
  rewrite (Split_slash _ (noByte_components _ Hplain)).
  by apply parseDN_components.
Qed.

Lemma parseDN_buildSubjectDNSlash_witness :
  parseDN (Signer.buildSubjectDNSlash Signer.scenarioSigner richCSR) = richName.
Proof.
  apply (parseDN_buildSubjectDNSlash Signer.scenarioSigner richCSR eq_refl).
  by left.
Defined.

(** X10: the fallback of the slash format as the front-end reads it.  For
    a CSR whose subject has no Common Name and no attribute values and
    whose first DNS name is plain, [parseDN] of [buildSubjectDNSlash] is
    the subject with that DNS name as its Common Name. *)
Theorem parseDN_fallback (s : PKISigner) (csr : Signer.CertificateRequest)
    (d : string) (rest : list string) :
  Signer.subjectComponents (Signer.Subject csr) = [] →
  Signer.DNSNames csr = d :: rest →
  plainAttribute d = true →
  parseDN (Signer.buildSubjectDNSlash s csr) = withCommonName d (Signer.Subject csr).
Proof.
  intros Hnil Hdns [Hd Hdt]%andb_true_iff. rewrite parseDN_fold.
  unfold Signer.buildSubjectDNSlash. rewrite SignerFacts.slashParts_explicit, Hdns.
  pose proof (SignerFacts.subjectComponents_Permutation (Signer.Subject csr)) as HP.
  rewrite Hnil in HP. apply Permutation_nil_l in HP. rewrite <- HP.
  change (Join _ "") with (Join (String.append "/" <$> ["CN" +:+ "=" +:+ d]) "").
  rewrite Split_slash by (cbn [forallb]; by rewrite !noByte_app, Hd).
  cbn [foldl]. change (parseDNStep Signer.emptyName "") with Signer.emptyName.
  rewrite parseDNStep_attribute by done.
  unfold Signer.subjectComponents in Hnil. destruct (Signer.Subject csr) as [cn c st l o ou].
  simpl in *. case_bool_decide; [done |].
  by destruct ou, o, l, st, c.
Qed.

Lemma parseDN_fallback_witness :
  parseDN (Signer.buildSubjectDNSlash Signer.scenarioSigner dnsOnlyCSR)
  = withCommonName "first.example.com" Signer.emptyName.
Proof.
  by apply (parseDN_fallback Signer.scenarioSigner dnsOnlyCSR
              "first.example.com" ["second.example.com"]).
Defined.

End RoundTripProps.

(** ** The reconciler of requests: outcomes *)

Module ControllersProps.
Import GoStrings Controllers ControllersAux ControllersFacts.
Import Signer (result, Ok, Err, Panic).

Lemma setStatus_writeOutcome (env : Env) (cr : CertificateRequest)
    (status reason message : string) :
  setStatus env cr status reason message
  = writeOutcome [] env (withReady env cr status reason message).
Proof. reflexivity. Qed.

(** The end of [Reconcile] for a signer of either kind. *)
Lemma checkAndSign_cases {S : Type} `{SignerOps S} (env : Env) (cr : CertificateRequest)
    (certSigner : S) :
  checkAndSign env cr certSigner = ([EvCheckHealth], Panic)
  ∨ checkAndSign env cr certSigner = ([EvCheckHealth; EvSign (Request cr) 365], Panic)
  ∨ (∃ message,
       checkAndSign env cr certSigner
       = writeOutcome [EvCheckHealth] env
           (withReady env cr ConditionFalse "SignerError" message))
  ∨ (∃ message,
       checkAndSign env cr certSigner
       = writeOutcome [EvCheckHealth; EvSign (Request cr) 365] env
           (withReady env cr ConditionFalse "SigningFailed" message))
  ∨ (∃ certPEM caPEM,
       checkAndSign env cr certSigner
       = writeOutcome [EvCheckHealth; EvSign (Request cr) 365] env
           (withReady env (withCertificate cr certPEM caPEM) ConditionTrue "Issued"
              "Certificate issued successfully")).
Proof.
  unfold checkAndSign. destruct (CheckHealth certSigner) as [[] | e |].
  - destruct (Sign certSigner (Request cr) 365) as [[certPEM caPEM] | e |].
    + do 4 right. by exists certPEM, caPEM.
    + do 3 right. left. by exists e.
    + right. by left.
  - do 2 right. left. by exists e.
  - by left.
Qed.

Lemma eligible_intro (cr : CertificateRequest) :
  RefGroup (IssuerRef cr) = externalIssuerAPIGroup →
  bool_decide (RefKind (IssuerRef cr) ≠ issuerKind)
  && bool_decide (RefKind (IssuerRef cr) ≠ clusterIssuerKind) = false →
  bool_decide (0 < len (Certificate cr))%nat = false →
  isInTerminalState cr = false → isCertificateRequestDenied cr = false →
  isCertificateRequestApproved cr = true →
  eligible cr = true.
Proof.
  intros Hg Hk Hc Ht Hd Ha. unfold eligible. rewrite Ht, Hd, Ha. simpl.
  rewrite !andb_true_r. apply andb_true_iff. split; [apply andb_true_iff; split |].
  - by apply bool_decide_eq_true.
  - apply andb_false_iff in Hk as [Hk | Hk]; apply bool_decide_eq_false in Hk;
      apply orb_true_iff; [left | right]; apply bool_decide_eq_true;
      [by destruct (decide (RefKind (IssuerRef cr) = issuerKind))
      | by destruct (decide (RefKind (IssuerRef cr) = clusterIssuerKind))].
  - apply bool_decide_eq_true. apply bool_decide_eq_false in Hc.
    destruct (Certificate cr); [done |]. simpl in Hc. lia.
Qed.

(** Every way in which [Reconcile] ends. *)
Lemma Reconcile_cases (env : Env) (req : NamespacedName) :
  Reconcile env req = ([], Ok tt)
  ∨ (∃ e, getCertificateRequest env req = GetFailed e ∧ Reconcile env req = ([], Err e))
  ∨ (∃ cr, getCertificateRequest env req = Found cr ∧ eligible cr = true
       ∧ (Reconcile env req = ([], Panic)
          ∨ Reconcile env req = ([EvCheckHealth], Panic)
          ∨ Reconcile env req = ([EvCheckHealth; EvSign (Request cr) 365], Panic)
          ∨ (∃ reason message,
               reason ∈ ["IssuerNotFound"; "ConfigError"; "AuthError"]
               ∧ Reconcile env req
                 = writeOutcome [] env (withReady env cr ConditionFalse reason message))
          ∨ (∃ message,
               Reconcile env req
               = writeOutcome [EvCheckHealth] env
                   (withReady env cr ConditionFalse "SignerError" message))
          ∨ (∃ message,
               Reconcile env req
               = writeOutcome [EvCheckHealth; EvSign (Request cr) 365] env
                   (withReady env cr ConditionFalse "SigningFailed" message))
          ∨ (∃ certPEM caPEM,
               Reconcile env req
               = writeOutcome [EvCheckHealth; EvSign (Request cr) 365] env
                   (withReady env (withCertificate cr certPEM caPEM) ConditionTrue
                      "Issued" "Certificate issued successfully")))).
Proof.
  unfold Reconcile.
  destruct (getCertificateRequest env req) as [cr | | e]; [| by left | right; left; eauto].
  case_bool_decide as Hg; [by left |].
  destruct (bool_decide (RefKind (IssuerRef cr) ≠ issuerKind)
            && bool_decide (RefKind (IssuerRef cr) ≠ clusterIssuerKind)) eqn:Hk;
    [by left |].
  destruct (bool_decide (0 < len (Certificate cr))%nat) eqn:Hc; [by left |].
  destruct (isInTerminalState cr) eqn:Ht; [by left |].
  destruct (isCertificateRequestDenied cr) eqn:Hd; [by left |].
  destruct (isCertificateRequestApproved cr) eqn:Ha; [|by left].
  cbn [negb]. right; right. exists cr. split; [done |]. split; [by apply eligible_intro |].
  assert (∀ (S : Type) (ops : SignerOps S) (certSigner : S) (P : M (result unit) → Prop),
            (∀ o, o = ([EvCheckHealth], Panic)
                  ∨ o = ([EvCheckHealth; EvSign (Request cr) 365], Panic)
                  ∨ (∃ message, o = writeOutcome [EvCheckHealth] env
                       (withReady env cr ConditionFalse "SignerError" message))
                  ∨ (∃ message, o = writeOutcome [EvCheckHealth; EvSign (Request cr) 365] env
                       (withReady env cr ConditionFalse "SigningFailed" message))
                  ∨ (∃ certPEM caPEM,
                       o = writeOutcome [EvCheckHealth; EvSign (Request cr) 365] env
                             (withReady env (withCertificate cr certPEM caPEM) ConditionTrue
                                "Issued" "Certificate issued successfully")) → P o) →
            P (checkAndSign env cr certSigner)) as Hsign.
  { intros S ops certSigner P HP. apply HP, checkAndSign_cases. }
  destruct (getIssuerSpec env cr) as [issuerSpec | e |].
  - destruct (bool_decide ((if bool_decide (SignerType issuerSpec = "") then "mockca"
                            else SignerType issuerSpec) = "pki")) eqn:Hpki;
      [destruct (ConfigMapRef issuerSpec) as [ref|] |].
    + destruct (loadPKIConfig env ref (Namespace cr)) as [pkiConfig | e |].
      * destruct (bool_decide (AuthSecretName issuerSpec ≠ "")).
        -- destruct (loadAuthToken env (AuthSecretName issuerSpec) (Namespace cr))
             as [token | e |].
           ++ apply Hsign; intros o [-> | [-> | [Ho | [Ho | Ho]]]]; auto 10.
           ++ do 3 right. left. exists "AuthError", e. split; [|done].
              do 2 apply list_elem_of_further. apply list_elem_of_here.
           ++ by left.
        -- apply Hsign; intros o [-> | [-> | [Ho | [Ho | Ho]]]]; auto 10.
      * do 3 right. left. exists "ConfigError", e. split; [|done].
        apply list_elem_of_further, list_elem_of_here.
      * by left.
    + apply Hsign; intros o [-> | [-> | [Ho | [Ho | Ho]]]]; auto 10.
    + apply Hsign; intros o [-> | [-> | [Ho | [Ho | Ho]]]]; auto 10.
  - do 3 right. left. exists "IssuerNotFound", e. split; [|done]. apply list_elem_of_here.
  - by left.
Qed.

Lemma elem_of_writeOutcome (calls : list Event) (env : Env) (cr cr' : CertificateRequest) :
  Forall (λ ev, match ev with EvStatusUpdate _ => False | _ => True end) calls →
  EvStatusUpdate cr' ∈ (writeOutcome calls env cr).1 → cr' = cr.
Proof.
  intros Hcalls. simpl. rewrite elem_of_app, list_elem_of_singleton.
  intros [Hin | [= ->]]; [|done].
  by apply (proj1 (Forall_forall _ _) Hcalls) in Hin.
Qed.

(** Whatever [Reconcile] writes is the eligible request that it read, with
    the Ready condition set for a failure, or with the signer's answer and
    the Ready condition set for the issuance. *)
Lemma Reconcile_written (env : Env) (req : NamespacedName) (cr' : CertificateRequest) :
  EvStatusUpdate cr' ∈ (Reconcile env req).1 →
  ∃ cr, getCertificateRequest env req = Found cr ∧ eligible cr = true
    ∧ ((∃ reason message,
          reason ∈ failureReasons
          ∧ cr' = withReady env cr ConditionFalse reason message)
       ∨ (∃ certPEM caPEM,
            EvSign (Request cr) 365 ∈ (Reconcile env req).1
            ∧ cr' = withReady env (withCertificate cr certPEM caPEM) ConditionTrue
                      "Issued" "Certificate issued successfully")).
Proof.
  destruct (Reconcile_cases env req)
    as [-> | [(e & _ & ->) | (cr & Hget & Hel & Hcases)]];
    [by intros ?%elem_of_nil | by intros ?%elem_of_nil |].
  intros Hin. exists cr. split; [done |]. split; [done |].
  destruct Hcases as [H | [H | [H | [(reason & message & Hr & H)
    | [(message & H) | [(message & H) | (certPEM & caPEM & H)]]]]]];
    rewrite H in Hin |- *.
  - by apply elem_of_nil in Hin.
  - apply list_elem_of_singleton in Hin. done.
  - simpl in Hin. rewrite !elem_of_cons, elem_of_nil in Hin. by destruct Hin as [? | [? | []]].
  - apply elem_of_writeOutcome in Hin as ->; [|by constructor].
    left. exists reason, message. split; [|done].
    unfold failureReasons. rewrite !elem_of_cons, elem_of_nil in Hr.
    rewrite !elem_of_cons. tauto.
  - apply elem_of_writeOutcome in Hin as ->; [|by repeat constructor].
    left. exists "SignerError", message. split; [|done].
    do 3 apply list_elem_of_further. apply list_elem_of_here.
  - apply elem_of_writeOutcome in Hin as ->; [|by repeat constructor].
    left. exists "SigningFailed", message. split; [|done].
    do 4 apply list_elem_of_further. apply list_elem_of_here.
  - apply elem_of_writeOutcome in Hin as ->; [|by repeat constructor].
    right. exists certPEM, caPEM. split; [|done].
    simpl. apply list_elem_of_further, list_elem_of_here.
Qed.

Lemma eligible_inv (cr : CertificateRequest) :
  eligible cr = true →
  Certificate cr = "" ∧ isInTerminalState cr = false
  ∧ isCertificateRequestDenied cr = false ∧ isCertificateRequestApproved cr = true.
Proof.
  unfold eligible.
  intros [[[[_ Hc%bool_decide_eq_true]%andb_true_iff Ht%negb_true_iff]%andb_true_iff
            Hd%negb_true_iff]%andb_true_iff Ha]%andb_true_iff.
  done.
Qed.

(** *** [setCondition] *)

Lemma setCondition_elem_inv (conditions : list Condition) (c x : Condition) :
  x ∈ setCondition conditions c → x = c ∨ x ∈ conditions.
Proof.
  induction conditions as [|y rest IH]; simpl.
  - intros ?%list_elem_of_singleton. by left.
  - case_bool_decide; rewrite !elem_of_cons; [tauto |].
    intros [-> | Hin]; [tauto |]. destruct (IH Hin); tauto.
Qed.

Lemma setCondition_other (conditions : list Condition) (c x : Condition) :
  Type_ x ≠ Type_ c → x ∈ conditions → x ∈ setCondition conditions c.
Proof.
  intros Hx. induction conditions as [|y rest IH]; simpl; [by intros ?%elem_of_nil |].
  rewrite elem_of_cons. intros [-> | Hin].
  - rewrite bool_decide_eq_false_2 by done. apply list_elem_of_here.
  - case_bool_decide; apply list_elem_of_further; [done | by apply IH].
Qed.

(** X11: [setCondition] touches one condition.  It leaves the conditions
    of every other type as they are, in their order, and it never adds a
    second condition of a type: afterwards the list has as many conditions
    of the type as before, and one if it had none. *)
Theorem setCondition_frame (conditions : list Condition) (c : Condition) :
  filter (λ x, Type_ x ≠ Type_ c) (setCondition conditions c)
  = filter (λ x, Type_ x ≠ Type_ c) conditions
  ∧ length (filter (λ x, Type_ x = Type_ c) (setCondition conditions c))
    = Nat.max 1 (length (filter (λ x, Type_ x = Type_ c) conditions)).
Proof.
  induction conditions as [|y rest [IH1 IH2]]; simpl.
  - rewrite filter_cons_False by (by intros H; apply H).
    by rewrite filter_cons_True.
  - case_bool_decide as Hy.
    + rewrite !(filter_cons_False (λ x, Type_ x ≠ Type_ c)) by (by intros H; apply H).
      rewrite !(filter_cons_True (λ x, Type_ x = Type_ c)) by done.
      split; [done | simpl; lia].
    + rewrite !(filter_cons_True (λ x, Type_ x ≠ Type_ c)) by done.
      rewrite !(filter_cons_False (λ x, Type_ x = Type_ c)) by done.
      by rewrite IH1, IH2.
Qed.

(** X12: a later condition of the same type takes the place of an earlier
    one: setting [c] and then [c'] is setting [c']. *)
Theorem setCondition_overwrite (conditions : list Condition) (c c' : Condition) :
  Type_ c = Type_ c' →
  setCondition (setCondition conditions c) c' = setCondition conditions c'.
Proof.
  intros Ht. induction conditions as [|y rest IH]; simpl.
  - by rewrite bool_decide_eq_true_2.
  - destruct (decide (Type_ y = Type_ c)) as [Hy | Hy].
    + rewrite !bool_decide_eq_true_2 by congruence. simpl.
      by rewrite bool_decide_eq_true_2.
    + rewrite !bool_decide_eq_false_2 by congruence. simpl.
      rewrite bool_decide_eq_false_2 by congruence. by rewrite IH.
Qed.

Lemma setCondition_overwrite_witness :
  setCondition
    (setCondition [approved]
       (readyCondition (exampleEnv (requestWith [approved] "")) ConditionFalse
          "SigningFailed" "failed to parse CSR"))
    (readyCondition (exampleEnv (requestWith [approved] "")) ConditionTrue "Issued"
       "Certificate issued successfully")
  = setCondition [approved]
      (readyCondition (exampleEnv (requestWith [approved] "")) ConditionTrue "Issued"
         "Certificate issued successfully").
Proof. by apply (setCondition_overwrite [approved]). Defined.

(** *** What [Reconcile] does to the outside *)

(** X13: the events of a reconciliation are the calls of the signer and
    then the writes: the signer is asked for its health at most once and
    before anything else, [Sign] is called at most once, after the health
    check, with the request's CSR and 365 days, and the status is written
    at most once, as the last event. *)
Theorem Reconcile_trace_shape (env : Env) (req : NamespacedName) :
  ∃ calls writes,
    (Reconcile env req).1 = calls ++ writes
    ∧ (calls = [] ∨ calls = [EvCheckHealth]
       ∨ ∃ cr, getCertificateRequest env req = Found cr
               ∧ calls = [EvCheckHealth; EvSign (Request cr) 365])
    ∧ (writes = [] ∨ ∃ cr', writes = [EvStatusUpdate cr']).
Proof.
  destruct (Reconcile_cases env req)
    as [-> | [(e & _ & ->) | (cr & Hget & Hel & Hcases)]].
  - exists [], []. auto.
  - exists [], []. auto.
  - destruct Hcases as [H | [H | [H | [(reason & message & Hr & H)
      | [(message & H) | [(message & H) | (certPEM & caPEM & H)]]]]]];
      rewrite H; unfold writeOutcome; cbn [fst].
    + exists [], []. auto.
    + exists [EvCheckHealth], []. auto.
    + exists [EvCheckHealth; EvSign (Request cr) 365], []. eauto 10.
    + eexists [], [_]. split_and!; [done | by left | right; eauto].
    + eexists [EvCheckHealth], [_]. split_and!; [done | by right; left | right; eauto].
    + eexists [EvCheckHealth; EvSign (Request cr) 365], [_].
      split_and!; [done | right; right; eauto | right; eauto].
    + eexists [EvCheckHealth; EvSign (Request cr) 365], [_].
      split_and!; [done | right; right; eauto | right; eauto].
Qed.

(** X14: what [Reconcile] writes.  A status that it writes belongs to the
    request that it read, which passed every check; name, namespace,
    issuer reference and CSR are those of the request, and the conditions
    are the request's with the Ready condition set, at the time of the
    clock.  Either that condition is true with the reason [Issued], after
    a call of [Sign], or it is false with one of the five failure reasons
    and the certificate is still empty and the chain untouched. *)
Theorem Reconcile_write (env : Env) (req : NamespacedName) (cr' : CertificateRequest) :
  EvStatusUpdate cr' ∈ (Reconcile env req).1 →
  ∃ cr status reason message,
    getCertificateRequest env req = Found cr ∧ eligible cr = true
    ∧ Name cr' = Name cr ∧ Namespace cr' = Namespace cr
    ∧ IssuerRef cr' = IssuerRef cr ∧ Request cr' = Request cr
    ∧ Conditions cr'
      = setCondition (Conditions cr) (readyCondition env status reason message)
    ∧ ((status = "True" ∧ reason = "Issued"
        ∧ EvSign (Request cr) 365 ∈ (Reconcile env req).1)
       ∨ (status = "False" ∧ reason ∈ failureReasons
          ∧ Certificate cr' = "" ∧ CA cr' = CA cr)).
Proof.
  intros (cr & Hget & Hel & Hcases)%Reconcile_written.
  destruct (eligible_inv _ Hel) as (Hcert & _).
  destruct Hcases as [(reason & message & Hr & ->) | (certPEM & caPEM & Hs & ->)].
  - exists cr, "False", reason, message. split_and!; try done. by right.
  - exists cr, "True", "Issued", "Certificate issued successfully".
    split_and!; try done. by left.
Qed.

Lemma Reconcile_write_witness :
  ∃ cr status reason message,
    getCertificateRequest (exampleEnv (requestWith [approved] "")) exampleKey = Found cr
    ∧ eligible cr = true
    ∧ Name issuedRequest = Name cr ∧ Namespace issuedRequest = Namespace cr
    ∧ IssuerRef issuedRequest = IssuerRef cr ∧ Request issuedRequest = Request cr
    ∧ Conditions issuedRequest
      = setCondition (Conditions cr)
          (readyCondition (exampleEnv (requestWith [approved] "")) status reason message)
    ∧ ((status = "True" ∧ reason = "Issued"
        ∧ EvSign (Request cr) 365
          ∈ (Reconcile (exampleEnv (requestWith [approved] "")) exampleKey).1)
       ∨ (status = "False" ∧ reason ∈ failureReasons
          ∧ Certificate issuedRequest = "" ∧ CA issuedRequest = CA cr)).
Proof.
  apply (Reconcile_write (exampleEnv (requestWith [approved] "")) exampleKey issuedRequest).
  vm_compute. do 2 apply list_elem_of_further. apply list_elem_of_here.
Defined.

(** X15: a failure is never final.  The request that [Reconcile] writes
    is still approved and not denied, and it is in a terminal state only
    when the Ready condition written is the true one of an issuance; after
    a failure the next reconciliation of the request does not skip it for
    its state. *)
Theorem Reconcile_write_terminal (env : Env) (req : NamespacedName)
    (cr' : CertificateRequest) :
  EvStatusUpdate cr' ∈ (Reconcile env req).1 →
  isCertificateRequestApproved cr' = true
  ∧ isCertificateRequestDenied cr' = false
  ∧ (isInTerminalState cr' = true
     ↔ readyCondition env "True" "Issued" "Certificate issued successfully"
       ∈ Conditions cr').
Proof.
  intros (cr & Hget & Hel & Hcases)%Reconcile_written.
  destruct (eligible_inv _ Hel) as (Hcert & Hterm & Hden & Happ).
  assert (∀ cr0 status reason message,
            isCertificateRequestApproved cr0 = true →
            isCertificateRequestApproved (withReady env cr0 status reason message) = true)
    as Happ'.
  { intros cr0 status reason message (c & Hc & Ht & Hs)%isCertificateRequestApproved_spec.
    apply isCertificateRequestApproved_spec. exists c. split; [|done].
    apply setCondition_other; [|done]. by rewrite Ht. }
  assert (∀ cr0 status reason message,
            isCertificateRequestDenied cr0 = false →
            isCertificateRequestDenied (withReady env cr0 status reason message) = false)
    as Hden'.
  { intros cr0 status reason message H. apply not_true_is_false.
    intros (c & Hc & Ht & Hs)%isCertificateRequestDenied_spec.
    apply setCondition_elem_inv in Hc as [-> | Hc]; [done |].
    apply not_true_iff_false in H. apply H, isCertificateRequestDenied_spec. eauto. }
  destruct Hcases as [(reason & message & Hr & ->) | (certPEM & caPEM & Hs & ->)].
  - split; [by apply Happ' |]. split; [by apply Hden' |]. split.
    + intros (c & Hc & Ht & Hs)%isInTerminalState_spec. exfalso.
      apply setCondition_elem_inv in Hc as [-> | Hc].
      * simpl in Hs. unfold failureReasons in Hr. rewrite !elem_of_cons, elem_of_nil in Hr.
        destruct Hs as [Hs | [Hs | Hs]]; [done | |];
          destruct Hr as [-> | [-> | [-> | [-> | [-> | []]]]]]; done.
      * apply not_true_iff_false in Hterm. apply Hterm, isInTerminalState_spec. eauto.
    + intros Hin. exfalso. apply setCondition_elem_inv in Hin as [[=] | Hin].
      apply not_true_iff_false in Hterm. apply Hterm, isInTerminalState_spec.
      eexists. split; [done |]. split; [done | by left].
  - split; [by apply Happ' |]. split; [by apply Hden' |]. split.
    + intros _. apply setCondition_elem_of.
    + intros _. apply isInTerminalState_spec. eexists. split; [apply setCondition_elem_of |].
      split; [done | by left].
Qed.

Lemma Reconcile_write_terminal_witness :
  isCertificateRequestApproved failedRequest = true
  ∧ isCertificateRequestDenied failedRequest = false
  ∧ (isInTerminalState failedRequest = true
     ↔ readyCondition (failingSignerEnv (requestWith [approved] "")) "True" "Issued"
         "Certificate issued successfully"
       ∈ Conditions failedRequest).
Proof.
  apply (Reconcile_write_terminal (failingSignerEnv (requestWith [approved] "")) exampleKey
           failedRequest).
  vm_compute. do 2 apply list_elem_of_further. apply list_elem_of_here.
Defined.

(** X16: where an error of [Reconcile] comes from.  It is the error of
    reading the request, or the error of the one write of the status,
    which is then the last event; the failures of the issuer, of the
    configuration and of the signer are written to the status and not
    returned. *)
Theorem Reconcile_error_origin (env : Env) (req : NamespacedName) (e : string) :
  (Reconcile env req).2 = Err e →
  getCertificateRequest env req = GetFailed e
  ∨ ∃ cr', last (Reconcile env req).1 = Some (EvStatusUpdate cr')
           ∧ statusUpdate env cr' = Some e.
Proof.
  destruct (Reconcile_cases env req)
    as [-> | [(e' & Hget & ->) | (cr & Hget & Hel & Hcases)]]; [done | |].
  - intros [= ->]. by left.
  - assert (∀ calls cr', (writeOutcome calls env cr').2 = Err e →
              ∃ cr'', last (writeOutcome calls env cr').1 = Some (EvStatusUpdate cr'')
                      ∧ statusUpdate env cr'' = Some e) as Hw.
    { intros calls cr'. simpl. rewrite last_snoc.
      destruct (statusUpdate env cr') eqn:E; [|done]. intros [= ->]. eauto. }
    destruct Hcases as [H | [H | [H | [(reason & message & Hr & H)
      | [(message & H) | [(message & H) | (certPEM & caPEM & H)]]]]]];
      rewrite H; try done; intros He; right; by apply Hw.
Qed.

Lemma Reconcile_error_origin_witness :
  getCertificateRequest (conflictEnv (requestWith [approved] "")) exampleKey
  = GetFailed "the object has been modified"
  ∨ ∃ cr', last (Reconcile (conflictEnv (requestWith [approved] "")) exampleKey).1
           = Some (EvStatusUpdate cr')
           ∧ statusUpdate (conflictEnv (requestWith [approved] "")) cr'
             = Some "the object has been modified".
Proof.
  by apply (Reconcile_error_origin (conflictEnv (requestWith [approved] "")) exampleKey
              "the object has been modified").
Defined.

(** X17: without a ConfigMap reference, or with a signer type other than
    [pki], the PKI side is never used: whatever the ConfigMaps, the
    Secrets, the JSON decoding and the PKI API are, the reconciliation has
    the same events and the same result.  In particular a signer type
    [pki] without a ConfigMap reference is served by the mock CA signer,
    and the auth secret of the issuer is not read. *)
Theorem Reconcile_mock_noninterference (env : Env) (req : NamespacedName)
    (cr : CertificateRequest) (issuerSpec : ExternalIssuerSpec)
    (configMaps secrets : NamespacedName → result (gmap string string))
    (unmarshal : string → result Signer.PKIConfig) (w : Signer.World) :
  getCertificateRequest env req = Found cr →
  getIssuerSpec env cr = Ok issuerSpec →
  SignerType issuerSpec ≠ "pki" ∨ ConfigMapRef issuerSpec = None →
  Reconcile (withPKISide env configMaps secrets unmarshal w) req = Reconcile env req.
Proof.
  intros Hget Hspec Hmock. unfold Reconcile. cbn [withPKISide getCertificateRequest].
  rewrite Hget.
  change (getIssuerSpec (withPKISide env configMaps secrets unmarshal w) cr)
    with (getIssuerSpec env cr).
  rewrite Hspec.
  assert (match
            bool_decide ((if bool_decide (SignerType issuerSpec = "") then "mockca"
                          else SignerType issuerSpec) = "pki"),
            ConfigMapRef issuerSpec
          with
          | true, Some _ => false
          | _, _ => true
          end = true) as Hbranch.
  { destruct Hmock as [Hm | ->]; [|by destruct (bool_decide _)].
    rewrite (bool_decide_eq_false_2 (_ = "pki")); [done |]. by case_bool_decide. }
  cbv zeta.
  destruct (bool_decide ((if bool_decide (SignerType issuerSpec = "") then "mockca"
                          else SignerType issuerSpec) = "pki"));
    [destruct (ConfigMapRef issuerSpec); [done |] |]; reflexivity.
Qed.

Lemma Reconcile_mock_noninterference_witness :
  Reconcile
    (withPKISide (pkiWithoutConfigEnv (requestWith [approved] ""))
       (λ _, Panic) (λ _, Panic) (λ _, Panic)
       (Signer.stubWorld Signer.exampleCSR None (Signer.okResponse Signer.threeBlocks) map_to_list))
    exampleKey
  = Reconcile (pkiWithoutConfigEnv (requestWith [approved] "")) exampleKey.
Proof.
  apply (Reconcile_mock_noninterference (pkiWithoutConfigEnv (requestWith [approved] ""))
           exampleKey (requestWith [approved] "") (IssuerSpec pkiWithoutConfig)
           (λ _, Panic) (λ _, Panic) (λ _, Panic)
           (Signer.stubWorld Signer.exampleCSR None (Signer.okResponse Signer.threeBlocks) map_to_list)
           eq_refl eq_refl).
  by right.
Defined.

(** X18: [getIssuerSpec] answers with a spec only for an issuer that it
    found and that is ready: the cluster issuer of the referenced name
    when the kind is [ExternalClusterIssuer], otherwise the issuer of that
    name in the namespace of the request, whatever the kind says; and the
    issuer has a Ready condition with the status [True]. *)
Theorem getIssuerSpec_Ok_inv (env : Env) (cr : CertificateRequest)
    (issuerSpec : ExternalIssuerSpec) :
  getIssuerSpec env cr = Ok issuerSpec →
  ∃ issuer,
    (if bool_decide (RefKind (IssuerRef cr) = "ExternalClusterIssuer")
     then getClusterIssuer env {| nnNamespace := ""; nnName := RefName (IssuerRef cr) |}
     else getIssuer env {| nnNamespace := Namespace cr;
                           nnName := RefName (IssuerRef cr) |}) = Ok issuer
    ∧ issuerSpec = IssuerSpec issuer
    ∧ ∃ c, c ∈ IssuerConditions issuer ∧ Type_ c = "Ready" ∧ Status c = "True".
Proof.
  unfold getIssuerSpec. change clusterIssuerKind with "ExternalClusterIssuer".
  assert (∀ issuer, isIssuerReady (IssuerConditions issuer) = true →
            ∃ c, c ∈ IssuerConditions issuer ∧ Type_ c = "Ready" ∧ Status c = "True")
    as Hready.
  { intros issuer (c & Hc & H)%existsb_elem_of. exists c. split; [done |].
    by apply andb_true_iff in H as [?%bool_decide_eq_true ?%bool_decide_eq_true]. }
  destruct (bool_decide (RefKind (IssuerRef cr) = "ExternalClusterIssuer")).
  - destruct (getClusterIssuer env _) as [issuer | |]; [|done..].
    destruct (isIssuerReady (IssuerConditions issuer)) eqn:Hr; [|done].
    intros [= <-]. exists issuer. split_and!; try done. by apply Hready.
  - destruct (getIssuer env _) as [issuer | |]; [|done..].
    destruct (isIssuerReady (IssuerConditions issuer)) eqn:Hr; [|done].
    intros [= <-]. exists issuer. split_and!; try done. by apply Hready.
Qed.

Lemma getIssuerSpec_Ok_inv_witness :
  ∃ issuer,
    (if bool_decide (RefKind (IssuerRef (requestWith [approved] ""))
                     = "ExternalClusterIssuer")
     then getClusterIssuer (exampleEnv (requestWith [approved] ""))
            {| nnNamespace := "";
               nnName := RefName (IssuerRef (requestWith [approved] "")) |}
     else getIssuer (exampleEnv (requestWith [approved] ""))
            {| nnNamespace := Namespace (requestWith [approved] "");
               nnName := RefName (IssuerRef (requestWith [approved] "")) |}) = Ok issuer
    ∧ IssuerSpec readyIssuer = IssuerSpec issuer
    ∧ ∃ c, c ∈ IssuerConditions issuer ∧ Type_ c = "Ready" ∧ Status c = "True".
Proof.
  by apply (getIssuerSpec_Ok_inv (exampleEnv (requestWith [approved] ""))
              (requestWith [approved] "") (IssuerSpec readyIssuer)).
Defined.

End ControllersProps.

(** ** The legacy front-end: state and retrieval *)

Module MockCAProps.
Import GoStrings MockCA MockCAAux MockCAFacts.
Import Signer (result, Ok, Err, Panic, CommonName, wrap64).
Import X509 (Lib, Draw, x509_CreateCertificate, rsa_PublicKey, pem_EncodeToMemory,
             drawSerial, drawKey).

(** What an issuance does to the state. *)
Lemma issueCertificate_cases (lib : Lib) (ca : MockCA) (d : Draw)
    (subjectDN : string) (subject : Signer.Name) (cn : string) (dnsNames : list string) :
  (∃ msg, issueCertificate lib ca d subjectDN subject cn dnsNames
          = (ca, httpError msg StatusInternalServerError))
  ∨ (∃ certPEM keyPEM,
       issueCertificate lib ca d subjectDN subject cn dnsNames
       = ({| caCert := caCert ca; caKey := caKey ca; caPEM := caPEM ca;
             config := config ca; signCount := wrap64 (signCount ca + 1);
             certStore :=
               <[cn := {| CertPEM := certPEM; KeyPEM := Some keyPEM; CSR := None;
                          Subject := subjectDN |}]> (certStore ca) |},
          pemResponse (certPEM +:+ caPEM ca))).
Proof.
  unfold issueCertificate.
  destruct (drawSerial d); [|left; eauto..].
  destruct (drawKey d); [|left; eauto..].
  destruct (x509_CreateCertificate _ _ _ _ _); [|left; eauto..].
  right. eauto.
Qed.

(** Every way in which the handler ends: the state is untouched, or a
    certificate was issued for a Common Name. *)
Lemma handlePKISign_cases (lib : Lib) (ca : MockCA) (d : Draw) (r : Request) :
  (handlePKISign lib ca d r).1 = ca
  ∨ (∃ body cn certPEM keyPEM,
       ReqBody r = Ok body ∧ cn = commonNameOf body ∧ cn ≠ ""
       ∧ asksRetrieval body = false
       ∧ handlePKISign lib ca d r
         = ({| caCert := caCert ca; caKey := caKey ca; caPEM := caPEM ca;
               config := config ca; signCount := wrap64 (signCount ca + 1);
               certStore :=
                 <[cn := {| CertPEM := certPEM; KeyPEM := Some keyPEM; CSR := None;
                            Subject := subjectOf body |}]> (certStore ca) |},
            pemResponse (certPEM +:+ caPEM ca))).
Proof.
  unfold handlePKISign.
  destruct (bool_decide (ReqMethod r ≠ "POST")); [by left |].
  destruct (ReqBody r) as [body | |] eqn:Hbody; [|by left..].
  cbv zeta. fold (subjectOf body).
  destruct (bool_decide (subjectOf body = "")); [by left |].
  fold (commonNameOf body). unfold asksRetrieval.
  destruct (bool_decide (commonNameOf body = "")) eqn:Hcn; [by left |].
  apply bool_decide_eq_false in Hcn.
  destruct (bool_decide (is_Some (parsePKIParams body !! "getCERT"))) eqn:H1;
    [by destruct (certStore ca !! commonNameOf body); left |].
  destruct (bool_decide (is_Some (parsePKIParams body !! "getKEY"))) eqn:H2;
    [by destruct (certStore ca !! commonNameOf body) as [[? [?|] ? ?]|]; left |].
  destruct (bool_decide (is_Some (parsePKIParams body !! "getCSR"))) eqn:H3;
    [by destruct (certStore ca !! commonNameOf body) as [[? ? [?|] ?]|]; left |].
  destruct (if _ && _ then _ else _); [by left |].
  destruct (issueCertificate_cases lib ca d (subjectOf body) (parseDN (subjectOf body))
              (commonNameOf body)
              (collectDNSNames (commonNameOf body) (parsePKIParams body)))
    as [(msg & ->) | (certPEM & keyPEM & ->)]; [by left |].
  right. exists body, (commonNameOf body), certPEM, keyPEM.
  split_and!; try done. by rewrite H1, H2, H3.
Qed.


Lemma noCSR_spec (ca : MockCA) :
  noCSR ca = true ↔ ∀ cn stored, certStore ca !! cn = Some stored → CSR stored = None.
Proof. unfold noCSR. by rewrite bool_decide_eq_true. Qed.

(** X20: the front-end never serves a CSR.  In a store without CSRs, as
    the empty store of a new CA is, the handler keeps the store without
    CSRs, and a request that asks for the CSR, and for neither the
    certificate nor the key, is not answered with 200. *)
Theorem handlePKISign_no_CSR (lib : Lib) (ca : MockCA) (d : Draw) (r : Request) :
  noCSR ca = true →
  noCSR (handlePKISign lib ca d r).1 = true
  ∧ ∀ body,
      ReqBody r = Ok body →
      parsePKIParams body !! "getCERT" = None →
      parsePKIParams body !! "getKEY" = None →
      is_Some (parsePKIParams body !! "getCSR") →
      StatusCode (handlePKISign lib ca d r).2 ≠ StatusOK.
Proof.
  intros Hno. split.
  - destruct (handlePKISign_cases lib ca d r)
      as [-> | (body & cn & certPEM & keyPEM & _ & _ & _ & _ & ->)]; [done |].
    apply noCSR_spec. intros cn' stored. simpl. rewrite lookup_insert.
    case_decide; [by intros [= <-] |]. by apply noCSR_spec.
  - intros body Hbody Hcert Hkey Hcsr. unfold handlePKISign. rewrite Hbody.
    destruct (bool_decide (ReqMethod r ≠ "POST")); [done |].
    cbv zeta. fold (subjectOf body).
    destruct (bool_decide (subjectOf body = "")); [done |].
    fold (commonNameOf body).
    destruct (bool_decide (commonNameOf body = "")); [done |].
    rewrite Hcert, Hkey.
    rewrite (bool_decide_eq_false_2 (is_Some None)) by (by intros [? ?]).
    rewrite (bool_decide_eq_true_2 _ Hcsr).
    destruct (certStore ca !! commonNameOf body) as [[c k csr sub]|] eqn:Hst; [|done].
    apply (proj1 (noCSR_spec ca) Hno) in Hst. simpl in Hst. by rewrite Hst.
Qed.

Lemma handlePKISign_no_CSR_witness :
  noCSR (handlePKISign textLib caWithTestCom (drawOf 8)
           (legacyRequest "subject=/CN=test.com;getCSR")).1 = true
  ∧ ∀ body,
      ReqBody (legacyRequest "subject=/CN=test.com;getCSR") = Ok body →
      parsePKIParams body !! "getCERT" = None →
      parsePKIParams body !! "getKEY" = None →
      is_Some (parsePKIParams body !! "getCSR") →
      StatusCode (handlePKISign textLib caWithTestCom (drawOf 8)
                    (legacyRequest "subject=/CN=test.com;getCSR")).2 ≠ StatusOK.
Proof.
  apply (handlePKISign_no_CSR textLib caWithTestCom (drawOf 8)
           (legacyRequest "subject=/CN=test.com;getCSR")).
  by vm_compute.
Defined.

(** X21: what was issued can be retrieved.  After a request without a
    retrieval parameter that was answered with 200, a [getCERT] request
    for the same Common Name is answered with the certificate part of that
    answer, without the CA certificate, and leaves the state as it is. *)
Theorem getCERT_after_issue (lib : Lib) (ca ca' : MockCA) (d d' : Draw) (b b' : string)
    (resp : Response) :
  asksRetrieval b = false →
  handlePKISign lib ca d (legacyRequest b) = (ca', resp) →
  StatusCode resp = StatusOK →
  commonNameOf b' = commonNameOf b →
  is_Some (parsePKIParams b' !! "getCERT") →
  ∃ certPEM,
    handlePKISign lib ca' d' (legacyRequest b') = (ca', pemResponse certPEM)
    ∧ Body resp = certPEM +:+ caPEM ca.
Proof.
  intros Hr H H200 Hcn Hget.
  destruct (decide (commonNameOf b = "")) as [E | Hne].
  { pose proof (handlePKISign_without_cn lib ca d b E) as Hbad.
    rewrite H in Hbad. simpl in Hbad. by rewrite H200 in Hbad. }
  assert (∃ stored, certStore ca' !! commonNameOf b = Some stored
                    ∧ Body resp = CertPEM stored +:+ caPEM ca) as (stored & Hst & Hbody).
  { rewrite handlePKISign_main in H by done.
    destruct (if asksNew b && negb (asksRenew b) then _ else _) as [stored|] eqn:Es.
    - simplify_eq. exists stored. split; [|done].
      by destruct (asksNew b && negb (asksRenew b)).
    - destruct (issueCertificate_cases lib ca d (subjectOf b) (parseDN (subjectOf b))
                  (commonNameOf b) (collectDNSNames (commonNameOf b) (parsePKIParams b)))
        as [(msg & Hi) | (certPEM & keyPEM & Hi)]; rewrite Hi in H; simplify_eq.
      eexists. simpl. by rewrite lookup_insert_eq. }
  exists (CertPEM stored). split; [|done].
  unfold handlePKISign. simpl. fold (subjectOf b').
  assert (subjectOf b' ≠ "") as Hs.
  { intros E. apply Hne. rewrite <- Hcn. unfold commonNameOf. by rewrite E. }
  rewrite (bool_decide_eq_false_2 _ Hs). fold (commonNameOf b'). rewrite Hcn.
  rewrite (bool_decide_eq_false_2 _ Hne), (bool_decide_eq_true_2 _ Hget).
  by rewrite Hst.
Qed.

Lemma getCERT_after_issue_witness :
  ∃ certPEM,
    handlePKISign textLib caWithTestCom (drawOf 9)
      (legacyRequest "subject=/CN=test.com;getCERT")
    = (caWithTestCom, pemResponse certPEM)
    ∧ Body (pemResponse "[CERTIFICATE:serial=7,CN=test.com][CERTIFICATE:ca]")
      = certPEM +:+ caPEM freshCA.
Proof.
  apply (getCERT_after_issue textLib freshCA caWithTestCom (drawOf 7) (drawOf 9)
           "new=1;subject=/C=US/O=Example/CN=test.com;DNS2=test2.com"
           "subject=/CN=test.com;getCERT"
           (pemResponse "[CERTIFICATE:serial=7,CN=test.com][CERTIFICATE:ca]")
           eq_refl eq_refl eq_refl eq_refl).
  vm_compute. by eexists.
Defined.

(** X22: the SAN list of the handler starts with the Common Name and has
    at most 19 further names, each the non-empty value of one of the
    parameters [DNS2] to [DNS20]. *)
Theorem collectDNSNames_shape (cn : string) (params : gmap string string) :
  ∃ rest,
    collectDNSNames cn params = cn :: rest
    ∧ (length rest ≤ 19)%nat
    ∧ Forall (λ dns, dns ≠ ""
                     ∧ ∃ i : Z, (2 ≤ i ≤ 20)%Z ∧ params !! ("DNS" +:+ pretty i) = Some dns)
        rest.
Proof.
  unfold collectDNSNames.
  assert (∀ (idx : list Z) (acc : list string),
            Forall (λ i, 2 ≤ i ≤ 20)%Z idx →
            ∃ more,
              foldl (λ dnsNames (i : Z),
                       match params !! ("DNS" +:+ pretty i) with
                       | Some dns =>
                           if bool_decide (dns ≠ "") then dnsNames ++ [dns] else dnsNames
                       | None => dnsNames
                       end) acc idx = acc ++ more
              ∧ (length more ≤ length idx)%nat
              ∧ Forall (λ dns, dns ≠ ""
                               ∧ ∃ i : Z, (2 ≤ i ≤ 20)%Z
                                          ∧ params !! ("DNS" +:+ pretty i) = Some dns)
                  more) as Hfold.
  { induction idx as [|i idx IH]; intros acc Hidx.
    - exists []. by rewrite app_nil_r.
    - apply Forall_cons in Hidx as [Hi Hidx]. cbn [foldl].
      destruct (params !! ("DNS" +:+ pretty i)) as [dns|] eqn:Hdns;
        [case_bool_decide as Hne |].
      + destruct (IH (acc ++ [dns]) Hidx) as (more & -> & Hlen & Hall).
        exists (dns :: more). rewrite <- app_assoc. split; [done |].
        split; [simpl; lia |]. apply Forall_cons. eauto.
      + destruct (IH acc Hidx) as (more & -> & Hlen & Hall).
        exists more. split; [done |]. split; [simpl; lia | done].
      + destruct (IH acc Hidx) as (more & -> & Hlen & Hall).
        exists more. split; [done |]. split; [simpl; lia | done]. }
  destruct (Hfold (seqZ 2 19) [cn]) as (more & -> & Hlen & Hall).
  { apply Forall_forall. intros i Hi%elem_of_seqZ. lia. }
  exists more. split; [done |]. split; [|done].
  by rewrite length_seqZ in Hlen.
Qed.

End MockCAProps.

(** ** The mock CA signer: initialization and issuance *)

Module MockSignerProps.
Import GoStrings MockSigner MockSignerAux.
Import Signer (result, Ok, Err, Panic, World, pem_Decode, x509_ParseCertificateRequest,
               x509_CheckSignature, Bytes).
Import X509 (Lib, Draw, drawSerial, drawKey, x509_CreateCertificate, x509_ParseCertificate,
             x509_MarshalPKCS1PrivateKey, rsa_PublicKey, pem_EncodeToMemory).

(** Every way in which [ensureCA] ends. *)
Lemma ensureCA_cases (lib : Lib) (s : MockCASigner) (d : Draw) :
  (generated s = true ∧ ensureCA lib s d = (s, Ok tt))
  ∨ (generated s = false
     ∧ ((∃ r, r ≠ Ok tt ∧ ensureCA lib s d = (s, r))
        ∨ (∃ e, ensureCA lib s d
                = ({| caCert := None; caKey := caKey s; caPEM := caPEM s;
                      caKeyPEM := caKeyPEM s; generated := false |}, Err e))
        ∨ (∃ key serial der parsed,
             drawKey d = Ok key ∧ drawSerial d = Ok serial
             ∧ x509_CreateCertificate lib (caTemplate lib d serial) X509.SelfSigned
                 (rsa_PublicKey lib key) key = Ok der
             ∧ x509_ParseCertificate lib der = Ok parsed
             ∧ ensureCA lib s d
               = ({| caCert := Some parsed; caKey := Some key;
                     caPEM := Some (pem_EncodeToMemory lib "CERTIFICATE" der);
                     caKeyPEM :=
                       Some (pem_EncodeToMemory lib "RSA PRIVATE KEY"
                               (x509_MarshalPKCS1PrivateKey lib key));
                     generated := true |}, Ok tt)))).
Proof.
  unfold ensureCA. destruct (generated s); [by left |]. right. split; [done |].
  destruct (drawKey d) as [key | e |];
    [|left; eexists; (split; [|reflexivity]); done..].
  destruct (drawSerial d) as [serial | e |];
    [|left; eexists; (split; [|reflexivity]); done..].
  destruct (x509_CreateCertificate _ _ _ _ _) as [der | e |] eqn:Hder;
    [|left; eexists; (split; [|reflexivity]); done..].
  destruct (x509_ParseCertificate lib der) as [parsed | e |] eqn:Hparse.
  - right; right. by exists key, serial, der, parsed.
  - right; left. by eexists.
  - left. eexists. split; [|reflexivity]. done.
Qed.

(** X23: the CA is generated once.  When [ensureCA] returns nil the
    signer is generated, and every later [ensureCA] returns nil and leaves
    the signer as it is, whatever the random source gives then.  When it
    returns an error the signer was not generated and is not generated
    afterwards, and its key and PEM fields are untouched, so that the next
    call starts over. *)
Theorem ensureCA_outcome (lib : Lib) (s : MockCASigner) (d : Draw) :
  let s' := (ensureCA lib s d).1 in
  let r := (ensureCA lib s d).2 in
  (r = Ok tt → generated s' = true ∧ ∀ d', ensureCA lib s' d' = (s', Ok tt))
  ∧ (r ≠ Ok tt →
     generated s = false ∧ generated s' = false
     ∧ caKey s' = caKey s ∧ caPEM s' = caPEM s ∧ caKeyPEM s' = caKeyPEM s).
Proof.
  intros s' r. subst s' r.
  destruct (ensureCA_cases lib s d)
    as [[Hg ->] | [Hg [(r & Hr & ->) | [(e & ->)
        | (key & serial & der & parsed & _ & _ & _ & _ & ->)]]]]; simpl.
  - split; [|done]. intros _. split; [done |]. intros d'. unfold ensureCA. by rewrite Hg.
  - split; [done |]. by intros _.
  - split; [done |]. by intros _.
  - split; [|done]. intros _. split; [done |]. intros d'. reflexivity.
Qed.

(** What a successful [Sign] went through. *)
Lemma Sign_Ok_steps (w : World) (lib : Lib) (s : MockCASigner) (dCA d : Draw)
    (csrPEM : string) (days : Z) (cert : string) (chain : option string) :
  (Sign w lib s dCA d csrPEM days).2 = Ok (cert, chain) →
  let s' := (ensureCA lib s dCA).1 in
  (ensureCA lib s dCA).2 = Ok tt
  ∧ (Sign w lib s dCA d csrPEM days).1 = s'
  ∧ chain = caPEM s'
  ∧ ∃ block csr serial parent key der,
      pem_Decode w csrPEM = Some block
      ∧ x509_ParseCertificateRequest w (Bytes block) = Ok csr
      ∧ x509_CheckSignature w csr = None
      ∧ drawSerial d = Ok serial
      ∧ caCert s' = Some parent ∧ caKey s' = Some key
      ∧ x509_CreateCertificate lib (leafTemplate lib d serial csr days)
          (X509.IssuedBy parent) (Signer.PublicKey csr) key = Ok der
      ∧ cert = pem_EncodeToMemory lib "CERTIFICATE" der.
Proof.
  unfold Sign. destruct (ensureCA lib s dCA) as [s' [[] | e |]]; [|done..]. simpl.
  destruct (pem_Decode w csrPEM) as [block|] eqn:Hd; [|done].
  destruct (x509_ParseCertificateRequest w (Bytes block)) as [csr | e |] eqn:Hp; [|done..].
  destruct (x509_CheckSignature w csr) eqn:Hs; [done |].
  destruct (drawSerial d) as [serial | e |] eqn:Hn; [|done..].
  destruct (caCert s') as [parent|] eqn:Hc; [|done].
  destruct (caKey s') as [key|] eqn:Hk; [|done].
  destruct (x509_CreateCertificate _ _ _ _ _) as [der | e |] eqn:Hder; [|done..].
  simpl. intros [= <- <-]. split_and!; try done.
  by exists block, csr, serial, parent, key, der.
Qed.

(** X24: the mock CA signer issues only for a CSR whose signature it
    checked.  When [Sign] returns a certificate, the CA was ready, the
    CSR decoded and parsed and its signature check returned nil, and the
    certificate is the PEM form of what [x509.CreateCertificate] made from
    the leaf template, the public key of the CSR, and the CA certificate
    and key of the signer; the chain is the CA certificate of the
    signer. *)
Theorem MockSign_Ok_inv (w : World) (lib : Lib) (s : MockCASigner) (dCA d : Draw)
    (csrPEM : string) (days : Z) (cert : string) (chain : option string) :
  (Sign w lib s dCA d csrPEM days).2 = Ok (cert, chain) →
  let s' := (Sign w lib s dCA d csrPEM days).1 in
  generated s' = true
  ∧ chain = caPEM s'
  ∧ ∃ block csr serial parent key der,
      pem_Decode w csrPEM = Some block
      ∧ x509_ParseCertificateRequest w (Bytes block) = Ok csr
      ∧ x509_CheckSignature w csr = None
      ∧ drawSerial d = Ok serial
      ∧ caCert s' = Some parent ∧ caKey s' = Some key
      ∧ x509_CreateCertificate lib (leafTemplate lib d serial csr days)
          (X509.IssuedBy parent) (Signer.PublicKey csr) key = Ok der
      ∧ cert = pem_EncodeToMemory lib "CERTIFICATE" der.
Proof.
  intros H s'. subst s'.
  destruct (Sign_Ok_steps _ _ _ _ _ _ _ _ _ H) as (Hca & -> & Hchain & Hsteps).
  split; [|by split].
  destruct (ensureCA_cases lib s dCA)
    as [[Hg E] | [Hg [(r & Hr & E) | [(e & E)
        | (key & serial & der & parsed & _ & _ & _ & _ & E)]]]];
    rewrite E in Hca |- *; simpl in *; done.
Qed.

Lemma MockSign_Ok_inv_witness :
  let s' := (Sign goodWorld MockCA.textLib (NewMockCASigner "http://mockca")
               (MockCA.drawOf 1) (MockCA.drawOf 2) "csr" 365).1 in
  generated s' = true
  ∧ Some "[CERTIFICATE:serial=1,CN=External Issuer Mock CA]" = caPEM s'
  ∧ ∃ block csr serial parent key der,
      pem_Decode goodWorld "csr" = Some block
      ∧ x509_ParseCertificateRequest goodWorld (Bytes block) = Ok csr
      ∧ x509_CheckSignature goodWorld csr = None
      ∧ drawSerial (MockCA.drawOf 2) = Ok serial
      ∧ caCert s' = Some parent ∧ caKey s' = Some key
      ∧ x509_CreateCertificate MockCA.textLib
          (leafTemplate MockCA.textLib (MockCA.drawOf 2) serial csr 365)
          (X509.IssuedBy parent) (Signer.PublicKey csr) key = Ok der
      ∧ "[CERTIFICATE:serial=2,CN=example.com]"
        = pem_EncodeToMemory MockCA.textLib "CERTIFICATE" der.
Proof.
  exact (MockSign_Ok_inv goodWorld MockCA.textLib (NewMockCASigner "http://mockca")
           (MockCA.drawOf 1) (MockCA.drawOf 2) "csr" 365
           "[CERTIFICATE:serial=2,CN=example.com]"
           (Some "[CERTIFICATE:serial=1,CN=External Issuer Mock CA]") eq_refl).
Defined.

(** X25: a signer made by [NewMockCASigner] has no CA of its own: the URL
    is ignored, and a [Sign] that succeeds on it has drawn a new CA key and
    serial number, self-signed the CA certificate from them, and signed the
    leaf with that key; the chain that it returns is that new CA
    certificate. *)
Theorem Sign_new_signer (w : World) (lib : Lib) (baseURL : string) (dCA d : Draw)
    (csrPEM : string) (days : Z) (cert : string) (chain : option string) :
  (Sign w lib (NewMockCASigner baseURL) dCA d csrPEM days).2 = Ok (cert, chain) →
  ∃ caPrivKey caSerial caCertDER parsed csr serial der,
    drawKey dCA = Ok caPrivKey ∧ drawSerial dCA = Ok caSerial
    ∧ x509_CreateCertificate lib (caTemplate lib dCA caSerial) X509.SelfSigned
        (rsa_PublicKey lib caPrivKey) caPrivKey = Ok caCertDER
    ∧ x509_ParseCertificate lib caCertDER = Ok parsed
    ∧ chain = Some (pem_EncodeToMemory lib "CERTIFICATE" caCertDER)
    ∧ drawSerial d = Ok serial
    ∧ x509_CreateCertificate lib (leafTemplate lib d serial csr days)
        (X509.IssuedBy parsed) (Signer.PublicKey csr) caPrivKey = Ok der
    ∧ cert = pem_EncodeToMemory lib "CERTIFICATE" der.
Proof.
  intros H.
  destruct (Sign_Ok_steps _ _ _ _ _ _ _ _ _ H)
    as (Hca & _ & Hchain & block & csr & serial & parent & key & der
        & _ & _ & _ & Hn & Hc & Hk & Hder & Hcert).
  destruct (ensureCA_cases lib (NewMockCASigner baseURL) dCA)
    as [[Hg E] | [Hg [(r & Hr & E) | [(e & E)
        | (caPrivKey & caSerial & caCertDER & parsed & H1 & H2 & H3 & H4 & E)]]]];
    rewrite E in Hca, Hchain, Hc, Hk; simpl in *; try done.
  simplify_eq. by exists key, caSerial, caCertDER, parent, csr, serial, der.
Qed.

Lemma Sign_new_signer_witness :
  ∃ caPrivKey caSerial caCertDER parsed csr serial der,
    drawKey (MockCA.drawOf 1) = Ok caPrivKey ∧ drawSerial (MockCA.drawOf 1) = Ok caSerial
    ∧ x509_CreateCertificate MockCA.textLib
        (caTemplate MockCA.textLib (MockCA.drawOf 1) caSerial) X509.SelfSigned
        (rsa_PublicKey MockCA.textLib caPrivKey) caPrivKey = Ok caCertDER
    ∧ x509_ParseCertificate MockCA.textLib caCertDER = Ok parsed
    ∧ Some "[CERTIFICATE:serial=1,CN=External Issuer Mock CA]"
      = Some (pem_EncodeToMemory MockCA.textLib "CERTIFICATE" caCertDER)
    ∧ drawSerial (MockCA.drawOf 2) = Ok serial
    ∧ x509_CreateCertificate MockCA.textLib
        (leafTemplate MockCA.textLib (MockCA.drawOf 2) serial csr 365)
        (X509.IssuedBy parsed) (Signer.PublicKey csr) caPrivKey = Ok der
    ∧ "[CERTIFICATE:serial=2,CN=example.com]"
      = pem_EncodeToMemory MockCA.textLib "CERTIFICATE" der.
Proof.
  exact (Sign_new_signer goodWorld MockCA.textLib "http://mockca"
           (MockCA.drawOf 1) (MockCA.drawOf 2) "csr" 365
           "[CERTIFICATE:serial=2,CN=example.com]"
           (Some "[CERTIFICATE:serial=1,CN=External Issuer Mock CA]") eq_refl).
Defined.

End MockSignerProps.

(** ** The adapter in front of the legacy front-end *)

Module EndToEndProps.
Import GoStrings GoStringsFacts RoundTripAux RoundTripProps.
Import MockCA MockCAFacts.
Import Signer (World, PKISigner, Values, ValuesSet, sanLoop, sanKey, reached, requestBody,
               buildRequestParams, buildSubjectDN, buildSubjectDNSlash, range_ok,
               scenarioParameters, Parameters, wrap64).
Import X509 (Lib, Draw).

(** The parameters before the SAN loop, under the scenario's
    configuration. *)
Lemma buildRequestParams_scenario (s : PKISigner) (csr : Signer.CertificateRequest) :
  Parameters (Signer.config s) = scenarioParameters →
  buildSubjectDNSlash s csr ≠ "" →
  buildRequestParams s csr
  = sanLoop "DNS" 2 20 0 (Signer.DNSNames csr)
      (<["subject" := [buildSubjectDNSlash s csr]]> (<["new" := ["1"]]> ∅)).
Proof.
  intros Hcfg Hdn. unfold buildRequestParams, buildSubjectDN. rewrite Hcfg.
  cbn [scenarioParameters Signer.NewCertParam Signer.NewCertValue Signer.SubjectParam
       Signer.SubjectDNFormat Signer.DNSPrefix Signer.GetCertParam].
  change (Signer.effectiveStart scenarioParameters) with 2%Z.
  change (Signer.effectiveMax scenarioParameters) with 20%Z.
  rewrite (bool_decide_eq_true_2 ("new" ≠ "")) by done.
  rewrite (bool_decide_eq_true_2 ("subject" ≠ "")) by done.
  rewrite (bool_decide_eq_true_2 ("slash" = "slash")) by done.
  rewrite (bool_decide_eq_true_2 _ Hdn).
  rewrite (bool_decide_eq_true_2 ("DNS" ≠ "")) by done.
  rewrite (bool_decide_eq_false_2 ("" ≠ "")) by (by intros H; apply H).
  unfold ValuesSet. cbn [andb]. rewrite andb_true_r.
  case_bool_decide as Hlen; [done |].
  by destruct (Signer.DNSNames csr); [| simpl in Hlen; lia].
Qed.

Lemma plainKey_DNS (j : nat) : (j < 20)%nat → plainKey (sanKey "DNS" (2 + Z.of_nat j)) = true.
Proof.
  intros Hj. do 20 (destruct j as [|j]; [by vm_compute |]). lia.
Qed.

Lemma key_not_DNS (k : string) (c : ascii) (k' : string) (i : Z) :
  k = String c k' → c ≠ "D"%char → k ≠ "DNS" +:+ pretty i.
Proof. intros -> Hc E. rewrite !str_app_cons in E. by simplify_eq. Qed.

Section Body.
Context (w : World) (s : PKISigner) (csr : Signer.CertificateRequest).
Context (Hcfg : Parameters (Signer.config s) = scenarioParameters).
Context (Hrange : range_ok w (buildRequestParams s csr)).
Context (Hplain : plainValue (buildSubjectDNSlash s csr) = true).
Context (Hdn : buildSubjectDNSlash s csr ≠ "").
Context (Hdns : forallb plainValue (Signer.DNSNames csr) = true).

Local Abbreviation dn := (buildSubjectDNSlash s csr).
Local Abbreviation names := (Signer.DNSNames csr).
Local Abbreviation params := (buildRequestParams s csr).
Local Abbreviation body := (requestBody w s (buildRequestParams s csr)).
Local Abbreviation base := (<["subject" := [buildSubjectDNSlash s csr]]>
                          (<["new" := ["1"]]> (∅ : Values))).

Lemma base_lookup (k : string) (vs : list string) :
  base !! k = Some vs → (k = "subject" ∧ vs = [dn]) ∨ (k = "new" ∧ vs = ["1"]).
Proof.
  rewrite lookup_insert. case_decide; [intros [= <-]; by left |].
  rewrite lookup_insert. case_decide; [intros [= <-]; by right |].
  by rewrite lookup_empty.
Qed.

Lemma reached_names : reached 20 0 names = Nat.min (length names) 20.
Proof. unfold reached. by rewrite Z.sub_0_r. Qed.

(** The parameters that the adapter sets, key by key. *)
Lemma params_lookup (k : string) (vs : list string) :
  params !! k = Some vs →
  (k = "subject" ∧ vs = [dn]) ∨ (k = "new" ∧ vs = ["1"])
  ∨ ∃ (j : nat) (dns : string),
      (j < 20)%nat ∧ names !! j = Some dns
      ∧ k = sanKey "DNS" (2 + Z.of_nat j) ∧ vs = [dns].
Proof.
  rewrite (buildRequestParams_scenario s csr Hcfg Hdn). intros Hk.
  destruct (SignerFacts.sanLoop_keys "DNS" 2 20 names 0 base k) as [Hb | (j & Hj & ->)];
    [by rewrite Hk | |].
  - rewrite SignerFacts.sanLoop_lookup_other in Hk.
    + destruct (base_lookup _ _ Hk); tauto.
    + intros j _. destruct Hb as [vs' [[-> _] | [-> _]]%base_lookup];
        by eapply key_not_DNS.
  - rewrite reached_names in Hj.
    destruct (names !! j) as [dns|] eqn:Hn;
      [|apply lookup_ge_None in Hn; lia].
    rewrite !Z.add_0_l in Hk |- *.
    rewrite SignerFacts.wrap64_small in Hk |- * by lia.
    pose proof (SignerFacts.sanLoop_lookup "DNS" 2 20 names 0 base j dns) as Hl.
    rewrite Z.add_0_l in Hl. unfold sanKey in Hl.
    rewrite Hl in Hk; [| lia | rewrite reached_names; lia | rewrite reached_names; lia
                       | done].
    simplify_eq. right; right. exists j, dns. split_and!; try done. lia.
Qed.

Lemma params_plain : forallb plainEntry (map_to_list params) = true.
Proof.
  apply forallb_forall. intros [k vs] Hin%list_elem_of_In%elem_of_map_to_list.
  destruct (params_lookup _ _ Hin)
    as [[-> ->] | [[-> ->] | (j & dns & Hj & Hn & -> & ->)]].
  - unfold plainEntry. cbn [fst snd]. by rewrite Hplain.
  - done.
  - unfold plainEntry. cbn [fst snd]. rewrite (plainKey_DNS j Hj).
    apply (proj1 (forallb_forall _ _) Hdns). by eapply list_elem_of_In, list_elem_of_lookup_2.
Qed.

(** The parameters that the front-end reads from the body. *)
Lemma body_lookup (k v : string) :
  parsePKIParams body !! k = Some v ↔ ∃ vs, params !! k = Some vs ∧ head vs = Some v.
Proof. apply parsePKIParams_requestBody; [by rewrite Hcfg | done | apply params_plain]. Qed.

Lemma body_subject : parsePKIParams body !! "subject" = Some dn.
Proof.
  apply body_lookup. exists [dn]. split; [|done].
  rewrite (buildRequestParams_scenario s csr Hcfg Hdn).
  rewrite SignerFacts.sanLoop_lookup_other; [by rewrite lookup_insert_eq |].
  intros j _. by eapply key_not_DNS.
Qed.

Lemma body_new : parsePKIParams body !! "new" = Some "1".
Proof.
  apply body_lookup. exists ["1"]. split; [|done].
  rewrite (buildRequestParams_scenario s csr Hcfg Hdn).
  rewrite SignerFacts.sanLoop_lookup_other;
    [by rewrite lookup_insert_ne, lookup_insert_eq |].
  intros j _. by eapply key_not_DNS.
Qed.

Lemma body_other (k : string) (c : ascii) (k' : string) :
  k = String c k' → c ≠ "D"%char → k ≠ "subject" → k ≠ "new" →
  parsePKIParams body !! k = None.
Proof.
  intros Hk Hc Hs Hn. apply eq_None_not_Some. intros [v (vs & Hvs & _)%body_lookup].
  destruct (params_lookup _ _ Hvs) as [[? _] | [[? _] | (j & dns & _ & _ & E & _)]];
    [done | done |].
  by eapply (key_not_DNS k c k' (2 + Z.of_nat j)).
Qed.

Lemma body_DNS (j : nat) :
  (j < 20)%nat →
  parsePKIParams body !! ("DNS" +:+ pretty (2 + Z.of_nat j)%Z) = names !! j.
Proof.
  intros Hj. apply option_eq. intros v. rewrite body_lookup. split.
  - intros (vs & Hvs & Hv).
    destruct (params_lookup _ _ Hvs)
      as [[E _] | [[E _] | (j' & dns & _ & Hn & E & ->)]];
      [by rewrite !str_app_cons in E | by rewrite !str_app_cons in E |].
    apply SignerFacts.sanKey_inj in E. assert (j' = j) as -> by lia.
    simpl in Hv. by simplify_eq.
  - intros Hn. exists [v]. split; [|done].
    rewrite (buildRequestParams_scenario s csr Hcfg Hdn).
    pose proof (SignerFacts.sanLoop_lookup "DNS" 2 20 names 0 base j v) as Hl.
    rewrite Z.add_0_l in Hl. unfold sanKey in Hl.
    apply lookup_lt_Some in Hn as Hlen.
    apply Hl; [lia | rewrite reached_names; lia | rewrite reached_names; lia | done].
Qed.

(** The SAN list that the front-end collects from the body. *)
Lemma body_collectDNSNames (cn : string) :
  collectDNSNames cn (parsePKIParams body)
  = cn :: filter (λ dns, dns ≠ "") (take 19 names).
Proof.
  unfold collectDNSNames.
  assert (∀ (n a : nat) (acc : list string),
            (a + n ≤ 20)%nat →
            foldl (λ dnsNames (i : Z),
                     match parsePKIParams body !! ("DNS" +:+ pretty i) with
                     | Some dns =>
                         if bool_decide (dns ≠ "") then dnsNames ++ [dns] else dnsNames
                     | None => dnsNames
                     end) acc (seqZ (2 + Z.of_nat a) (Z.of_nat n))
            = acc ++ filter (λ dns, dns ≠ "") (take n (drop a names))) as Hfold.
  { induction n as [|n IH]; intros a acc Ha.
    - by rewrite take_0, app_nil_r.
    - rewrite seqZ_cons by lia. cbn [foldl].
      replace (Z.succ (2 + Z.of_nat a)) with (2 + Z.of_nat (S a))%Z by lia.
      replace (Z.pred (Z.of_nat (S n))) with (Z.of_nat n) by lia.
      rewrite body_DNS by lia. rewrite IH by lia.
      destruct (names !! a) as [dns|] eqn:Hn.
      + rewrite (drop_S _ _ _ Hn). cbn [take].
        case_bool_decide as Hne.
        * by rewrite filter_cons_True, <- app_assoc by done.
        * rewrite filter_cons_False; [done |]. by intros ?.
      + apply lookup_ge_None in Hn.
        by rewrite !drop_ge, !take_nil by lia. }
  apply (Hfold 19%nat 0%nat [cn]). lia.
Qed.

End Body.

(** X26: the adapter and the legacy front-end, end to end.  Let the signer
    be configured as in the legacy scenario (semicolon format, [new=1],
    subject in the slash format, SANs as [DNS2], [DNS3], ...), and let the
    CSR have a Common Name, plain attribute values, a subject DN without
    [;] and plain DNS names.  Then the front-end, given by POST the body
    that the adapter builds, in whatever order [range] visits the
    parameters, answers with the stored certificate of the Common Name if
    there is one, and otherwise issues for the subject of the CSR with the
    SAN list made of the Common Name and the non-empty ones of the first 19
    DNS names: a 20th DNS name is sent as [DNS21] and not read, and the
    other SANs and the public key of the CSR play no part. *)
Theorem frontend_serves_adapter (w : World) (lib : Lib) (s : PKISigner)
    (csr : Signer.CertificateRequest) (ca : MockCA) (d : Draw) :
  Parameters (Signer.config s) = scenarioParameters →
  range_ok w (buildRequestParams s csr) →
  Signer.CommonName (Signer.Subject csr) ≠ "" →
  plainName (Signer.Subject csr) = true →
  plainValue (buildSubjectDNSlash s csr) = true →
  forallb plainValue (Signer.DNSNames csr) = true →
  handlePKISign lib ca d (legacyRequest (requestBody w s (buildRequestParams s csr)))
  = match certStore ca !! Signer.CommonName (Signer.Subject csr) with
    | Some stored => (ca, pemResponse (CertPEM stored +:+ caPEM ca))
    | None =>
        issueCertificate lib ca d (buildSubjectDNSlash s csr) (Signer.Subject csr)
          (Signer.CommonName (Signer.Subject csr))
          (Signer.CommonName (Signer.Subject csr)
           :: filter (λ dns, dns ≠ "") (take 19 (Signer.DNSNames csr)))
    end.
Proof.
  intros Hcfg Hrange Hcn Hname Hplain Hdns.
  assert (parseDN (buildSubjectDNSlash s csr) = Signer.Subject csr) as Hparse.
  { rewrite parseDN_fold. unfold buildSubjectDNSlash.
    rewrite slashParts_components.
    - rewrite (Split_slash _ (noByte_components _ Hname)). by apply parseDN_components.
    - left. unfold Signer.subjectComponents. by rewrite bool_decide_eq_true_2. }
  assert (buildSubjectDNSlash s csr ≠ "") as Hdn.
  { intros E. rewrite E in Hparse. apply Hcn. by rewrite <- Hparse. }
  pose proof (body_subject w s csr Hcfg Hrange Hplain Hdn Hdns) as Hsubject.
  pose proof (body_new w s csr Hcfg Hrange Hplain Hdn Hdns) as Hnew.
  pose proof (body_other w s csr Hcfg Hrange Hplain Hdn Hdns) as Hother.
  set (body := requestBody w s (buildRequestParams s csr)) in *.
  assert (subjectOf body = buildSubjectDNSlash s csr) as Hsub
    by (unfold subjectOf; by rewrite Hsubject).
  assert (commonNameOf body = Signer.CommonName (Signer.Subject csr)) as Hcommon
    by (unfold commonNameOf; by rewrite Hsub, Hparse).
  rewrite handlePKISign_main.
  - unfold asksNew, asksRenew. rewrite Hnew.
    rewrite (Hother "renew" "r"%char "enew") by done.
    rewrite Hcommon, Hsub, Hparse. cbn [default].
    rewrite (bool_decide_eq_true_2 ("1" = "1")) by done.
    rewrite (bool_decide_eq_false_2 ("" = "1")) by done.
    cbn [andb negb]. unfold body.
    by rewrite (body_collectDNSNames w s csr Hcfg Hrange Hplain Hdn Hdns).
  - unfold asksRetrieval.
    rewrite (Hother "getCERT" "g"%char "etCERT"), (Hother "getKEY" "g"%char "etKEY"),
      (Hother "getCSR" "g"%char "etCSR") by done.
    rewrite (bool_decide_eq_false_2 (is_Some None)); [done |]. by intros [? ?].
  - by rewrite Hcommon.
Qed.

Lemma frontend_serves_adapter_witness :
  handlePKISign textLib freshCA (drawOf 7)
    (legacyRequest
       (requestBody RoundTripAux.reverseWorld Signer.scenarioSigner
          (buildRequestParams Signer.scenarioSigner richCSR)))
  = match certStore freshCA !! Signer.CommonName (Signer.Subject richCSR) with
    | Some stored => (freshCA, pemResponse (CertPEM stored +:+ caPEM freshCA))
    | None =>
        issueCertificate textLib freshCA (drawOf 7)
          (buildSubjectDNSlash Signer.scenarioSigner richCSR) (Signer.Subject richCSR)
          (Signer.CommonName (Signer.Subject richCSR))
          (Signer.CommonName (Signer.Subject richCSR)
           :: filter (λ dns, dns ≠ "") (take 19 (Signer.DNSNames richCSR)))
    end.
Proof.
  apply (frontend_serves_adapter RoundTripAux.reverseWorld textLib Signer.scenarioSigner
           richCSR freshCA (drawOf 7) eq_refl).
  - unfold range_ok. simpl. apply Permutation_rev.
  - discriminate.
  - reflexivity.
  - by vm_compute.
  - reflexivity.
Defined.

End EndToEndProps.

(** ** The reconcilers of the issuers: what Ready stands for *)

Module IssuerControllersProps.
Import GoStrings Controllers IssuerControllers.
Import Signer (result, Ok, Err, Panic, PKIConfig).

(** The loader of the request reconciler and the loader of an issuer
    reconciler find the same configuration when they look in the same
    namespace. *)
Lemma loadPKIConfig_agree (env : Env) (ref : ConfigMapReference) (ns : string)
    (cfg : PKIConfig) :
  cmNamespace ref ≠ "" ∨ ns ≠ "" →
  loadPKIConfigForIssuer env ref ns = Ok cfg → loadPKIConfig env ref ns = Ok cfg.
Proof.
  intros Hns. unfold loadPKIConfigForIssuer, loadPKIConfig. cbv zeta.
  change defaultConfigKey with "pki-config.json".
  assert ((if bool_decide ((if bool_decide (cmNamespace ref = "") then ns
                            else cmNamespace ref) = "")
           then defaultNamespace
           else if bool_decide (cmNamespace ref = "") then ns else cmNamespace ref)
          = (if bool_decide (cmNamespace ref = "") then ns else cmNamespace ref)) as ->.
  { rewrite (bool_decide_eq_false_2 (_ = "")); [done |].
    case_bool_decide; [|done]. by destruct Hns. }
  destruct (getConfigMap env _) as [data | |]; [|done..].
  destruct (data !! _); [|done].
  by destruct (json_Unmarshal env _).
Qed.

Lemma loadPKIConfigForClusterIssuer_default (env : Env) (ref : ConfigMapReference) :
  loadPKIConfigForClusterIssuer env ref = loadPKIConfigForIssuer env ref defaultNamespace.
Proof. reflexivity. Qed.

Lemma loadPKIConfigForIssuer_namespace (env : Env) (ref : ConfigMapReference)
    (ns ns' : string) :
  cmNamespace ref ≠ "" →
  loadPKIConfigForIssuer env ref ns = loadPKIConfigForIssuer env ref ns'.
Proof.
  intros Hns. unfold loadPKIConfigForIssuer. cbv zeta.
  by rewrite !(bool_decide_eq_false_2 (cmNamespace ref = "")).
Qed.

(** What a Ready condition with the status [True] stands for, for either
    reconciler. *)
Lemma reconcileIssuer_ready (ienv : IssuerEnv) (found : GetResult IssuerObject)
    (load : IssuerObject → ConfigMapReference → result PKIConfig) (c : StatusCondition) :
  IvSetStatusCondition c ∈ (reconcileIssuer ienv found load).1 →
  condStatus c = "True" →
  ∃ issuer,
    found = Found issuer
    ∧ condType c = "Ready" ∧ condReason c = "Success"
    ∧ condObservedGeneration c = objGeneration issuer
    ∧ condLastTransitionTime c = now (cluster ienv)
    ∧ ((∃ ref cfg,
          SignerType (objSpec issuer) = "pki" ∧ ConfigMapRef (objSpec issuer) = Some ref
          ∧ load issuer ref = Ok cfg
          ∧ Signer.CheckHealth (pkiWorld (cluster ienv)) (Signer.NewPKISigner cfg) = Ok tt)
       ∨ ((SignerType (objSpec issuer) ≠ "pki" ∨ ConfigMapRef (objSpec issuer) = None)
          ∧ mockCheckHealth (cluster ienv) (URL (objSpec issuer)) = Ok tt)).
Proof.
  unfold reconcileIssuer.
  destruct found as [issuer | | e]; [| by intros ?%elem_of_nil..].
  intros Hin Hs. exists issuer. split; [done |]. revert Hin. cbv zeta.
  assert (∀ signerType calls err,
            Forall (λ ev, ev = IvCheckHealth) calls →
            IvSetStatusCondition c ∈ (writeIssuerStatus ienv issuer signerType calls err).1 →
            err = Ok tt
            ∧ condType c = "Ready" ∧ condReason c = "Success"
            ∧ condObservedGeneration c = objGeneration issuer
            ∧ condLastTransitionTime c = now (cluster ienv)) as Hcond.
  { intros signerType calls err Hcalls Hin.
    assert (IvSetStatusCondition c ∉ calls) as Hnot.
    { intros Hc. by apply (proj1 (Forall_forall _ _) Hcalls) in Hc. }
    unfold writeIssuerStatus in Hin.
    destruct err as [[] | e |]; cbn [fst healthCondition] in Hin; [| |done];
      rewrite elem_of_app, !elem_of_cons, elem_of_nil in Hin;
      destruct Hin as [? | [[= ->] | [? | []]]]; try done. }
  destruct (bool_decide ((if bool_decide (SignerType (objSpec issuer) = "") then "mockca"
                          else SignerType (objSpec issuer)) = "pki")) eqn:Hpki.
  - apply bool_decide_eq_true in Hpki.
    assert (SignerType (objSpec issuer) = "pki") as Htype.
    { revert Hpki. by case_bool_decide. }
    destruct (ConfigMapRef (objSpec issuer)) as [ref|] eqn:Href.
    + destruct (load issuer ref) as [cfg | e |] eqn:Hload.
      * intros (Herr & ? & ? & ? & ?)%Hcond; [|by repeat constructor].
        split_and!; try done. left. by exists ref, cfg.
      * intros (Herr & _)%Hcond; [done | by constructor].
      * by intros ?%elem_of_nil.
    + intros (Herr & ? & ? & ? & ?)%Hcond; [|by repeat constructor].
      split_and!; try done. right. split; [by right | done].
  - apply bool_decide_eq_false in Hpki.
    intros (Herr & ? & ? & ? & ?)%Hcond; [|by repeat constructor].
    split_and!; try done. right. split; [|done]. left.
    intros E. apply Hpki. by rewrite E.
Qed.

(** X27: a cluster issuer is marked ready only for a CA that answered.
    When [ClusterIssuerReconciler.Reconcile] sets a Ready condition with
    the status [True], the condition has the reason [Success], the
    generation of the issuer and the time of the clock, and either the
    issuer is of type [pki] with a ConfigMap reference, the configuration
    was loaded and the health check of a PKI signer without a token for it
    returned nil, or the health check of the mock CA signer returned nil.
    If the reference names its namespace, the request reconciler loads the
    same configuration for a request of any namespace; the auth secret of
    the issuer is not read for the health check. *)
Theorem ClusterIssuerReconcile_ready (ienv : IssuerEnv) (req : NamespacedName)
    (c : StatusCondition) :
  IvSetStatusCondition c ∈ (ClusterIssuerReconcile ienv req).1 →
  condStatus c = "True" →
  ∃ issuer,
    getExternalClusterIssuer ienv req = Found issuer
    ∧ condType c = "Ready" ∧ condReason c = "Success"
    ∧ condObservedGeneration c = objGeneration issuer
    ∧ condLastTransitionTime c = now (cluster ienv)
    ∧ ((∃ ref cfg,
          SignerType (objSpec issuer) = "pki" ∧ ConfigMapRef (objSpec issuer) = Some ref
          ∧ loadPKIConfigForClusterIssuer (cluster ienv) ref = Ok cfg
          ∧ Signer.CheckHealth (pkiWorld (cluster ienv)) (Signer.NewPKISigner cfg) = Ok tt
          ∧ (cmNamespace ref ≠ "" →
             ∀ requestNamespace,
               loadPKIConfig (cluster ienv) ref requestNamespace = Ok cfg))
       ∨ ((SignerType (objSpec issuer) ≠ "pki" ∨ ConfigMapRef (objSpec issuer) = None)
          ∧ mockCheckHealth (cluster ienv) (URL (objSpec issuer)) = Ok tt)).
Proof.
  intros Hin Hs.
  destruct (reconcileIssuer_ready _ _ _ _ Hin Hs)
    as (issuer & Hget & Ht & Hr & Hg & Hn & Hcase).
  exists issuer. split_and!; try done.
  destruct Hcase as [(ref & cfg & Htype & Href & Hload & Hhealth) | Hmock]; [|by right].
  left. exists ref, cfg. split_and!; try done.
  intros Hns requestNamespace. apply loadPKIConfig_agree; [by left |].
  rewrite loadPKIConfigForClusterIssuer_default in Hload.
  by rewrite (loadPKIConfigForIssuer_namespace _ _ requestNamespace defaultNamespace).
Qed.

Lemma ClusterIssuerReconcile_ready_witness :
  ∃ issuer,
    getExternalClusterIssuer pkiIssuerEnv exampleKey = Found issuer
    ∧ condType readyTrue = "Ready" ∧ condReason readyTrue = "Success"
    ∧ condObservedGeneration readyTrue = objGeneration issuer
    ∧ condLastTransitionTime readyTrue = now (cluster pkiIssuerEnv)
    ∧ ((∃ ref cfg,
          SignerType (objSpec issuer) = "pki" ∧ ConfigMapRef (objSpec issuer) = Some ref
          ∧ loadPKIConfigForClusterIssuer (cluster pkiIssuerEnv) ref = Ok cfg
          ∧ Signer.CheckHealth (pkiWorld (cluster pkiIssuerEnv)) (Signer.NewPKISigner cfg)
            = Ok tt
          ∧ (cmNamespace ref ≠ "" →
             ∀ requestNamespace,
               loadPKIConfig (cluster pkiIssuerEnv) ref requestNamespace = Ok cfg))
       ∨ ((SignerType (objSpec issuer) ≠ "pki" ∨ ConfigMapRef (objSpec issuer) = None)
          ∧ mockCheckHealth (cluster pkiIssuerEnv) (URL (objSpec issuer)) = Ok tt)).
Proof.
  apply (ClusterIssuerReconcile_ready pkiIssuerEnv exampleKey readyTrue); [|reflexivity].
  vm_compute. apply list_elem_of_further, list_elem_of_here.
Defined.

(** X28: a namespaced issuer is marked ready only for a CA that answered.
    When [IssuerReconciler.Reconcile] sets a Ready condition with the
    status [True], the condition has the reason [Success], the generation
    of the issuer and the time of the clock, and either the issuer is of
    type [pki] with a ConfigMap reference, the configuration was loaded
    from the namespace of the reference, or of the issuer when the
    reference names none, and the health check of a PKI signer without a
    token for it returned nil, or the health check of the mock CA signer
    returned nil.  When one of the two namespaces is not empty the request
    reconciler loads the same configuration for a request in the namespace
    of the issuer. *)
Theorem IssuerReconcile_ready (ienv : IssuerEnv) (req : NamespacedName)
    (c : StatusCondition) :
  IvSetStatusCondition c ∈ (IssuerReconcile ienv req).1 →
  condStatus c = "True" →
  ∃ issuer,
    getExternalIssuer ienv req = Found issuer
    ∧ condType c = "Ready" ∧ condReason c = "Success"
    ∧ condObservedGeneration c = objGeneration issuer
    ∧ condLastTransitionTime c = now (cluster ienv)
    ∧ ((∃ ref cfg,
          SignerType (objSpec issuer) = "pki" ∧ ConfigMapRef (objSpec issuer) = Some ref
          ∧ loadPKIConfigForIssuer (cluster ienv) ref (objNamespace issuer) = Ok cfg
          ∧ Signer.CheckHealth (pkiWorld (cluster ienv)) (Signer.NewPKISigner cfg) = Ok tt
          ∧ (cmNamespace ref ≠ "" ∨ objNamespace issuer ≠ "" →
             loadPKIConfig (cluster ienv) ref (objNamespace issuer) = Ok cfg))
       ∨ ((SignerType (objSpec issuer) ≠ "pki" ∨ ConfigMapRef (objSpec issuer) = None)
          ∧ mockCheckHealth (cluster ienv) (URL (objSpec issuer)) = Ok tt)).
Proof.
  intros Hin Hs.
  destruct (reconcileIssuer_ready _ _ _ _ Hin Hs)
    as (issuer & Hget & Ht & Hr & Hg & Hn & Hcase).
  exists issuer. split_and!; try done.
  destruct Hcase as [(ref & cfg & Htype & Href & Hload & Hhealth) | Hmock]; [|by right].
  left. exists ref, cfg. split_and!; try done.
  intros Hns. by apply loadPKIConfig_agree.
Qed.

Lemma IssuerReconcile_ready_witness :
  ∃ issuer,
    getExternalIssuer pkiIssuerEnv exampleKey = Found issuer
    ∧ condType readyTrue = "Ready" ∧ condReason readyTrue = "Success"
    ∧ condObservedGeneration readyTrue = objGeneration issuer
    ∧ condLastTransitionTime readyTrue = now (cluster pkiIssuerEnv)
    ∧ ((∃ ref cfg,
          SignerType (objSpec issuer) = "pki" ∧ ConfigMapRef (objSpec issuer) = Some ref
          ∧ loadPKIConfigForIssuer (cluster pkiIssuerEnv) ref (objNamespace issuer) = Ok cfg
          ∧ Signer.CheckHealth (pkiWorld (cluster pkiIssuerEnv)) (Signer.NewPKISigner cfg)
            = Ok tt
          ∧ (cmNamespace ref ≠ "" ∨ objNamespace issuer ≠ "" →
             loadPKIConfig (cluster pkiIssuerEnv) ref (objNamespace issuer) = Ok cfg))
       ∨ ((SignerType (objSpec issuer) ≠ "pki" ∨ ConfigMapRef (objSpec issuer) = None)
          ∧ mockCheckHealth (cluster pkiIssuerEnv) (URL (objSpec issuer)) = Ok tt)).
Proof.
  apply (IssuerReconcile_ready pkiIssuerEnv exampleKey readyTrue); [|reflexivity].
  vm_compute. apply list_elem_of_further, list_elem_of_here.
Defined.

End IssuerControllersProps.

(** ** The JSON endpoint of the mock CA server *)

Module MockCAJsonProps.
Import GoStrings MockCA MockCAJson.
Import Signer (result, Ok, Err, Panic, World, pem_Decode, x509_ParseCertificateRequest,
               x509_CheckSignature, Bytes, wrap64).
Import X509 (Lib, Draw, x509_CreateCertificate, pem_EncodeToMemory, drawSerial).

Lemma handleSign_frame (w : World) (lib : Lib) (slib : ServerLib) (ca : MockCA)
    (d : Draw) (r : SignHTTPRequest) :
  let ca' := (handleSign w lib slib ca d r).1 in
  caCert ca' = caCert ca ∧ caKey ca' = caKey ca ∧ caPEM ca' = caPEM ca
  ∧ config ca' = config ca ∧ certStore ca' = certStore ca.
Proof.
  intros ca'. subst ca'. unfold handleSign.
  destruct (bool_decide (signMethod r ≠ "POST")); [done |].
  destruct (signBodyErr r); [done |].
  destruct (readSignRequest slib r) as [signReq | e |]; [|done..].
  destruct (bool_decide (srCSR signReq = "")); [done |].
  destruct (pem_Decode w (srCSR signReq)) as [block|]; [|done].
  destruct (x509_ParseCertificateRequest w (Bytes block)) as [csr | e |]; [|done..].
  destruct (x509_CheckSignature w csr); [done |].
  cbv zeta.
  destruct (drawSerial d) as [serial | e |]; [|done..].
  by destruct (x509_CreateCertificate _ _ _ _ _) as [der | e |].
Qed.

(** X29: what the JSON endpoint does.  [handleSign] never changes the CA
    certificate, its key, the configuration or the store of the legacy
    front-end.  When it sends a [SignResponse], the method was POST, the
    CSR of the request decoded and parsed and its signature check returned
    nil, the certificate is the PEM form of what [x509.CreateCertificate]
    made from the template with the subject and all SANs of the CSR, for
    the validity of the request when that is positive and of the
    configuration otherwise, under the CA of the server; the chain is the
    certificate followed by the CA certificate, the CA field is what
    [handleGetCA] serves, and the counter is one higher.  When it sends an
    error, or panics, the state is as before. *)
Theorem handleSign_outcome (w : World) (lib : Lib) (slib : ServerLib) (ca : MockCA)
    (d : Draw) (r : SignHTTPRequest) :
  let ca' := (handleSign w lib slib ca d r).1 in
  caCert ca' = caCert ca ∧ caKey ca' = caKey ca ∧ caPEM ca' = caPEM ca
  ∧ config ca' = config ca ∧ certStore ca' = certStore ca
  ∧ match (handleSign w lib slib ca d r).2 with
    | SignOk resp =>
        signMethod r = "POST" ∧ signBodyErr r = None
        ∧ signCount ca' = wrap64 (signCount ca + 1)
        ∧ ∃ signReq block csr serial der,
            readSignRequest slib r = Ok signReq
            ∧ pem_Decode w (srCSR signReq) = Some block
            ∧ x509_ParseCertificateRequest w (Bytes block) = Ok csr
            ∧ x509_CheckSignature w csr = None
            ∧ drawSerial d = Ok serial
            ∧ x509_CreateCertificate lib
                (signTemplate lib d serial csr (signValidityDays ca signReq))
                (X509.IssuedBy (caCert ca)) (Signer.PublicKey csr) (caKey ca) = Ok der
            ∧ respCertificate resp = pem_EncodeToMemory lib "CERTIFICATE" der
            ∧ respCertificateChain resp = respCertificate resp +:+ caPEM ca
            ∧ respCA resp = dlBody (handleGetCA ca)
            ∧ respSerialNumber resp = pretty serial
    | _ => ca' = ca
    end.
Proof.
  intros ca'. subst ca'. unfold handleSign.
  destruct (bool_decide (signMethod r ≠ "POST")) eqn:Hm; [done |].
  apply bool_decide_eq_false in Hm. apply dec_stable in Hm.
  destruct (signBodyErr r) eqn:Hb; [done |].
  destruct (readSignRequest slib r) as [signReq | e |] eqn:Hreq; [|done..].
  destruct (bool_decide (srCSR signReq = "")); [done |].
  destruct (pem_Decode w (srCSR signReq)) as [block|] eqn:Hd; [|done].
  destruct (x509_ParseCertificateRequest w (Bytes block)) as [csr | e |] eqn:Hp; [|done..].
  destruct (x509_CheckSignature w csr) eqn:Hs; [done |].
  cbv zeta.
  destruct (drawSerial d) as [serial | e |] eqn:Hn; [|done..].
  destruct (x509_CreateCertificate _ _ _ _ _) as [der | e |] eqn:Hder; [|done..].
  simpl. split_and!; try done.
  by exists signReq, block, csr, serial, der.
Qed.

(** X30: the counter of signed certificates never shows in an answer of
    the legacy front-end, and the JSON endpoint stores nothing: after a
    request at the JSON endpoint the legacy front-end answers every
    request as it would have answered before, and leaves the same
    store. *)
Theorem handlePKISign_after_handleSign (w : World) (lib : Lib) (slib : ServerLib)
    (ca : MockCA) (d d' : Draw) (r : SignHTTPRequest) (r' : Request) :
  let ca' := (handleSign w lib slib ca d r).1 in
  (handlePKISign lib ca' d' r').2 = (handlePKISign lib ca d' r').2
  ∧ certStore (handlePKISign lib ca' d' r').1 = certStore (handlePKISign lib ca d' r').1.
Proof.
  intros ca'.
  assert (caCert ca' = caCert ca ∧ caKey ca' = caKey ca ∧ caPEM ca' = caPEM ca
          ∧ config ca' = config ca ∧ certStore ca' = certStore ca)
    as (Hcert & Hkey & Hpem & Hcfg & Hstore).
  { pose proof (handleSign_frame w lib slib ca d r) as H. exact H. }
  clearbody ca'. unfold handlePKISign.
  destruct (bool_decide (ReqMethod r' ≠ "POST")); [done |].
  destruct (ReqBody r') as [body | |]; [|done..].
  cbv zeta.
  destruct (bool_decide (default "" (parsePKIParams body !! "subject") = "")); [done |].
  destruct (bool_decide (Signer.CommonName (parseDN _) = "")); [done |].
  rewrite Hstore, Hpem.
  destruct (bool_decide (is_Some (parsePKIParams body !! "getCERT")));
    [by destruct (certStore ca !! _) |].
  destruct (bool_decide (is_Some (parsePKIParams body !! "getKEY")));
    [by destruct (certStore ca !! _) as [[? [?|] ? ?]|] |].
  destruct (bool_decide (is_Some (parsePKIParams body !! "getCSR")));
    [by destruct (certStore ca !! _) as [[? ? [?|] ?]|] |].
  destruct (if _ && _ then _ else _); [done |].
  unfold issueCertificate, certTemplate. rewrite Hcert, Hkey, Hpem, Hcfg, Hstore.
  destruct (drawSerial d'); [|done..].
  destruct (X509.drawKey d'); [|done..].
  by destruct (x509_CreateCertificate _ _ _ _ _).
Qed.

(** A JSON request for 30 days is answered with a certificate for 30
    days, and the counter goes up. *)
Lemma handleSign_example :
  ∃ resp,
    (handleSign MockSignerAux.goodWorld textLib exampleServerLib freshCA (drawOf 5)
       jsonSignRequest).2 = SignOk resp
    ∧ respCertificate resp = "[CERTIFICATE:serial=5,CN=example.com]"
    ∧ respNotAfter resp = pretty (30 * 1440 * X509.Minute)%Z
    ∧ signCount (handleSign MockSignerAux.goodWorld textLib exampleServerLib freshCA
                   (drawOf 5) jsonSignRequest).1 = 1%Z.
Proof. eexists. split_and!; by vm_compute. Qed.

End MockCAJsonProps.

(** ** The order of the semicolon body *)

Module SemicolonOrderFacts.
Import GoStrings Signer SignerAux SignerFacts.

(** C5: the semicolon body is not an ordered serialization.  The semicolon
    branch of [makeRequest] ranges over the parameter map.  When [range]
    visits the scenario's parameters from the second inserted entry on,
    an order that Go allows, the body is
    [subject=/C=US/O=Example/CN=app.example.com;DNS2=alt.example.com;new=1]
    and not the body of the design document; and of all the orders that
    Go allows only the order of insertion gives that body. *)
Theorem requestBody_semicolon_order_bug :
  range_ok rotatedWorld (buildRequestParams scenarioSigner scenarioCSR)
  ∧ map_range rotatedWorld (buildRequestParams scenarioSigner scenarioCSR)
    = [("subject", ["/C=US/O=Example/CN=app.example.com"]); ("DNS2", ["alt.example.com"]);
       ("new", ["1"])]
  ∧ requestBody rotatedWorld scenarioSigner (buildRequestParams scenarioSigner scenarioCSR)
    = rotatedBody
  ∧ rotatedBody ≠ scenarioBody
  ∧ (∀ w : World,
       range_ok w (buildRequestParams scenarioSigner scenarioCSR) →
       requestBody w scenarioSigner (buildRequestParams scenarioSigner scenarioCSR)
       = scenarioBody →
       map_range w (buildRequestParams scenarioSigner scenarioCSR)
       = insertionOrder (buildRequestParams scenarioSigner scenarioCSR)).
Proof.
  split_and!.
  - unfold range_ok. rewrite scenario_params. cbn [rotatedWorld stubWorld map_range].
    unfold rotatedOrder, insertionOrder. vm_compute rotate. solve_Permutation.
  - reflexivity.
  - by vm_compute.
  - discriminate.
  - intros w Hr. unfold range_ok in Hr. rewrite scenario_params in Hr.
    unfold requestBody. rewrite bool_decide_eq_true_2 by done.
    symmetry in Hr. apply permutations_Permutation in Hr.
    revert Hr. generalize (map_range w (buildRequestParams scenarioSigner scenarioCSR)).
    intros order Hin. vm_compute in Hin.
    repeat (apply elem_of_cons in Hin as [-> | Hin]); [..|by apply elem_of_nil in Hin];
      intros Hbody; first [reflexivity | by vm_compute in Hbody].
Qed.

End SemicolonOrderFacts.

(** ** The leaf certificate of the mock CA signer *)

Module MockSignerLeafFacts.
Import GoStrings MockSigner MockSignerAux.
Import Signer (result, Ok, Err, Panic, World, pem_Decode, x509_ParseCertificateRequest,
               x509_CheckSignature, Bytes).
Import X509 (Lib, Draw, drawSerial, clockNotBefore, clockNotAfter, time_AddDate,
             x509_CreateCertificate, pem_EncodeToMemory).




End MockSignerLeafFacts.

(** ** Signing once *)

Module ReconcileAgainFacts.
Import GoStrings Controllers ControllersAux ReconcileAgain ControllersFacts ControllersProps.
Import Signer (result, Ok, Err, Panic).








End ReconcileAgainFacts.
